(** * lumera-ica-client: configuration, keyring and command workflows

    A shallow embedding of the Go sources of the ICA reference client
    ([client/config.go], [client/cascade_client.go], [client/lumera_client.go],
    [client/ica_controller.go], [cmd/commands.go], [cmd/upload.go],
    [cmd/download.go], [cmd/action.go]) together with the properties the
    specification states about them.

    Go strings are byte sequences and are modelled by [string]; [[]byte] is
    [list byte]; a Go [error] is its message.  Calls that leave the process
    (ledger queries, mesh transfers, the keystore backend, standard output)
    are answered by a [World] of oracles and recorded in a trace of
    [event]s, so that "no such call is made" is a statement about the trace. *)

From Stdlib Require Import Strings.Byte Ascii String ZArith Lia.
From stdpp Require Import base strings list gmap pretty.

Local Open Scope Z_scope.
Local Open Scope nat_scope.

(** ** Go's [strings] package, as far as the client uses it *)

Module GoStrings.

(** The table [asciiSpace] of package [strings]. *)
Definition asciiSpace (c : ascii) : bool :=
  match c with
  | "009" | "010" | "011" | "012" | "013" | " " => true
  | _ => false
  end%char.

Definition byte_is (c : ascii) (n : N) : bool := N.eqb (N_of_ascii c) n.

(** [unicode.IsSpace] on the runes outside ASCII, read on their UTF-8
    encodings.  Two bytes: U+0085 and U+00A0. *)
Definition space2 (c1 c2 : ascii) : bool :=
  byte_is c1 194 && (byte_is c2 133 || byte_is c2 160).

(** Three bytes: U+1680, U+2000..U+200A, U+2028, U+2029, U+202F, U+205F
    and U+3000. *)
Definition space3 (c1 c2 c3 : ascii) : bool :=
  (byte_is c1 225 && byte_is c2 154 && byte_is c3 128)
  || (byte_is c1 226 && byte_is c2 128
      && ((N.leb 128 (N_of_ascii c3) && N.leb (N_of_ascii c3) 138)
          || byte_is c3 168 || byte_is c3 169 || byte_is c3 175))
  || (byte_is c1 226 && byte_is c2 129 && byte_is c3 159)
  || (byte_is c1 227 && byte_is c2 128 && byte_is c3 128).

(** Dropping the white-space runes at the front of a string.  With
    [backwards] the string is read from its end (it was reversed), so the
    bytes of an encoding arrive last byte first.  An ill-formed or
    over-long sequence decodes to [utf8.RuneError], which is no space, and
    stops the scan. *)
Fixpoint dropSpaces (backwards : bool) (s : string) : string :=
  match s with
  | EmptyString => EmptyString
  | String c1 r1 =>
    if asciiSpace c1 then dropSpaces backwards r1 else
    match r1 with
    | EmptyString => s
    | String c2 r2 =>
      if (if backwards then space2 c2 c1 else space2 c1 c2)
      then dropSpaces backwards r2 else
      match r2 with
      | EmptyString => s
      | String c3 r3 =>
        if (if backwards then space3 c3 c2 c1 else space3 c1 c2 c3)
        then dropSpaces backwards r3 else s
      end
    end
  end.

(** [strings.TrimSpace]: the slice of [s] without leading and trailing
    white space, as defined by Unicode. *)
Definition TrimSpace (s : string) : string :=
  String.rev (dropSpaces true (String.rev (dropSpaces false s))).

(** [strings.HasPrefix]. *)
Definition HasPrefix (s pre : string) : bool := String.prefix pre s.

(** The ASCII part of [strings.ToLower]: 'A'..'Z' become 'a'..'z', every
    other byte is kept. *)
Definition lower_byte (c : ascii) : ascii :=
  let n := N_of_ascii c in
  if N.leb 65 n && N.leb n 90 then ascii_of_N (n + 32) else c.

Fixpoint lower_ascii (s : string) : string :=
  match s with
  | EmptyString => EmptyString
  | String c r => String (lower_byte c) (lower_ascii r)
  end.

(** A string all of whose bytes are below [utf8.RuneSelf]. *)
Fixpoint is_ascii (s : string) : bool :=
  match s with
  | EmptyString => true
  | String c r => N.ltb (N_of_ascii c) 128 && is_ascii r
  end.

(** A blank value: nothing is left once white space is trimmed. *)
Definition blank (s : string) : bool :=
  if decide (TrimSpace s = "") then true else false.

(** The one-byte strings the sources write as escapes. *)
Definition tab : string := String "009"%char "".
Definition newline : string := String "010"%char "".
Definition nbsp : string := String (ascii_of_N 194) (String (ascii_of_N 160) "").

End GoStrings.
Import GoStrings.

(** ** Fallible results *)

(** A Go [error] value, by its message. *)
Definition error := string.

Inductive result (A : Type) : Type :=
| Ok (a : A)
| Err (e : error).
Arguments Ok {A} a.
Arguments Err {A} e.

Definition is_ok {A} (r : result A) : bool :=
  match r with Ok _ => true | Err _ => false end.


Definition wrap (prefix : string) (r : error) : error := prefix +:+ r.

(** ** client/config.go *)

(** LumeraConfig stores the host chain connection settings.  [KeyType] is
    the [key_type] setting that [NewCascadeClient] reads; validation does
    not look at it. *)
Module LumeraConfig.
Record t : Type := mk {
  ChainID : string;
  GRPCEndpoint : string;
  RPCEndpoint : string;
  LogLevel : string;
  KeyName : string;
  KeyType : string
}.
Definition with_LogLevel (v : string) (c : t) : t :=
  mk (ChainID c) (GRPCEndpoint c) (RPCEndpoint c) v (KeyName c) (KeyType c).
Definition with_ChainID (v : string) (c : t) : t :=
  mk v (GRPCEndpoint c) (RPCEndpoint c) (LogLevel c) (KeyName c) (KeyType c).
End LumeraConfig.

(** ControllerConfig stores controller chain and keyring settings;
    [KeyType] as in [LumeraConfig]. *)
Module ControllerConfig.
Record t : Type := mk {
  ChainID : string;
  GRPCEndpoint : string;
  RPCEndpoint : string;
  Binary : string;
  Home : string;
  KeyName : string;
  KeyType : string;
  KeyringBackend : string;
  KeyringDir : string;
  KeyringPassphrasePlain : string;
  KeyringPassphraseFile : string;
  GasPrices : string;
  AccountHRP : string;
  ConnectionID : string;
  CounterpartyConnectionID : string
}.
Definition with_Home (v : string) (c : t) : t :=
  mk (ChainID c) (GRPCEndpoint c) (RPCEndpoint c) (Binary c) v (KeyName c)
     (KeyType c) (KeyringBackend c) (KeyringDir c) (KeyringPassphrasePlain c)
     (KeyringPassphraseFile c) (GasPrices c) (AccountHRP c) (ConnectionID c)
     (CounterpartyConnectionID c).
Definition with_KeyringBackend (v : string) (c : t) : t :=
  mk (ChainID c) (GRPCEndpoint c) (RPCEndpoint c) (Binary c) (Home c) (KeyName c)
     (KeyType c) v (KeyringDir c) (KeyringPassphrasePlain c)
     (KeyringPassphraseFile c) (GasPrices c) (AccountHRP c) (ConnectionID c)
     (CounterpartyConnectionID c).
Definition with_KeyringDir (v : string) (c : t) : t :=
  mk (ChainID c) (GRPCEndpoint c) (RPCEndpoint c) (Binary c) (Home c) (KeyName c)
     (KeyType c) (KeyringBackend c) v (KeyringPassphrasePlain c)
     (KeyringPassphraseFile c) (GasPrices c) (AccountHRP c) (ConnectionID c)
     (CounterpartyConnectionID c).
Definition with_KeyringPassphrasePlain (v : string) (c : t) : t :=
  mk (ChainID c) (GRPCEndpoint c) (RPCEndpoint c) (Binary c) (Home c) (KeyName c)
     (KeyType c) (KeyringBackend c) (KeyringDir c) v
     (KeyringPassphraseFile c) (GasPrices c) (AccountHRP c) (ConnectionID c)
     (CounterpartyConnectionID c).
Definition with_KeyringPassphraseFile (v : string) (c : t) : t :=
  mk (ChainID c) (GRPCEndpoint c) (RPCEndpoint c) (Binary c) (Home c) (KeyName c)
     (KeyType c) (KeyringBackend c) (KeyringDir c) (KeyringPassphrasePlain c)
     v (GasPrices c) (AccountHRP c) (ConnectionID c)
     (CounterpartyConnectionID c).
End ControllerConfig.

(** Config is the root configuration for the ICA reference client. *)
Record Config : Type := mkConfig {
  Lumera : LumeraConfig.t;
  Controller : ControllerConfig.t
}.

Definition with_Lumera (f : LumeraConfig.t -> LumeraConfig.t) (c : Config) : Config :=
  mkConfig (f (Lumera c)) (Controller c).
Definition with_Controller (f : ControllerConfig.t -> ControllerConfig.t) (c : Config) : Config :=
  mkConfig (Lumera c) (f (Controller c)).

(** What the process reads from its surroundings while loading a
    configuration: the TOML decoder, the file system and the path helpers
    of [os] and [path/filepath]. *)
Record Host : Type := mkHost {
  DecodeFile : string -> result Config;
  ReadFile : string -> result string;
  UserHomeDir : result string;
  Join : string -> string -> string;
  Clean : string -> string;
  Abs : string -> result string;
  Base : string -> string
}.

Section ConfigFile.

(** [strings.ToLower] follows the Unicode case tables; the development
    is parametric in it and only ever assumes how it acts on ASCII. *)
Variable ToLower : string -> string.
Variable h : Host.

(** normalizeLogLevel maps user input to supported log levels. *)
Definition normalizeLogLevel (value : string) : result string :=
  let val := ToLower (TrimSpace value) in
  if String.eqb val "" then Ok "info"
  else if String.eqb val "debug" || String.eqb val "info"
          || String.eqb val "warn" || String.eqb val "error" then Ok val
  else if String.eqb val "warning" then Ok "warn"
  else Err "lumera.log_level must be one of: debug, info, warn, error".

(** expandHome resolves "~" prefixes into the OS user home directory. *)
Definition expandHome (value : string) : result string :=
  if String.eqb value "" then Ok value
  else if String.eqb value "~" then
    match UserHomeDir h with
    | Err e => Err e
    | Ok home => Ok home
    end
  else if HasPrefix value "~/" || HasPrefix value "~\" then
    match UserHomeDir h with
    | Err e => Err e
    | Ok home =>
      let rest := String.substring 2 (String.length value - 2) value in
      Ok (Join h home rest)
    end
  else Ok value.

(** ExpandPaths expands tilde-prefixed values in place.  The receiver is
    updated field by field, so the configuration is returned next to the
    error. *)
Definition ExpandPaths (c : Config) : Config * option error :=
  match expandHome (ControllerConfig.Home (Controller c)) with
  | Err e => (with_Controller (ControllerConfig.with_Home "") c,
              Some (wrap "expand controller.home: " e))
  | Ok v =>
    let c := with_Controller (ControllerConfig.with_Home v) c in
    match expandHome (ControllerConfig.KeyringDir (Controller c)) with
    | Err e => (with_Controller (ControllerConfig.with_KeyringDir "") c,
                Some (wrap "expand controller.keyring_dir: " e))
    | Ok v =>
      let c := with_Controller (ControllerConfig.with_KeyringDir v) c in
      match expandHome (ControllerConfig.KeyringPassphraseFile (Controller c)) with
      | Err e => (with_Controller (ControllerConfig.with_KeyringPassphraseFile "") c,
                  Some (wrap "expand controller.keyring_passphrase_file: " e))
      | Ok v =>
        (with_Controller (ControllerConfig.with_KeyringPassphraseFile v) c, None)
      end
    end
  end.

(** Validate checks the config for required fields and consistency.  It
    also normalizes the log level and the keyring backend name in the
    receiver, which is returned next to the error. *)
Definition Validate (c : Config) : Config * option error :=
  match normalizeLogLevel (LumeraConfig.LogLevel (Lumera c)) with
  | Err e => (c, Some e)
  | Ok logLevel =>
    let c := with_Lumera (LumeraConfig.with_LogLevel logLevel) c in
    if blank (LumeraConfig.ChainID (Lumera c)) then
      (c, Some "lumera.chain_id is required")
    else if blank (LumeraConfig.GRPCEndpoint (Lumera c)) then
      (c, Some "lumera.grpc_endpoint is required")
    else if blank (LumeraConfig.RPCEndpoint (Lumera c)) then
      (c, Some "lumera.rpc_endpoint is required")
    else if blank (LumeraConfig.KeyName (Lumera c)) then
      (c, Some "lumera.key_name is required")
    else if blank (ControllerConfig.ChainID (Controller c)) then
      (c, Some "controller.chain_id is required")
    else if blank (ControllerConfig.GRPCEndpoint (Controller c)) then
      (c, Some "controller.grpc_endpoint is required")
    else if blank (ControllerConfig.RPCEndpoint (Controller c)) then
      (c, Some "controller.rpc_endpoint is required")
    else if blank (ControllerConfig.KeyName (Controller c)) then
      (c, Some "controller.key_name is required")
    else if blank (ControllerConfig.KeyringBackend (Controller c)) then
      (c, Some "controller.keyring_backend is required")
    else if blank (ControllerConfig.AccountHRP (Controller c)) then
      (c, Some "controller.account_hrp is required")
    else if blank (ControllerConfig.ConnectionID (Controller c)) then
      (c, Some "controller.connection_id is required")
    else if negb (blank (ControllerConfig.KeyringPassphrasePlain (Controller c)))
            && negb (blank (ControllerConfig.KeyringPassphraseFile (Controller c))) then
      (c, Some "only one of controller.keyring_passphrase_plain or controller.keyring_passphrase_file may be set")
    else
      let backend := ToLower (TrimSpace (ControllerConfig.KeyringBackend (Controller c))) in
      if String.eqb backend "os" || String.eqb backend "file"
         || String.eqb backend "test" then
        let c := with_Controller (ControllerConfig.with_KeyringBackend backend) c in
        if String.eqb backend "file"
           && blank (ControllerConfig.KeyringDir (Controller c)) then
          (c, Some "controller.keyring_dir is required for file backend")
        else if negb (blank (ControllerConfig.KeyringPassphraseFile (Controller c))) then
          match ReadFile h (ControllerConfig.KeyringPassphraseFile (Controller c)) with
          | Err e => (c, Some (wrap "read controller.keyring_passphrase_file: " e))
          | Ok b =>
            if blank b then (c, Some "controller.keyring_passphrase_file is empty")
            else (c, None)
          end
        else (c, None)
      else (c, Some "controller.keyring_backend must be one of: os, file, test")
  end.

(** LoadConfig reads a TOML config file, expands paths, and validates
    the result. *)
Definition LoadConfig (path : string) : result Config :=
  match DecodeFile h path with
  | Err e => Err (wrap "decode config: " e)
  | Ok cfg =>
    match ExpandPaths cfg with
    | (_, Some e) => Err e
    | (cfg, None) =>
      match Validate cfg with
      | (_, Some e) => Err e
      | (cfg, None) => Ok cfg
      end
    end
  end.

End ConfigFile.

(** ** client/cascade_client.go: the cyclic passphrase reader *)

(** [repeatReader] loops over [data]; [pos] is the next byte to hand out. *)
Record repeatReader : Type := mkRepeatReader {
  data : list byte;
  pos : nat
}.

(** Go's [copy(p[n:n+len(src)], src)]: the bytes of [src] overwrite [p]
    from index [n] on, the rest of [p] stays. *)
Definition copy_at (p : list byte) (n : nat) (src : list byte) : list byte :=
  take n p ++ src ++ drop (n + length src) p.

(** The loop of [Read].  Every round hands out at least one byte, so
    [fuel] bounds the rounds; [None] says the fuel ran out before the loop
    condition [n < len(p)] failed.  [pos] never exceeds [len(data)] in a
    reader made by [passphraseReader], which keeps the subtraction exact. *)
Fixpoint Read_loop (fuel : nat) (r : repeatReader) (p : list byte) (n : nat)
  : option (repeatReader * list byte * nat) :=
  if n <? length p then
    match fuel with
    | 0 => None
    | S fuel =>
      let remaining := length (data r) - pos r in
      let '(rpos, remaining) :=
        if remaining =? 0 then (0, length (data r)) else (pos r, remaining) in
      let chunk := if length p - n <? remaining then length p - n else remaining in
      let p := copy_at p n (take chunk (drop rpos (data r))) in
      Read_loop fuel (mkRepeatReader (data r) (rpos + chunk)) p (n + chunk)
    end
  else Some (r, p, n).

(** The error [io.EOF]. *)
Definition EOF : error := "EOF".

(** Read loops the underlying data to satisfy repeated keyring reads.  It
    returns the reader and the buffer as the call leaves them, the count
    [n] and the error. *)
Definition Read (r : repeatReader) (p : list byte)
  : option (repeatReader * list byte * nat * option error) :=
  if length (data r) =? 0 then Some (r, p, 0, Some EOF)
  else
    match Read_loop (length p) r p 0 with
    | Some (r, p, n) => Some (r, p, n, None)
    | None => None
    end.

(** passphraseReader: a nil reader for the empty passphrase, else a reader
    over the passphrase followed by a newline. *)
Definition passphraseReader (passphrase : string) : option repeatReader :=
  if String.eqb passphrase "" then None
  else Some (mkRepeatReader (String.list_byte_of_string (passphrase +:+ newline)) 0).

(** Successive [Read] calls, one per buffer, on one reader: the reader
    after the last call and what each call returned. *)
Fixpoint Reads (r : repeatReader) (bufs : list (list byte))
  : option (repeatReader * list (list byte * nat * option error)) :=
  match bufs with
  | [] => Some (r, [])
  | p :: bufs =>
    match Read r p with
    | None => None
    | Some (r, p, n, e) =>
      match Reads r bufs with
      | None => None
      | Some (r, outs) => Some (r, (p, n, e) :: outs)
      end
    end
  end.

(** The bytes a call handed out: the first [n] of the buffer. *)
Definition delivered (out : list byte * nat * option error) : list byte :=
  take (out.1.2) (out.1.1).

(** The infinite cyclic repetition of [d], as a stream indexed by
    position, and its prefix of length [n]. *)
Definition cyclic (d : list byte) (i : nat) : byte :=
  nth (i mod length d) d x00.

(** The bytes of the cyclic stream from position [a] on, [k] of them. *)
Definition stream (d : list byte) (a k : nat) : list byte :=
  map (fun i => cyclic d (a + i)) (seq 0 k).

(** What one [Read] call returned for the buffer [p]: it filled the
    whole buffer and reported no error. *)
Definition full_read (p : list byte) (out : list byte * nat * option error) : Prop :=
  out.1.2 = length p /\ out.2 = None /\ length out.1.1 = length p.

(** ** Collaborators: handles, records and calls *)

(** Handles to objects that live outside the client: the opened keystore,
    the SDK's cascade client, a ledger query client, an ICA controller. *)
Inductive Keyring : Type := KeyringHandle (id : nat).
Inductive CascadeClient : Type := CascadeHandle (id : nat).
Inductive BlockchainClient : Type := BlockchainHandle (id : nat).
Inductive ICAController : Type := ICAHandle (id : nat).
Inductive KeyRecord : Type := KeyRecordHandle (id : nat).

(** [Controller] wraps the sdk-go ICA controller; [inner] may be nil. *)
Record Controller_ : Type := mkController {
  inner : option ICAController
}.

(** [sdkcrypto.KeyringParams]; [Input] is the passphrase reader, nil when
    there is no passphrase. *)
Record KeyringParams : Type := mkKeyringParams {
  AppName : string;
  Backend : string;
  Dir : string;
  Input : option repeatReader
}.

(** [cascade.Config] as [NewCascadeClient] fills it; [Timeout] in seconds. *)
Record CascadeConfig : Type := mkCascadeConfig {
  casc_ChainID : string;
  casc_GRPCAddr : string;
  casc_Address : string;
  casc_KeyName : string;
  casc_ICAOwnerKeyName : string;
  casc_ICAOwnerHRP : string;
  casc_Timeout : nat;
  casc_LogLevel : string
}.

(** [blockchain.Config]; a gas price is a decimal with 18 fractional
    digits, kept as the scaled integer. *)
Record BlockchainConfig : Type := mkBlockchainConfig {
  bc_ChainID : string;
  bc_GRPCAddr : string;
  bc_RPCEndpoint : string;
  bc_AccountHRP : string;
  bc_FeeDenom : string;
  bc_GasPrice : Z;
  bc_Timeout : nat;
  bc_MaxRecvMsgSize : Z;
  bc_MaxSendMsgSize : Z
}.

(** [ica.Config]. *)
Record ICAConfig : Type := mkICAConfig {
  ica_Controller : BlockchainConfig;
  ica_Host : BlockchainConfig;
  ica_Keyring : Keyring;
  ica_KeyName : string;
  ica_HostKeyName : string;
  ica_ConnectionID : string;
  ica_CounterpartyConnectionID : string
}.

(** The state of an action is a name owned by the host ledger. *)
Definition ActionState := string.

(** [types.CascadeMetadata], the fields the client reads. *)
Record CascadeMetadata : Type := mkCascadeMetadata {
  Public : bool;
  FileName : string
}.

(** The metadata of an action is an interface value: nil, a pointer to
    [CascadeMetadata] (itself possibly nil), or the metadata of another
    action type. *)
Inductive Metadata : Type :=
| MetadataNil
| MetadataCascade (meta : option CascadeMetadata)
| MetadataOther.

(** [types.Action]; times are Unix seconds. *)
Record Action : Type := mkAction {
  ID : string;
  State : ActionState;
  Type_ : string;
  Creator : string;
  Price : string;
  BlockHeight : Z;
  ExpirationTime : Z;
  Metadata_ : Metadata;
  AppPubkey : list byte
}.

(** [types.ActionResult] and the result of a download. *)
Record ActionResult : Type := mkActionResult {
  ar_ActionID : string;
  ar_TxHash : string;
  ar_TaskID : string
}.

Record DownloadResult : Type := mkDownloadResult {
  dl_ActionID : string;
  dl_TaskID : string;
  dl_OutputPath : string
}.

(** [actiontypes.MsgApproveAction]. *)
Record MsgApproveAction : Type := mkMsgApproveAction {
  msg_Creator : string;
  msg_ActionId : string
}.

(** The values a result record holds, and the record itself: Go's
    [map[string]any]. *)
Inductive JSON : Type :=
| JString (s : string)
| JBool (b : bool)
| JInt (z : Z).

Abbreviation payload := (gmap string JSON).

(** The calls that leave the client, in the order a command makes them. *)
Inductive event : Type :=
| EvNewKeyring (params : KeyringParams)
| EvCascadeNew (cfg : CascadeConfig) (kr : Keyring)
| EvCascadeClose (c : CascadeClient)
| EvBlockchainNew (cfg : BlockchainConfig) (kr : Keyring) (keyName : string)
| EvBlockchainClose (bc : BlockchainClient)
| EvGetAction (bc : BlockchainClient) (actionID : string)
| EvUploadToSupernode (c : CascadeClient) (actionID path signer : string)
| EvUpload (c : CascadeClient) (creator path icaCreator : string)
           (appPubkey : list byte) (sender : Controller_) (public : bool)
| EvDownload (c : CascadeClient) (actionID outDir signer : string)
| EvNewController (cfg : ICAConfig)
| EvControllerClose (ctl : ICAController)
| EvEnsureICAAddress (ctl : ICAController)
| EvICAAddress (ctl : ICAController)
| EvCreateApproveActionMessage (actionID creator : string)
| EvSendApproveAction (ctl : ICAController) (msg : MsgApproveAction)
| EvMkdirAll (dir : string)
| EvWriteJSON (p : payload).

(** The answers of the collaborators.  [ParseKeyType] stands for the key
    type table of the client, which is not part of the sources at hand: it
    parses a configured key type and answers the name of its signing
    algorithm.  [Key] and [GetPubKey] look a key up in the keystore, the
    latter answering the type of its public key.  [ParseDecCoins] is the
    SDK's parser of gas prices, [EncodeToString] is standard base64. *)
Record World : Type := mkWorld {
  host : Host;
  NewKeyring : KeyringParams -> result Keyring;
  ParseKeyType : string -> result string;
  Key : Keyring -> string -> result KeyRecord;
  GetPubKey : KeyRecord -> result string;
  AddressFromKey : Keyring -> string -> string -> result string;
  CascadeNew : CascadeConfig -> Keyring -> result CascadeClient;
  BlockchainNew : BlockchainConfig -> Keyring -> string -> result BlockchainClient;
  GetAction : BlockchainClient -> string -> result Action;
  UploadToSupernode : CascadeClient -> string -> string -> string -> result string;
  Upload : CascadeClient -> string -> string -> string -> list byte -> Controller_
           -> bool -> result ActionResult;
  Download : CascadeClient -> string -> string -> string -> result DownloadResult;
  ParseDecCoins : string -> result (list (Z * string));
  NewController : ICAConfig -> result ICAController;
  inner_OwnerAddress : ICAController -> string;
  inner_AppPubkey : ICAController -> list byte;
  inner_EnsureICAAddress : ICAController -> result string;
  inner_ICAAddress : ICAController -> result string;
  CreateApproveActionMessage : string -> string -> result MsgApproveAction;
  inner_SendApproveAction : ICAController -> MsgApproveAction -> result string;
  MkdirAll : string -> option error;
  Encode : payload -> option error;
  EncodeToString : list byte -> string
}.

(** ** Commands as traced, fallible computations *)

Definition M (A : Type) : Type := list event * result A.

Definition ret {A} (a : A) : M A := ([], Ok a).
Definition fail {A} (e : error) : M A := ([], Err e).
Definition lift {A} (r : result A) : M A := ([], r).
Definition call {A} (ev : event) (r : result A) : M A := ([ev], r).

Definition bind {A B} (m : M A) (f : A -> M B) : M B :=
  match m with
  | (t, Ok a) => let '(t', r) := f a in (t ++ t', r)
  | (t, Err e) => (t, Err e)
  end.

(** Go's [defer]: the deferred call runs when the surrounding function
    returns, whatever it returns; its own result is dropped. *)
Definition defer {A} (ev : event) (m : M A) : M A :=
  let '(t, r) := m in (t ++ [ev], r).

(** A call whose error the caller inspects instead of returning it:
    [if x, err := f(); err == nil { ... }]. *)
Definition try {A} (m : M A) : M (result A) := (m.1, Ok m.2).

Definition of_status (o : option error) : result unit :=
  match o with None => Ok tt | Some e => Err e end.

#[export] Instance M_ret : MRet M := @ret.
#[export] Instance M_bind : MBind M := fun A B f m => bind m f.

Definition trace {A} (m : M A) : list event := m.1.
Definition outcome {A} (m : M A) : result A := m.2.

(** [Client] bundles the cascade client with its backing keyring and owner
    address. *)
Record Client : Type := mkClient {
  Cascade : CascadeClient;
  Keyring_ : Keyring;
  OwnerAddress : string
}.

(** [app] bundles CLI-level options shared across commands. *)
Record app : Type := mkApp {
  configPath : string
}.

Definition defaultCascadeTimeout : nat := 30.
Definition defaultGRPCTimeout : nat := 30.
Definition defaultMaxGRPCMsgSize : Z := 10 * 1024 * 1024.

Section Client.

Variable ToLower : string -> string.
(** [strings.EqualFold], equality under Unicode simple case folding. *)
Variable EqualFold : string -> string -> bool.
(** [types.ActionStatePending], a constant of the SDK. *)
Variable ActionStatePending : ActionState.
Variable w : World.

(** *** client/cascade_client.go *)

(** resolvePassphrase selects a single passphrase source or returns
    empty for interactive prompts. *)
Definition resolvePassphrase (plain filePath : string) : result string :=
  let plain := TrimSpace plain in
  let filePath := TrimSpace filePath in
  if negb (String.eqb plain "") && negb (String.eqb filePath "") then
    Err "only one of keyring passphrase plain/file may be set"
  else if negb (String.eqb plain "") then Ok plain
  else if String.eqb filePath "" then Ok ""
  else
    match ReadFile (host w) filePath with
    | Err e => Err (wrap "read keyring passphrase file: " e)
    | Ok data =>
      let pass := TrimSpace data in
      if String.eqb pass "" then Err "keyring passphrase file is empty"
      else Ok pass
    end.

(** keyringAppName selects a stable keyring application name for the
    controller chain. *)
Definition keyringAppName (cfg : ControllerConfig.t) : string :=
  if negb (String.eqb (ControllerConfig.Binary cfg) "") then
    Base (host w) (ControllerConfig.Binary cfg)
  else if negb (String.eqb (ControllerConfig.ChainID cfg) "") then
    ControllerConfig.ChainID cfg
  else "lumera".

(** The directory [newControllerKeyring] hands to the keystore: for the
    test backend it falls back to controller.home when keyring_dir is
    unset. *)
Definition keyringDir (cfg : ControllerConfig.t) : string :=
  let dir := TrimSpace (ControllerConfig.KeyringDir cfg) in
  if String.eqb dir "" && EqualFold (ControllerConfig.KeyringBackend cfg) "test"
  then TrimSpace (ControllerConfig.Home cfg)
  else dir.

(** newControllerKeyring constructs the Cosmos keyring for the
    controller chain. *)
Definition newControllerKeyring (cfg : ControllerConfig.t) : M Keyring :=
  passphrase ← lift (resolvePassphrase (ControllerConfig.KeyringPassphrasePlain cfg)
                                       (ControllerConfig.KeyringPassphraseFile cfg));
  let dir := keyringDir cfg in
  let params := {| AppName := keyringAppName cfg;
                   Backend := ControllerConfig.KeyringBackend cfg;
                   Dir := dir;
                   Input := passphraseReader passphrase |} in
  call (EvNewKeyring params)
       (match NewKeyring w params with
        | Err e => Err (wrap "init keyring: " e)
        | Ok kr => Ok kr
        end).

(** Go's [%q] of a string that needs no escaping: the string between
    double quotes. *)
Definition quoted (s : string) : string :=
  String (ascii_of_N 34) "" +:+ s +:+ String (ascii_of_N 34) "".

(** validateKeyType checks that a key in the keyring uses the algorithm
    matching the configured key_type. *)
Definition validateKeyType (kr : Keyring) (keyName configuredType : string)
  : option error :=
  match ParseKeyType w configuredType with
  | Err e => Some e
  | Ok expected =>
    match Key w kr keyName with
    | Err e => Some ("key " +:+ quoted keyName +:+ " not found in keyring: " +:+ e)
    | Ok rec =>
      match GetPubKey w rec with
      | Err e => Some ("get pubkey for " +:+ quoted keyName +:+ ": " +:+ e)
      | Ok actual =>
        if negb (String.eqb actual expected) then
          Some ("key " +:+ quoted keyName +:+ " type mismatch: config expects "
                +:+ expected +:+ " but keyring has " +:+ actual)
        else None
      end
    end
  end.

(** NewCascadeClient initializes the SDK cascade client using controller
    keyring settings.  The configuration comes from [loadConfig] and is
    never nil. *)
Definition NewCascadeClient (cfg : Config) : M Client :=
  controllerKR ← newControllerKeyring (Controller cfg);
  _ ← lift (match validateKeyType controllerKR
                    (ControllerConfig.KeyName (Controller cfg))
                    (ControllerConfig.KeyType (Controller cfg)) with
            | Some e => Err (wrap "controller key type: " e)
            | None => Ok tt
            end);
  _ ← lift (match validateKeyType controllerKR
                    (LumeraConfig.KeyName (Lumera cfg))
                    (LumeraConfig.KeyType (Lumera cfg)) with
            | Some e => Err (wrap "lumera key type: " e)
            | None => Ok tt
            end);
  ownerAddr ← lift (match AddressFromKey w controllerKR
                            (ControllerConfig.KeyName (Controller cfg))
                            (ControllerConfig.AccountHRP (Controller cfg)) with
                    | Err e => Err (wrap "derive controller address: " e)
                    | Ok a => Ok a
                    end);
  lumeraAddr ← lift (match AddressFromKey w controllerKR
                             (LumeraConfig.KeyName (Lumera cfg)) "lumera" with
                     | Err e => Err (wrap "derive lumera address: " e)
                     | Ok a => Ok a
                     end);
  let ccfg := {| casc_ChainID := LumeraConfig.ChainID (Lumera cfg);
                 casc_GRPCAddr := LumeraConfig.GRPCEndpoint (Lumera cfg);
                 casc_Address := lumeraAddr;
                 casc_KeyName := LumeraConfig.KeyName (Lumera cfg);
                 casc_ICAOwnerKeyName := ControllerConfig.KeyName (Controller cfg);
                 casc_ICAOwnerHRP := ControllerConfig.AccountHRP (Controller cfg);
                 casc_Timeout := defaultCascadeTimeout;
                 casc_LogLevel := LumeraConfig.LogLevel (Lumera cfg) |} in
  casc ← call (EvCascadeNew ccfg controllerKR) (CascadeNew w ccfg controllerKR);
  mret {| Cascade := casc; Keyring_ := controllerKR; OwnerAddress := ownerAddr |}.

(** *** client/lumera_client.go *)

(** NewLumeraClient creates a Lumera blockchain client for gRPC queries. *)
Definition NewLumeraClient (cfg : Config) (kr : Keyring) (keyName : string)
  : M BlockchainClient :=
  let bcCfg := {| bc_ChainID := LumeraConfig.ChainID (Lumera cfg);
                  bc_GRPCAddr := LumeraConfig.GRPCEndpoint (Lumera cfg);
                  bc_RPCEndpoint := LumeraConfig.RPCEndpoint (Lumera cfg);
                  bc_AccountHRP := "";
                  bc_FeeDenom := "";
                  bc_GasPrice := 0%Z;
                  bc_Timeout := defaultGRPCTimeout;
                  bc_MaxRecvMsgSize := (10 * 1024 * 1024)%Z;
                  bc_MaxSendMsgSize := (10 * 1024 * 1024)%Z |} in
  call (EvBlockchainNew bcCfg kr keyName) (BlockchainNew w bcCfg kr keyName).

(** *** client/ica_controller.go *)

Definition parseGasPrices (value : string) : result (Z * string) :=
  let trimmed := TrimSpace value in
  if String.eqb trimmed "" then Ok (0%Z, "")
  else
    match ParseDecCoins w trimmed with
    | Err e => Err e
    | Ok [] => Ok (0%Z, "")
    | Ok [coin] => Ok coin
    | Ok coins => Err ("expected a single gas price, got "
                       +:+ pretty (length coins) +:+ " entries")
    end.

(** NewICAController builds a gRPC-backed ICA controller using the
    provided keyring.  Context, configuration and keyring are never nil
    where the commands call it. *)
Definition NewICAController (cfg : Config) (kr : Keyring) : M Controller_ :=
  '(gasPrice, feeDenom) ← lift (match parseGasPrices (ControllerConfig.GasPrices (Controller cfg)) with
                                | Err e => Err (wrap "parse controller.gas_prices: " e)
                                | Ok r => Ok r
                                end);
  let controllerCfg := {| bc_ChainID := ControllerConfig.ChainID (Controller cfg);
                          bc_GRPCAddr := ControllerConfig.GRPCEndpoint (Controller cfg);
                          bc_RPCEndpoint := ControllerConfig.RPCEndpoint (Controller cfg);
                          bc_AccountHRP := ControllerConfig.AccountHRP (Controller cfg);
                          bc_FeeDenom := feeDenom;
                          bc_GasPrice := gasPrice;
                          bc_Timeout := defaultGRPCTimeout;
                          bc_MaxRecvMsgSize := defaultMaxGRPCMsgSize;
                          bc_MaxSendMsgSize := defaultMaxGRPCMsgSize |} in
  let hostCfg := {| bc_ChainID := LumeraConfig.ChainID (Lumera cfg);
                    bc_GRPCAddr := LumeraConfig.GRPCEndpoint (Lumera cfg);
                    bc_RPCEndpoint := LumeraConfig.RPCEndpoint (Lumera cfg);
                    bc_AccountHRP := "";
                    bc_FeeDenom := "";
                    bc_GasPrice := 0%Z;
                    bc_Timeout := defaultGRPCTimeout;
                    bc_MaxRecvMsgSize := defaultMaxGRPCMsgSize;
                    bc_MaxSendMsgSize := defaultMaxGRPCMsgSize |} in
  let icfg := {| ica_Controller := controllerCfg;
                 ica_Host := hostCfg;
                 ica_Keyring := kr;
                 ica_KeyName := ControllerConfig.KeyName (Controller cfg);
                 ica_HostKeyName := LumeraConfig.KeyName (Lumera cfg);
                 ica_ConnectionID := ControllerConfig.ConnectionID (Controller cfg);
                 ica_CounterpartyConnectionID :=
                   ControllerConfig.CounterpartyConnectionID (Controller cfg) |} in
  i ← call (EvNewController icfg) (NewController w icfg);
  mret {| inner := Some i |}.

(** Close releases gRPC connections held by the controller; the
    commands defer it. *)
Definition Controller_Close {A} (c : Controller_) (m : M A) : M A :=
  match inner c with
  | None => m
  | Some i => defer (EvControllerClose i) m
  end.

(** OwnerAddress returns the controller-chain owner address. *)
Definition Controller_OwnerAddress (c : Controller_) : string :=
  match inner c with
  | None => ""
  | Some i => inner_OwnerAddress w i
  end.

(** AppPubkey returns the controller key public key bytes. *)
Definition Controller_AppPubkey (c : Controller_) : list byte :=
  match inner c with
  | None => []
  | Some i => inner_AppPubkey w i
  end.

(** EnsureICAAddress resolves or registers an interchain account
    address. *)
Definition Controller_EnsureICAAddress (c : Controller_) : M string :=
  match inner c with
  | None => fail "ica controller is not initialized"
  | Some i => call (EvEnsureICAAddress i) (inner_EnsureICAAddress w i)
  end.

(** ICAAddress returns the ICA address if already registered. *)
Definition Controller_ICAAddress (c : Controller_) : M string :=
  match inner c with
  | None => fail "ica controller is not initialized"
  | Some i => call (EvICAAddress i) (inner_ICAAddress w i)
  end.

(** SendApproveAction sends approve messages over ICA and returns the
    controller tx hash. *)
Definition Controller_SendApproveAction (c : Controller_) (msg : MsgApproveAction)
  : M string :=
  match inner c with
  | None => fail "ica controller is not initialized"
  | Some i => call (EvSendApproveAction i msg) (inner_SendApproveAction w i msg)
  end.

End Client.

(** ** cmd/commands.go *)

(** resolveOptionalArg accepts either a flag or positional value for a
    field. *)
Definition resolveOptionalArg (flagValue : string) (args : list string) (name : string)
  : result string :=
  let flagValue := TrimSpace flagValue in
  if negb (String.eqb flagValue "") then
    if 0 <? length args then Err (name +:+ " provided both as flag and argument")
    else Ok flagValue
  else
    match args with
    | arg0 :: _ => Ok (TrimSpace arg0)
    | [] => Err (name +:+ " is required")
    end.

Section Commands.

Variable ToLower : string -> string.
Variable EqualFold : string -> string -> bool.
Variable ActionStatePending : ActionState.
Variable w : World.

(** loadConfig resolves the config path and loads the TOML config on
    demand. *)
Definition loadConfig (a : app) : result Config :=
  let path := TrimSpace (configPath a) in
  if String.eqb path "" then Err "config path is required"
  else
    let path := Clean (host w) path in
    match LoadConfig ToLower (host w) path with
    | Err e => Err e
    | Ok cfg => Ok cfg
    end.

(** writeJSON emits a pretty-printed JSON response to stdout; the error
    is the encoder's. *)
Definition writeJSON (p : payload) : M unit :=
  call (EvWriteJSON p) (of_status (Encode w p)).

(** *** cmd/upload.go *)

(** The error of the resume path for an action that is not pending. *)
Definition stateMismatch (action : Action) : error :=
  "action " +:+ ID action +:+ " state is " +:+ State action
    +:+ "; expected " +:+ ActionStatePending.

(** The record the resume path reports: no transaction hash, and the
    visibility flag only when the metadata holds one. *)
Definition resumePayload (action : Action) (taskID : string) (cascClient : Client)
           (absPath : string) : payload :=
  let p : payload :=
    <["file" := JString absPath]>
    (<["ica_owner_address" := JString (OwnerAddress cascClient)]>
    (<["ica_address" := JString (Creator action)]>
    (<["task_id" := JString taskID]>
    (<["tx_hash" := JString ""]>
    (<["action_id" := JString (ID action)]>
    (<["status" := JString "ok"]> ∅)))))) in
  match Metadata_ action with
  | MetadataCascade (Some meta) => <["is_public" := JBool (Public meta)]> p
  | _ => p
  end.

(** The [RunE] of [newUploadCmd]; [filePath], [actionID] and [public] are
    the values of the flags [--file], [--action-id] and [--public]. *)
Definition newUploadCmd (a : app) (filePath actionID : string) (public : bool)
           (args : list string) : M unit :=
  filePath ← lift (resolveOptionalArg filePath args "file");
  cfg ← lift (loadConfig a);
  absPath ← lift (Abs (host w) filePath);
  cascClient ← NewCascadeClient EqualFold w cfg;
  defer (EvCascadeClose (Cascade cascClient)) (
    if negb (String.eqb (TrimSpace actionID) "") then
      bc ← NewLumeraClient w cfg (Keyring_ cascClient)
                           (ControllerConfig.KeyName (Controller cfg));
      defer (EvBlockchainClose bc) (
        action ← call (EvGetAction bc actionID) (GetAction w bc actionID);
        if negb (String.eqb (State action) ActionStatePending) then
          fail (stateMismatch action)
        else
          let signer := TrimSpace (Creator action) in
          taskID ← call (EvUploadToSupernode (Cascade cascClient) (ID action) absPath signer)
                        (UploadToSupernode w (Cascade cascClient) (ID action) absPath signer);
          writeJSON (resumePayload action taskID cascClient absPath))
    else
      controller ← NewICAController w cfg (Keyring_ cascClient);
      Controller_Close controller (
        icaAddr ← Controller_EnsureICAAddress w controller;
        res ← call (EvUpload (Cascade cascClient) icaAddr absPath icaAddr
                             (Controller_AppPubkey w controller) controller public)
                   (Upload w (Cascade cascClient) icaAddr absPath icaAddr
                           (Controller_AppPubkey w controller) controller public);
        writeJSON
          (<["file" := JString absPath]>
          (<["is_public" := JBool public]>
          (<["ica_owner_address" := JString (Controller_OwnerAddress w controller)]>
          (<["ica_address" := JString icaAddr]>
          (<["task_id" := JString (ar_TaskID res)]>
          (<["tx_hash" := JString (ar_TxHash res)]>
          (<["action_id" := JString (ar_ActionID res)]>
          (<["status" := JString "ok"]> ∅)))))))))).

(** *** cmd/download.go *)

(** The record the download command reports. *)
Definition downloadPayload (res : DownloadResult) (fileName : string) : payload :=
  <["file_name" := JString fileName]>
  (<["output_path" := JString (dl_OutputPath res)]>
  (<["task_id" := JString (dl_TaskID res)]>
  (<["action_id" := JString (dl_ActionID res)]>
  (<["status" := JString "ok"]> ∅)))).

(** The file name recorded in the metadata of an action, empty unless
    the metadata is a non-nil [CascadeMetadata]. *)
Definition metadataFileName (action : Action) : string :=
  match Metadata_ action with
  | MetadataCascade (Some meta) => FileName meta
  | _ => ""
  end.

(** The [RunE] of [newDownloadCmd]; [actionID] and [outDir] are the values
    of the flags [--action-id] and [--out]. *)
Definition newDownloadCmd (a : app) (actionID outDir : string) (args : list string)
  : M unit :=
  actionID ← lift (resolveOptionalArg actionID args "action-id");
  cfg ← lift (loadConfig a);
  let outDir := Clean (host w) outDir in
  call (EvMkdirAll outDir) (of_status (MkdirAll w outDir));;
  cascClient ← NewCascadeClient EqualFold w cfg;
  defer (EvCascadeClose (Cascade cascClient)) (
    controller ← NewICAController w cfg (Keyring_ cascClient);
    Controller_Close controller (
      res ← call (EvDownload (Cascade cascClient) actionID outDir
                             (Controller_OwnerAddress w controller))
                 (Download w (Cascade cascClient) actionID outDir
                           (Controller_OwnerAddress w controller));
      (* Best-effort lookup for the original filename. *)
      rbc ← try (NewLumeraClient w cfg (Keyring_ cascClient)
                                 (ControllerConfig.KeyName (Controller cfg)));
      match rbc with
      | Ok bc =>
        defer (EvBlockchainClose bc) (
          ra ← try (call (EvGetAction bc actionID) (GetAction w bc actionID));
          let fileName :=
            match ra with
            | Ok action => metadataFileName action
            | Err _ => ""
            end in
          writeJSON (downloadPayload res fileName))
      | Err _ => writeJSON (downloadPayload res "")
      end)).

(** *** cmd/action.go *)

(** The [RunE] of [newActionApproveCmd]; [actionID] and [icaAddress] are
    the values of the flags [--action-id] and [--ica-address]. *)
Definition newActionApproveCmd (a : app) (actionID icaAddress : string)
           (args : list string) : M unit :=
  actionID ← lift (resolveOptionalArg actionID args "action-id");
  cfg ← lift (loadConfig a);
  cascClient ← NewCascadeClient EqualFold w cfg;
  defer (EvCascadeClose (Cascade cascClient)) (
    controller ← NewICAController w cfg (Keyring_ cascClient);
    Controller_Close controller (
      icaAddress ← (if String.eqb (TrimSpace icaAddress) ""
                    then Controller_ICAAddress w controller
                    else mret icaAddress);
      msg ← call (EvCreateApproveActionMessage actionID icaAddress)
                 (CreateApproveActionMessage w actionID icaAddress);
      txHash ← Controller_SendApproveAction w controller msg;
      writeJSON
        (<["ica_owner_address" := JString (Controller_OwnerAddress w controller)]>
        (<["ica_address" := JString icaAddress]>
        (<["tx_hash" := JString txHash]>
        (<["action_id" := JString actionID]>
        (<["status" := JString "ok"]> ∅))))))).

(** The [RunE] of [newActionStatusCmd]. *)
Definition newActionStatusCmd (a : app) (actionID : string) (args : list string)
  : M unit :=
  actionID ← lift (resolveOptionalArg actionID args "action-id");
  cfg ← lift (loadConfig a);
  cascClient ← NewCascadeClient EqualFold w cfg;
  defer (EvCascadeClose (Cascade cascClient)) (
    bc ← NewLumeraClient w cfg (Keyring_ cascClient)
                         (ControllerConfig.KeyName (Controller cfg));
    defer (EvBlockchainClose bc) (
      action ← call (EvGetAction bc actionID) (GetAction w bc actionID);
      let p : payload :=
        <["expires_at" := JInt (ExpirationTime action)]>
        (<["block_height" := JInt (BlockHeight action)]>
        (<["price" := JString (Price action)]>
        (<["creator" := JString (Creator action)]>
        (<["type" := JString (Type_ action)]>
        (<["state" := JString (State action)]>
        (<["action_id" := JString (ID action)]>
        (<["status" := JString "ok"]> ∅))))))) in
      let p : payload :=
        match Metadata_ action with
        | MetadataCascade (Some meta) => <["is_public" := JBool (Public meta)]> p
        | _ => p
        end in
      let p : payload :=
        if 0 <? length (AppPubkey action)
        then <["app_pubkey" := JString (EncodeToString w (AppPubkey action))]> p
        else p in
      writeJSON p)).

End Commands.

(** ** Sample surroundings

    A configuration file, a host and a world in which every collaborator
    answers; the instances below vary one answer at a time. *)

Definition sampleLumera : LumeraConfig.t :=
  LumeraConfig.mk "lumera-testnet-2" "localhost:9090" "http://localhost:26657"
                  "info" "alice" "cosmos".

Definition sampleController : ControllerConfig.t :=
  ControllerConfig.mk "osmo-test-5" "localhost:9190" "http://localhost:26757"
                      "osmosisd" "/home/u/.osmosisd" "alice" "cosmos" "test" ""
                      "" "" "0.025uosmo" "osmo" "connection-0" "connection-7".

Definition sampleConfig : Config := mkConfig sampleLumera sampleController.

(** A host whose [config.toml] decodes to [cfg] and which has one
    readable file, [/run/pass], holding [pass]. *)
Definition sampleHost (cfg : Config) (pass : string) : Host :=
  {| DecodeFile := fun path =>
       if String.eqb path "config.toml" then Ok cfg
       else Err ("open " +:+ path +:+ ": no such file or directory");
     ReadFile := fun path =>
       if String.eqb path "/run/pass" then Ok pass
       else Err ("open " +:+ path +:+ ": no such file or directory");
     UserHomeDir := Ok "/home/u";
     Join := fun a b => a +:+ "/" +:+ b;
     Clean := fun p => p;
     Abs := fun p => Ok ("/cwd/" +:+ p);
     Base := fun p => p |}.

(** A world over [sampleHost] in which the ledger answers [act] to an
    action query, [ica] to the delegated-account query and [client] to the
    construction of a ledger query client. *)
Definition sampleWorld (cfg : Config) (act : result Action) (ica : result string)
           (client : result BlockchainClient) : World :=
  {| host := sampleHost cfg "s3cret";
     NewKeyring := fun _ => Ok (KeyringHandle 1);
     ParseKeyType := fun _ => Ok "secp256k1";
     Key := fun _ _ => Ok (KeyRecordHandle 5);
     GetPubKey := fun _ => Ok "secp256k1";
     AddressFromKey := fun _ keyName hrp => Ok (hrp +:+ "1" +:+ keyName);
     CascadeNew := fun _ _ => Ok (CascadeHandle 2);
     BlockchainNew := fun _ _ _ => client;
     GetAction := fun _ _ => act;
     UploadToSupernode := fun _ actionID _ _ => Ok ("task-" +:+ actionID);
     Upload := fun _ _ _ _ _ _ _ => Ok (mkActionResult "7" "A1B2" "task-7");
     Download := fun _ actionID outDir _ =>
       Ok (mkDownloadResult actionID ("task-" +:+ actionID) (outDir +:+ "/" +:+ actionID));
     ParseDecCoins := fun _ => Ok [(25000000000000000%Z, "uosmo")];
     NewController := fun _ => Ok (ICAHandle 4);
     inner_OwnerAddress := fun _ => "osmo1alice";
     inner_AppPubkey := fun _ => [x02; x11];
     inner_EnsureICAAddress := fun _ => Ok "lumera1ica";
     inner_ICAAddress := fun _ => ica;
     CreateApproveActionMessage := fun actionID creator => Ok (mkMsgApproveAction creator actionID);
     inner_SendApproveAction := fun _ _ => Ok "C3D4";
     MkdirAll := fun _ => None;
     Encode := fun _ => None;
     EncodeToString := fun _ => "AhE=" |}.

Definition samplePending : ActionState := "ACTION_STATE_PENDING".

Definition sampleAction (state : ActionState) (creator : string) (meta : Metadata) : Action :=
  mkAction "42" state "CASCADE" creator "10000ulume" 1200 1767225600 meta [x02; x11].

Definition sampleApp : app := mkApp "config.toml".

(** [strings.EqualFold] on ASCII strings. *)
Definition fold_ascii (s t : string) : bool :=
  String.eqb (lower_ascii s) (lower_ascii t).

Definition sampleMetadata : Metadata :=
  MetadataCascade (Some (mkCascadeMetadata true "f.bin")).

(** An action that is done, one that is pending, and a pending one whose
    creator is recorded with white space around it. *)
Definition actionDone : Action := sampleAction "ACTION_STATE_DONE" "lumera1ica" sampleMetadata.
Definition actionPending : Action := sampleAction samplePending "lumera1ica" sampleMetadata.
Definition actionPadded : Action := sampleAction samplePending " lumera1ica " sampleMetadata.
Definition actionOther : Action := sampleAction samplePending "lumera1ica" MetadataOther.

Definition worldOf (act : Action) : World :=
  sampleWorld sampleConfig (Ok act) (Ok "lumera1ica") (Ok (BlockchainHandle 3)).

(** A world without a registered delegated account, one whose ledger
    client cannot be built, and one whose ledger does not know the action. *)
Definition worldNoAccount : World :=
  sampleWorld sampleConfig (Ok actionPending)
              (Err "rpc error: code = NotFound desc = interchain account not found")
              (Ok (BlockchainHandle 3)).
Definition worldNoLedger : World :=
  sampleWorld sampleConfig (Ok actionPending) (Ok "lumera1ica")
              (Err "dial localhost:9090: connection refused").
Definition worldNoAction : World :=
  sampleWorld sampleConfig (Err "rpc error: code = NotFound desc = action 42 not found")
              (Ok "lumera1ica") (Ok (BlockchainHandle 3)).

(** Variations of the sample configuration. *)
Definition setBackend (v : string) : Config -> Config :=
  with_Controller (ControllerConfig.with_KeyringBackend v).
Definition setHome (v : string) : Config -> Config :=
  with_Controller (ControllerConfig.with_Home v).
Definition setChainID (v : string) : Config -> Config :=
  with_Lumera (LumeraConfig.with_ChainID v).
Definition setLogLevel (v : string) : Config -> Config :=
  with_Lumera (LumeraConfig.with_LogLevel v).
Definition setPassphrases (plain file : string) : Config -> Config :=
  with_Controller (fun c => ControllerConfig.with_KeyringPassphrasePlain plain
                              (ControllerConfig.with_KeyringPassphraseFile file c)).

(** The signers of the mesh uploads of a trace, and the records written. *)
Definition upload_signers (t : list event) : list string :=
  omap (fun ev => match ev with
                  | EvUploadToSupernode _ _ _ signer => Some signer
                  | _ => None
                  end) t.

Definition written (t : list event) : list payload :=
  omap (fun ev => match ev with EvWriteJSON p => Some p | _ => None end) t.


(** ** Vocabulary of the statements *)

(** The mandatory settings, under the names the errors use and in the
    order [Validate] examines them. *)
Definition required_fields : list (string * (Config -> string)) :=
  [ ("lumera.chain_id", fun c => LumeraConfig.ChainID (Lumera c));
    ("lumera.grpc_endpoint", fun c => LumeraConfig.GRPCEndpoint (Lumera c));
    ("lumera.rpc_endpoint", fun c => LumeraConfig.RPCEndpoint (Lumera c));
    ("lumera.key_name", fun c => LumeraConfig.KeyName (Lumera c));
    ("controller.chain_id", fun c => ControllerConfig.ChainID (Controller c));
    ("controller.grpc_endpoint", fun c => ControllerConfig.GRPCEndpoint (Controller c));
    ("controller.rpc_endpoint", fun c => ControllerConfig.RPCEndpoint (Controller c));
    ("controller.key_name", fun c => ControllerConfig.KeyName (Controller c));
    ("controller.keyring_backend", fun c => ControllerConfig.KeyringBackend (Controller c));
    ("controller.account_hrp", fun c => ControllerConfig.AccountHRP (Controller c));
    ("controller.connection_id", fun c => ControllerConfig.ConnectionID (Controller c)) ].

(** The first mandatory setting that is blank, if any. *)
Definition first_blank (c : Config) : option string :=
  match find (fun nf => blank (nf.2 c)) required_fields with
  | Some nf => Some nf.1
  | None => None
  end.

(** At most one passphrase source is set. *)
Definition exclusive (c : Config) : Prop :=
  blank (ControllerConfig.KeyringPassphrasePlain (Controller c)) = true
  \/ blank (ControllerConfig.KeyringPassphraseFile (Controller c)) = true.

(** The passphrase file, when one is named, can be read and is not blank. *)
Definition passphrase_file_ok (h : Host) (c : Config) : Prop :=
  blank (ControllerConfig.KeyringPassphraseFile (Controller c)) = false ->
  exists b, ReadFile h (ControllerConfig.KeyringPassphraseFile (Controller c)) = Ok b
            /\ blank b = false.

(** The keyring backend name as [Validate] compares it: trimmed and in
    lower case. *)
Definition backend_of (ToLower : string -> string) (c : Config) : string :=
  ToLower (TrimSpace (ControllerConfig.KeyringBackend (Controller c))).

(** The configuration [Validate] leaves behind when it accepts [c] with
    log level [l]. *)
Definition normalized (ToLower : string -> string) (l : string) (c : Config) : Config :=
  with_Controller (ControllerConfig.with_KeyringBackend (backend_of ToLower c))
                  (with_Lumera (LumeraConfig.with_LogLevel l) c).

(** Every rule of [Validate] other than the one on the keyring directory:
    the log level is accepted, no mandatory setting is blank, at most one
    passphrase source is set and the passphrase file is usable. *)
Definition otherwise_valid (ToLower : string -> string) (h : Host) (c : Config) : Prop :=
  is_ok (normalizeLogLevel ToLower (LumeraConfig.LogLevel (Lumera c))) = true
  /\ first_blank c = None
  /\ exclusive c
  /\ passphrase_file_ok h c.

(** The error of the mutual-exclusivity check of [Validate]. *)
Definition exclusivityError : error :=
  "only one of controller.keyring_passphrase_plain or controller.keyring_passphrase_file may be set".

(** The events that only construct a client or open the keystore. *)
Definition is_setup (ev : event) : bool :=
  match ev with
  | EvNewKeyring _ | EvCascadeNew _ _ | EvBlockchainNew _ _ _ | EvNewController _ => true
  | _ => false
  end.

(** The events that hand file bytes to the storage mesh. *)
Definition is_mesh_upload (ev : event) : bool :=
  match ev with
  | EvUploadToSupernode _ _ _ _ | EvUpload _ _ _ _ _ _ _ => true
  | _ => false
  end.

(** The events that build or send an approval message. *)
Definition is_approval (ev : event) : bool :=
  match ev with
  | EvCreateApproveActionMessage _ _ | EvSendApproveAction _ _ => true
  | _ => false
  end.

(** The events that may register a delegated account. *)
Definition is_registration (ev : event) : bool :=
  match ev with
  | EvEnsureICAAddress _ => true
  | _ => false
  end.

(** A metadata value that is a non-nil [CascadeMetadata]. *)
Definition cascadeMetadata (m : Metadata) : option CascadeMetadata :=
  match m with
  | MetadataCascade (Some meta) => Some meta
  | _ => None
  end.

(** ** Vocabulary of the further properties *)

(** The scan of [dropSpaces] stops at once: the string does not begin
    with a white-space rune. *)
Definition leads_space (backwards : bool) (s : string) : bool :=
  match s with
  | EmptyString => false
  | String c1 r1 =>
    asciiSpace c1
    || match r1 with
       | EmptyString => false
       | String c2 r2 =>
         (if backwards then space2 c2 c1 else space2 c1 c2)
         || match r2 with
            | EmptyString => false
            | String c3 r3 => if backwards then space3 c3 c2 c1 else space3 c1 c2 c3
            end
       end
  end.


(** A path setting that [expandHome] rewrites: the tilde alone, or a tilde
    followed by a slash or a backslash. *)
Definition tilde_form (v : string) : bool :=
  String.eqb v "~" || HasPrefix v "~/" || HasPrefix v "~\".

(** The log levels and keyring backends a validated configuration holds. *)
Definition logLevels : list string := ["debug"; "info"; "warn"; "error"].
Definition keyringBackends : list string := ["os"; "file"; "test"].

(** The clients a command holds: the SDK cascade client, a ledger query
    client, an ICA controller. *)
Inductive handle : Type :=
| HCascade (c : CascadeClient)
| HBlockchain (bc : BlockchainClient)
| HController (i : ICAController).

(** The clients the constructions of a trace have handed out, in the
    order of the constructions: a construction that failed hands out
    nothing. *)
Definition opened (w : World) (t : list event) : list handle :=
  omap (fun ev =>
          match ev with
          | EvCascadeNew cfg kr =>
            match CascadeNew w cfg kr with Ok c => Some (HCascade c) | Err _ => None end
          | EvBlockchainNew cfg kr keyName =>
            match BlockchainNew w cfg kr keyName with
            | Ok bc => Some (HBlockchain bc)
            | Err _ => None
            end
          | EvNewController cfg =>
            match NewController w cfg with Ok i => Some (HController i) | Err _ => None end
          | _ => None
          end) t.

(** The clients a trace closes, in the order of the calls. *)
Definition closed (t : list event) : list handle :=
  omap (fun ev =>
          match ev with
          | EvCascadeClose c => Some (HCascade c)
          | EvBlockchainClose bc => Some (HBlockchain bc)
          | EvControllerClose i => Some (HController i)
          | _ => None
          end) t.

Definition is_close (ev : event) : bool :=
  match ev with
  | EvCascadeClose _ | EvBlockchainClose _ | EvControllerClose _ => true
  | _ => false
  end.

(** The calls of a read-only query of the ledger: constructions, the
    action query, the report and the closing calls. *)
Definition is_query (ev : event) : bool :=
  match ev with
  | EvNewKeyring _ | EvCascadeNew _ _ | EvBlockchainNew _ _ _
  | EvGetAction _ _ | EvWriteJSON _
  | EvCascadeClose _ | EvBlockchainClose _ => true
  | _ => false
  end.

(** What a trace holds after its first report. *)
Fixpoint after_report (t : list event) : list event :=
  match t with
  | [] => []
  | EvWriteJSON _ :: t => t
  | _ :: t => after_report t
  end.

(** A run that failed without a record, or wrote exactly one record, of
    status ok, made only closing calls after it, and returns what the
    encoder returned. *)
Definition one_record_or_none (w : World) (run : M unit) : Prop :=
  (written (trace run) = [] /\ exists e, outcome run = Err e)
  \/ (exists p : payload,
        written (trace run) = [p]
        /\ forallb is_close (after_report (trace run)) = true
        /\ outcome run = of_status (Encode w p)
        /\ p !! "status" = Some (JString "ok")).

(** The calls of each workflow.  Opening the keystore, constructing the
    SDK client, reporting and closing belong to all of them. *)
Definition is_common (ev : event) : bool :=
  match ev with
  | EvNewKeyring _ | EvCascadeNew _ _ | EvWriteJSON _
  | EvCascadeClose _ | EvBlockchainClose _ | EvControllerClose _ => true
  | _ => false
  end.

Definition is_resume_call (ev : event) : bool :=
  is_common ev
  || match ev with
     | EvBlockchainNew _ _ _ | EvGetAction _ _ | EvUploadToSupernode _ _ _ _ => true
     | _ => false
     end.

Definition is_fresh_call (ev : event) : bool :=
  is_common ev
  || match ev with
     | EvNewController _ | EvEnsureICAAddress _ | EvUpload _ _ _ _ _ _ _ => true
     | _ => false
     end.

Definition is_download_call (ev : event) : bool :=
  is_common ev
  || match ev with
     | EvMkdirAll _ | EvNewController _ | EvDownload _ _ _ _
     | EvBlockchainNew _ _ _ | EvGetAction _ _ => true
     | _ => false
     end.

Definition is_approve_call (ev : event) : bool :=
  is_common ev
  || match ev with
     | EvNewController _ | EvICAAddress _ | EvCreateApproveActionMessage _ _
     | EvSendApproveAction _ _ => true
     | _ => false
     end.


(** * Properties *)

(** ** The cyclic passphrase reader *)

Section RepeatReader.

Variable d : list byte.
Hypothesis d_nonempty : 0 < length d.

Local Abbreviation stream := (stream d).

Lemma stream_length a k : length (stream a k) = k.
Proof. unfold stream. by rewrite length_map, length_seq. Qed.

Lemma cyclic_congr a b i :
  a mod length d = b mod length d -> cyclic d (a + i) = cyclic d (b + i).
Proof.
  intros Hab. unfold cyclic. f_equal.
  rewrite (Nat.Div0.add_mod a), (Nat.Div0.add_mod b). by rewrite Hab.
Qed.

Lemma stream_congr a b k :
  a mod length d = b mod length d -> stream a k = stream b k.
Proof.
  intros Hab. unfold stream. apply map_ext. intros i. by apply cyclic_congr.
Qed.

Lemma stream_app a j k : stream a (j + k) = stream a j ++ stream (a + j) k.
Proof.
  unfold stream. rewrite seq_app, map_app. f_equal. simpl.
  replace (seq j k) with (Nat.add j <$> seq 0 k)
    by (rewrite fmap_add_seq; f_equal; lia).
  change (map ?f ?l) with (f <$> l). rewrite <- list_fmap_compose.
  apply list_fmap_ext. intros _ i _. simpl. f_equal. lia.
Qed.

Lemma take_drop_stream a k :
  a + k <= length d -> take k (drop a d) = stream a k.
Proof.
  intros Hle. apply list_eq. intros i. unfold stream.
  change (map ?f ?l) with (f <$> l).
  rewrite list_lookup_fmap.
  destruct (decide (i < k)) as [Hi|Hi].
  - rewrite lookup_take_lt, lookup_drop by done.
    rewrite lookup_seq_lt by done. simpl.
    unfold cyclic. rewrite Nat.mod_small by lia.
    rewrite nth_lookup.
    destruct (d !! (a + i)) eqn:E; [done|].
    apply lookup_ge_None in E. lia.
  - rewrite lookup_take_ge by lia.
    by rewrite lookup_seq_ge by lia.
Qed.

Lemma copy_at_length p n src :
  n + length src <= length p -> length (copy_at p n src) = length p.
Proof.
  intros H. unfold copy_at. rewrite !length_app, length_take, length_drop. lia.
Qed.

Lemma copy_at_take p n src :
  n + length src <= length p -> take (n + length src) (copy_at p n src) = take n p ++ src.
Proof.
  intros H. unfold copy_at.
  rewrite app_assoc. rewrite take_app_length'; [done|].
  rewrite length_app, length_take. lia.
Qed.

(** The loop, started with [n] bytes written, fills the rest of the
    buffer with the stream from the reader's position on. *)
Lemma Read_loop_spec fuel : forall r p n,
  data r = d -> pos r <= length d -> n <= length p -> length p - n <= fuel ->
  exists pos',
    Read_loop fuel r p n
    = Some (mkRepeatReader d pos',
            take n p ++ stream (pos r) (length p - n), length p)
    /\ pos' <= length d
    /\ pos' mod length d = (pos r + (length p - n)) mod length d.
Proof.
  induction fuel as [|fuel IH]; intros [dr pr] p n Hd Hpos Hn Hfuel;
    simpl in Hd, Hpos; subst dr.
  - assert (n = length p) as -> by lia.
    exists pr. simpl. rewrite Nat.ltb_irrefl, Nat.sub_diag.
    rewrite firstn_all. simpl. rewrite app_nil_r, Nat.add_0_r. done.
  - cbn [Read_loop]. destruct (n <? length p) eqn:Hlt.
    2:{ apply Nat.ltb_ge in Hlt. assert (n = length p) as -> by lia.
        exists pr. rewrite Nat.sub_diag, firstn_all. simpl.
        rewrite app_nil_r, Nat.add_0_r. done. }
    apply Nat.ltb_lt in Hlt. cbn [data pos].
    set (rem0 := length d - pr).
    set (rpos := if rem0 =? 0 then 0 else pr).
    set (rem := if rem0 =? 0 then length d else rem0).
    assert (Hrr : (if rem0 =? 0 then (0, length d) else (pr, rem0)) = (rpos, rem)).
    { unfold rpos, rem. by destruct (rem0 =? 0). }
    rewrite Hrr. clear Hrr.
    assert (Hsum : rpos + rem = length d /\ 0 < rem /\ rpos mod length d = pr mod length d).
    { unfold rpos, rem, rem0. destruct (length d - pr =? 0) eqn:E.
      - apply Nat.eqb_eq in E. assert (pr = length d) as -> by lia.
        rewrite Nat.Div0.mod_same, Nat.Div0.mod_0_l. lia.
      - apply Nat.eqb_neq in E. lia. }
    destruct Hsum as (Hsum & Hrem & Hmod).
    set (chunk := if length p - n <? rem then length p - n else rem).
    assert (Hchunk : 0 < chunk /\ chunk <= rem /\ chunk <= length p - n).
    { unfold chunk. destruct (length p - n <? rem) eqn:E.
      - apply Nat.ltb_lt in E. lia.
      - apply Nat.ltb_ge in E. lia. }
    destruct Hchunk as (Hc0 & Hc1 & Hc2).
    assert (Hsrc : take chunk (drop rpos d) = stream rpos chunk)
      by (apply take_drop_stream; lia).
    rewrite Hsrc.
    assert (Hlen : length (copy_at p n (stream rpos chunk)) = length p).
    { apply copy_at_length. rewrite stream_length. lia. }
    assert (HIH := IH (mkRepeatReader d (rpos + chunk))
                      (copy_at p n (stream rpos chunk)) (n + chunk)).
    simpl in HIH. rewrite Hlen in HIH.
    destruct HIH as (pos' & Heq & Hle & Hm); [done|lia|lia|lia|].
    exists pos'. rewrite Heq. simpl. split; [|split; [done|]].
    + do 3 f_equal.
      replace (n + chunk) with (n + length (stream rpos chunk))
        by (by rewrite stream_length).
      rewrite copy_at_take by (rewrite stream_length; lia).
      rewrite stream_length.
      replace (stream pr (length p - n))
        with (stream pr (chunk + (length p - (n + chunk)))) by (f_equal; lia).
      rewrite stream_app, <- app_assoc.
      rewrite (stream_congr rpos pr chunk Hmod). do 2 f_equal.
      apply stream_congr.
      rewrite (Nat.Div0.add_mod rpos), (Nat.Div0.add_mod pr). by rewrite Hmod.
    + rewrite Hm.
      replace (pr + (length p - n)) with (pr + chunk + (length p - (n + chunk))) by lia.
      rewrite (Nat.Div0.add_mod (rpos + chunk)), (Nat.Div0.add_mod (pr + chunk)).
      f_equal. f_equal.
      rewrite (Nat.Div0.add_mod rpos), (Nat.Div0.add_mod pr). by rewrite Hmod.
Qed.

Lemma Read_spec r p T :
  data r = d -> pos r <= length d -> pos r mod length d = T mod length d ->
  exists r' p',
    Read r p = Some (r', p', length p, None)
    /\ data r' = d /\ pos r' <= length d
    /\ pos r' mod length d = (T + length p) mod length d
    /\ p' = stream T (length p).
Proof.
  intros Hd Hpos Hmod. unfold Read. rewrite Hd.
  destruct (length d =? 0) eqn:E; [apply Nat.eqb_eq in E; lia|].
  destruct (Read_loop_spec (length p) r p 0 Hd Hpos) as (pos' & Heq & Hle & Hm);
    [lia|lia|].
  rewrite Heq. rewrite Nat.sub_0_r in *. simpl.
  eexists _, _. split; [done|]. simpl. split; [done|]. split; [done|]. split.
  - rewrite Hm. rewrite (Nat.Div0.add_mod (pos r)), (Nat.Div0.add_mod T).
    by rewrite Hmod.
  - by apply stream_congr.
Qed.

Lemma Reads_spec bufs : forall r T,
  data r = d -> pos r <= length d -> pos r mod length d = T mod length d ->
  exists r' outs,
    Reads r bufs = Some (r', outs)
    /\ Forall2 full_read bufs outs
    /\ concat (map delivered outs) = stream T (sum_list (map length bufs)).
Proof.
  induction bufs as [|p bufs IH]; intros r T Hd Hpos Hmod.
  - exists r, []. simpl. split; [done|]. split; [constructor|done].
  - destruct (Read_spec r p T Hd Hpos Hmod) as (r1 & p1 & HR & Hd1 & Hpos1 & Hm1 & Hp1).
    destruct (IH r1 (T + length p) Hd1 Hpos1 Hm1) as (r2 & outs & HRs & Hall & Hcat).
    exists r2, ((p1, length p, None) :: outs). simpl. rewrite HR, HRs.
    split; [done|]. split.
    + constructor; [|done]. unfold full_read. simpl.
      rewrite Hp1, stream_length. done.
    + rewrite Hcat. unfold delivered at 1. simpl.
      rewrite stream_app. f_equal. rewrite Hp1.
      apply firstn_all2. by rewrite stream_length.
Qed.

Lemma lookup_concat_replicate k : forall i,
  i < k * length d -> concat (replicate k d) !! i = d !! (i mod length d).
Proof.
  induction k as [|k IH]; intros i Hi; [lia|]. simpl.
  destruct (decide (i < length d)) as [Hlt|Hge].
  - rewrite lookup_app_l by done. by rewrite Nat.mod_small.
  - rewrite lookup_app_r by lia. rewrite IH by lia. f_equal.
    replace i with ((i - length d) + 1 * length d) at 2 by lia.
    by rewrite Nat.Div0.mod_add.
Qed.

(** A prefix of the stream is a prefix of enough copies of [d]. *)
Lemma stream_replicate n k :
  n <= k * length d -> stream 0 n = take n (concat (replicate k d)).
Proof.
  intros Hle. apply list_eq. intros i. unfold stream.
  change (map ?f ?l) with (f <$> l). rewrite list_lookup_fmap.
  destruct (decide (i < n)) as [Hi|Hi].
  - rewrite lookup_take_lt, lookup_seq_lt by done. simpl.
    rewrite lookup_concat_replicate by lia.
    unfold cyclic. rewrite nth_lookup.
    destruct (d !! (i mod length d)) eqn:E; [done|].
    apply lookup_ge_None in E.
    pose proof (Nat.mod_upper_bound i (length d)). lia.
  - rewrite lookup_take_ge by lia. by rewrite lookup_seq_ge by lia.
Qed.

End RepeatReader.

(** C9.  For every non-empty passphrase and every sequence of buffers, the
    successive [Read] calls on the reader built by [passphraseReader] all
    return: each fills its whole buffer ([n = len(p)]) with a nil error, and
    the bytes handed out, put end to end, are a prefix of the passphrase
    followed by a newline repeated over and over. *)
Theorem passphraseReader_cyclic (passphrase : string) (bufs : list (list byte)) :
  passphrase <> "" ->
  exists r0 r outs,
    passphraseReader passphrase = Some r0
    /\ data r0 = String.list_byte_of_string (passphrase +:+ newline)
    /\ pos r0 = 0
    /\ Reads r0 bufs = Some (r, outs)
    /\ Forall2 full_read bufs outs
    /\ forall k, sum_list (map length bufs) <= k * length (data r0) ->
         concat (map delivered outs)
         = take (sum_list (map length bufs)) (concat (replicate k (data r0))).
Proof.
  intros Hne. unfold passphraseReader.
  destruct (String.eqb passphrase "") eqn:E; [by apply String.eqb_eq in E|].
  set (d := String.list_byte_of_string (passphrase +:+ newline)).
  assert (Hd : 0 < length d).
  { unfold d. destruct passphrase as [|a s]; [done|]. simpl. lia. }
  destruct (Reads_spec d Hd bufs (mkRepeatReader d 0) 0) as (r & outs & HR & Hall & Hcat);
    [done|simpl; lia|done|].
  exists (mkRepeatReader d 0), r, outs. simpl.
  repeat split; try done.
  intros k Hk. rewrite Hcat. by apply stream_replicate.
Qed.

Lemma passphraseReader_cyclic_witness :
  "pw" <> "" /\
  exists r0 r outs,
    passphraseReader "pw" = Some r0
    /\ data r0 = String.list_byte_of_string ("pw" +:+ newline)
    /\ pos r0 = 0
    /\ Reads r0 [[x00; x00]; [x00; x00; x00; x00; x00]] = Some (r, outs)
    /\ Forall2 full_read [[x00; x00]; [x00; x00; x00; x00; x00]] outs
    /\ forall k, sum_list (map length [[x00; x00]; [x00; x00; x00; x00; x00]])
                 <= k * length (data r0) ->
         concat (map delivered outs)
         = take (sum_list (map length [[x00; x00]; [x00; x00; x00; x00; x00]]))
                (concat (replicate k (data r0))).
Proof.
  split; [discriminate|].
  apply (passphraseReader_cyclic "pw" [[x00; x00]; [x00; x00; x00; x00; x00]]).
  discriminate.
Defined.

(** ** The shared flag-or-argument helper *)

Lemma eqb_empty_false s : s <> "" -> String.eqb s "" = false.
Proof. intros H. by apply String.eqb_neq. Qed.

(** C10.  A field given both as a flag and as a positional argument is
    refused with "provided both as flag and argument"; given through one
    channel only it resolves to the value with surrounding white space
    trimmed; given through neither it is refused with "<name> is required".
    A flag counts as given when its value is not blank.  Each of the four
    commands resolves its field (upload: file; download, approve, status:
    action-id) through this helper first and returns its error before any
    other step. *)
Theorem resolveOptionalArg_channels (flagValue : string) (args : list string) (name : string) :
  (TrimSpace flagValue <> "" -> args <> [] ->
     resolveOptionalArg flagValue args name
     = Err (name +:+ " provided both as flag and argument"))
  /\ (TrimSpace flagValue <> "" -> args = [] ->
        resolveOptionalArg flagValue args name = Ok (TrimSpace flagValue))
  /\ (TrimSpace flagValue = "" -> forall arg rest, args = arg :: rest ->
        resolveOptionalArg flagValue args name = Ok (TrimSpace arg))
  /\ (TrimSpace flagValue = "" -> args = [] ->
        resolveOptionalArg flagValue args name = Err (name +:+ " is required"))
  /\ (forall ToLower EqualFold pending w a e,
        (forall actionID public,
           resolveOptionalArg flagValue args "file" = Err e ->
           newUploadCmd ToLower EqualFold pending w a flagValue actionID public args
           = ([], Err e))
        /\ (forall outDir,
              resolveOptionalArg flagValue args "action-id" = Err e ->
              newDownloadCmd ToLower EqualFold w a flagValue outDir args = ([], Err e))
        /\ (forall icaAddress,
              resolveOptionalArg flagValue args "action-id" = Err e ->
              newActionApproveCmd ToLower EqualFold w a flagValue icaAddress args
              = ([], Err e))
        /\ (resolveOptionalArg flagValue args "action-id" = Err e ->
            newActionStatusCmd ToLower EqualFold w a flagValue args = ([], Err e))).
Proof.
  unfold resolveOptionalArg. repeat split.
  - intros Hf Ha. rewrite (eqb_empty_false _ Hf). simpl.
    destruct args; [done|]. done.
  - intros Hf ->. by rewrite (eqb_empty_false _ Hf).
  - intros -> arg rest ->. done.
  - intros -> ->. done.
  - intros actionID public H. unfold newUploadCmd, resolveOptionalArg. by rewrite H.
  - intros outDir H. unfold newDownloadCmd, resolveOptionalArg. by rewrite H.
  - intros icaAddress H. unfold newActionApproveCmd, resolveOptionalArg. by rewrite H.
  - intros H. unfold newActionStatusCmd, resolveOptionalArg. by rewrite H.
Qed.

Lemma resolveOptionalArg_channels_witness :
  resolveOptionalArg " f.bin " ["g.bin"] "file"
  = Err "file provided both as flag and argument"
  /\ resolveOptionalArg " 42 " [] "action-id" = Ok "42"
  /\ resolveOptionalArg "  " [" 42 "] "action-id" = Ok "42"
  /\ resolveOptionalArg "" [] "action-id" = Err "action-id is required".
Proof.
  destruct (resolveOptionalArg_channels " f.bin " ["g.bin"] "file") as (H1 & _).
  destruct (resolveOptionalArg_channels " 42 " [] "action-id") as (_ & H2 & _).
  destruct (resolveOptionalArg_channels "  " [" 42 "] "action-id") as (_ & _ & H3 & _).
  destruct (resolveOptionalArg_channels "" [] "action-id") as (_ & _ & _ & H4 & _).
  split; [apply H1; [vm_compute; discriminate | discriminate]|].
  split; [apply H2; [vm_compute; discriminate | reflexivity]|].
  split; [apply (H3 eq_refl " 42 " []); reflexivity|].
  apply H4; reflexivity.
Defined.

(** ** Loading and validating the configuration *)

Lemma blank_true s : blank s = true <-> TrimSpace s = "".
Proof. unfold blank. by destruct (decide (TrimSpace s = "")). Qed.

Lemma blank_false s : blank s = false <-> TrimSpace s <> "".
Proof. unfold blank. by destruct (decide (TrimSpace s = "")). Qed.

Lemma first_blank_none c :
  first_blank c = None <->
  Forall (fun nf : string * (Config -> string) => blank (nf.2 c) = false) required_fields.
Proof.
  unfold first_blank. split.
  - intros H. apply Forall_forall. intros nf Hin.
    destruct (find _ _) eqn:E; [done|].
    apply list_elem_of_In in Hin.
    pose proof (find_none _ _ E nf Hin) as Hn. by simpl in Hn.
  - intros H. destruct (find _ _) as [nf|] eqn:E; [|done].
    apply find_some in E as [Hin Hb].
    rewrite Forall_forall in H. apply list_elem_of_In in Hin.
    specialize (H nf Hin). simpl in *. congruence.
Qed.

Lemma first_blank_some c name :
  first_blank c = Some name ->
  exists get, In (name, get) required_fields /\ blank (get c) = true.
Proof.
  unfold first_blank. destruct (find _ _) as [[n g]|] eqn:E; [|done].
  intros [= <-]. apply find_some in E as [Hin Hb]. by exists g.
Qed.

Lemma blank_first_blank c nf :
  In nf required_fields -> blank (nf.2 c) = true -> exists name, first_blank c = Some name.
Proof.
  intros Hin Hb. destruct (first_blank c) as [name|] eqn:E; [by exists name|].
  apply first_blank_none in E. rewrite Forall_forall in E.
  apply list_elem_of_In in Hin. specialize (E nf Hin). simpl in E. congruence.
Qed.

Section ConfigProperties.

Variable ToLower : string -> string.
Variable h : Host.

(** On strings of ASCII bytes [strings.ToLower] maps 'A'..'Z' to
    'a'..'z' and keeps every other byte. *)
Hypothesis ToLower_ascii : forall s, is_ascii s = true -> ToLower s = lower_ascii s.

Local Abbreviation normalizeLogLevel := (normalizeLogLevel ToLower).
Local Abbreviation Validate := (Validate ToLower h).
Local Abbreviation ExpandPaths := (ExpandPaths h).
Local Abbreviation LoadConfig := (LoadConfig ToLower h).
Local Abbreviation backend_of := (backend_of ToLower).
Local Abbreviation normalized := (normalized ToLower).

(** [Validate] reports the first blank mandatory setting once the log
    level passed. *)
Lemma Validate_first_blank c l name :
  normalizeLogLevel (LumeraConfig.LogLevel (Lumera c)) = Ok l ->
  first_blank c = Some name ->
  Validate c = (with_Lumera (LumeraConfig.with_LogLevel l) c,
                Some (name +:+ " is required")).
Proof.
  intros Hl Hf.
  unfold Validate. rewrite Hl. unfold first_blank in Hf. cbn in Hf. cbn.
  repeat match goal with
  | |- context [if blank ?x then _ else _] =>
      destruct (blank x) eqn:?; [by (injection Hf as <-)|]
  end.
  done.
Qed.

Ltac pass_required Hf :=
  repeat match goal with
  | |- context [if blank ?x then _ else _] =>
      let E := fresh "E" in
      destruct (blank x) eqn:E; [by rewrite ?E in Hf|]; rewrite ?E in Hf
  end.

(** Past the mandatory settings [Validate] comes to the exclusivity
    check. *)
Lemma Validate_both_passphrases c l :
  normalizeLogLevel (LumeraConfig.LogLevel (Lumera c)) = Ok l ->
  first_blank c = None ->
  blank (ControllerConfig.KeyringPassphrasePlain (Controller c)) = false ->
  blank (ControllerConfig.KeyringPassphraseFile (Controller c)) = false ->
  Validate c = (with_Lumera (LumeraConfig.with_LogLevel l) c, Some exclusivityError).
Proof.
  intros Hl Hf Hp Hq. unfold Validate. rewrite Hl.
  unfold first_blank in Hf. cbn in Hf. cbn.
  pass_required Hf. by rewrite Hp, Hq.
Qed.

(** Past the exclusivity check the backend name decides. *)
Lemma Validate_backend c l :
  normalizeLogLevel (LumeraConfig.LogLevel (Lumera c)) = Ok l ->
  first_blank c = None ->
  exclusive c ->
  Validate c =
    if String.eqb (backend_of c) "os" || String.eqb (backend_of c) "file"
       || String.eqb (backend_of c) "test" then
      if String.eqb (backend_of c) "file"
         && blank (ControllerConfig.KeyringDir (Controller c)) then
        (normalized l c, Some "controller.keyring_dir is required for file backend")
      else if negb (blank (ControllerConfig.KeyringPassphraseFile (Controller c))) then
        match ReadFile h (ControllerConfig.KeyringPassphraseFile (Controller c)) with
        | Err e => (normalized l c, Some (wrap "read controller.keyring_passphrase_file: " e))
        | Ok b =>
          if blank b then (normalized l c, Some "controller.keyring_passphrase_file is empty")
          else (normalized l c, None)
        end
      else (normalized l c, None)
    else (with_Lumera (LumeraConfig.with_LogLevel l) c,
          Some "controller.keyring_backend must be one of: os, file, test").
Proof.
  intros Hl Hf Hex. unfold Validate. rewrite Hl.
  unfold first_blank in Hf. cbn in Hf. cbn.
  pass_required Hf.
  assert (negb (blank (ControllerConfig.KeyringPassphrasePlain (Controller c)))
          && negb (blank (ControllerConfig.KeyringPassphraseFile (Controller c))) = false)
    as -> by (destruct Hex as [-> | ->]; simpl; [done|apply andb_false_r]).
  done.
Qed.

(** [ExpandPaths] leaves the log level, the mandatory settings and the
    plain passphrase alone. *)
Lemma ExpandPaths_preserves c c' oe :
  ExpandPaths c = (c', oe) ->
  Lumera c' = Lumera c
  /\ first_blank c' = first_blank c
  /\ ControllerConfig.KeyringBackend (Controller c')
     = ControllerConfig.KeyringBackend (Controller c)
  /\ ControllerConfig.KeyringPassphrasePlain (Controller c')
     = ControllerConfig.KeyringPassphrasePlain (Controller c).
Proof.
  unfold ExpandPaths. intros H.
  repeat match type of H with
  | context [match expandHome ?hh ?x with _ => _ end] => destruct (expandHome hh x)
  end; injection H as <- <-; done.
Qed.

Lemma LoadConfig_unfold path cfg :
  DecodeFile h path = Ok cfg ->
  LoadConfig path =
    match ExpandPaths cfg with
    | (_, Some e) => Err e
    | (cfg1, None) =>
      match Validate cfg1 with
      | (_, Some e) => Err e
      | (cfg2, None) => Ok cfg2
      end
    end.
Proof. intros H. unfold LoadConfig. by rewrite H. Qed.

Lemma LoadConfig_Validate_fails path cfg :
  DecodeFile h path = Ok cfg ->
  (forall cfg1, ExpandPaths cfg = (cfg1, None) -> exists e, (Validate cfg1).2 = Some e) ->
  exists e, LoadConfig path = Err e.
Proof.
  intros Hd Hv. rewrite (LoadConfig_unfold _ _ Hd).
  destruct (ExpandPaths cfg) as [cfg1 [e|]] eqn:E; [by exists e|].
  destruct (Hv cfg1 eq_refl) as [e He].
  destruct (Validate cfg1) as [cfg2 oe]. simpl in He. subst oe. by exists e.
Qed.

Lemma LoadConfig_fails_after_expand path cfg :
  DecodeFile h path = Ok cfg ->
  (exists e, (Validate (ExpandPaths cfg).1).2 = Some e) ->
  exists e, LoadConfig path = Err e.
Proof.
  intros Hd [e Hv]. rewrite (LoadConfig_unfold _ _ Hd).
  destruct (ExpandPaths cfg) as [cfg1 [e'|]]; [by exists e'|].
  simpl in Hv. destruct (Validate cfg1) as [cfg2 oe]. simpl in Hv. subst oe.
  by exists e.
Qed.

Lemma Validate_blank_fails c nf :
  In nf required_fields -> blank (nf.2 c) = true -> exists e, (Validate c).2 = Some e.
Proof.
  intros Hin Hb.
  destruct (normalizeLogLevel (LumeraConfig.LogLevel (Lumera c))) as [l|e] eqn:Hl.
  - destruct (blank_first_blank c nf Hin Hb) as [name Hn].
    rewrite (Validate_first_blank c l name Hl Hn). by eexists.
  - unfold Validate. rewrite Hl. by eexists.
Qed.

(** C2, as the code has it.  Take a configuration file that decodes.  If
    some mandatory setting is blank, [LoadConfig] fails, and when path
    expansion succeeds and the log level is acceptable its error names
    the first blank mandatory setting in validation order.  If path
    expansion succeeds, the log level is acceptable, no mandatory setting
    is blank, at most one passphrase source is set, the keyring backend
    is one of os, file and test once trimmed and lower-cased, the file
    backend comes with a keyring directory and a named passphrase file is
    readable and not blank, then [LoadConfig] succeeds and returns the
    configuration with log level and backend normalized. *)
Theorem LoadConfig_required_fields (path : string) (cfg : Config) :
  DecodeFile h path = Ok cfg ->
  (forall nf, In nf required_fields -> blank (nf.2 cfg) = true ->
     (exists e, LoadConfig path = Err e)
     /\ exists name get,
          first_blank cfg = Some name
          /\ In (name, get) required_fields /\ blank (get cfg) = true
          /\ forall cfg1,
               ExpandPaths cfg = (cfg1, None) ->
               is_ok (normalizeLogLevel (LumeraConfig.LogLevel (Lumera cfg))) = true ->
               LoadConfig path = Err (name +:+ " is required"))
  /\ (forall cfg1 l,
        ExpandPaths cfg = (cfg1, None) ->
        normalizeLogLevel (LumeraConfig.LogLevel (Lumera cfg1)) = Ok l ->
        first_blank cfg1 = None ->
        exclusive cfg1 ->
        In (backend_of cfg1) ["os"; "file"; "test"] ->
        (backend_of cfg1 = "file" ->
         blank (ControllerConfig.KeyringDir (Controller cfg1)) = false) ->
        passphrase_file_ok h cfg1 ->
        LoadConfig path = Ok (normalized l cfg1)).
Proof.
  intros Hd. split.
  - intros nf Hin Hb. split.
    + apply (LoadConfig_Validate_fails _ _ Hd). intros cfg1 He.
      destruct (ExpandPaths_preserves _ _ _ He) as (_ & Hfb & _).
      destruct (blank_first_blank cfg nf Hin Hb) as [name Hn].
      rewrite <- Hfb in Hn.
      destruct (first_blank_some _ _ Hn) as (get & Hin' & Hb').
      by apply (Validate_blank_fails cfg1 (name, get)).
    + destruct (blank_first_blank cfg nf Hin Hb) as [name Hn].
      destruct (first_blank_some _ _ Hn) as (get & Hin' & Hb').
      exists name, get. repeat split; try done.
      intros cfg1 He Hl. rewrite (LoadConfig_unfold _ _ Hd), He.
      destruct (ExpandPaths_preserves _ _ _ He) as (HL & Hfb & _).
      destruct (normalizeLogLevel (LumeraConfig.LogLevel (Lumera cfg))) as [l|] eqn:El;
        [|done].
      rewrite <- HL in El. rewrite <- Hfb in Hn.
      by rewrite (Validate_first_blank cfg1 l name El Hn).
  - intros cfg1 l He Hl Hf Hex Hb Hdir Hpf.
    rewrite (LoadConfig_unfold _ _ Hd), He.
    rewrite (Validate_backend cfg1 l Hl Hf Hex).
    assert (String.eqb (backend_of cfg1) "os" || String.eqb (backend_of cfg1) "file"
            || String.eqb (backend_of cfg1) "test" = true) as ->.
    { destruct Hb as [<-|[<-|[<-|[]]]]; done. }
    assert (String.eqb (backend_of cfg1) "file"
            && blank (ControllerConfig.KeyringDir (Controller cfg1)) = false) as ->.
    { destruct (String.eqb (backend_of cfg1) "file") eqn:E; [|done].
      apply String.eqb_eq in E. by rewrite (Hdir E). }
    destruct (blank (ControllerConfig.KeyringPassphraseFile (Controller cfg1))) eqn:Eb;
      simpl; [done|].
    destruct (Hpf Eb) as (b & -> & ->). done.
Qed.

Lemma Validate_stores_log_level c l :
  normalizeLogLevel (LumeraConfig.LogLevel (Lumera c)) = Ok l ->
  LumeraConfig.LogLevel (Lumera (Validate c).1) = l.
Proof.
  intros Hl. unfold Validate. rewrite Hl. cbn.
  repeat match goal with
  | |- context [if ?b then _ else _] => destruct b
  | |- context [match ReadFile ?hh ?x with _ => _ end] => destruct (ReadFile hh x)
  end; done.
Qed.

(** C3, as the code has it.  The log level is compared after trimming
    white space and lower-casing.  A value that then reads debug, info,
    warn or error is accepted as that token, so these four values
    themselves pass unchanged; one that reads warning becomes warn; a
    blank one becomes info; every other value makes [LoadConfig] fail
    with the log-level error.  [Validate] stores the normalized level. *)
Theorem log_level_normalization (v : string) :
  (In v ["debug"; "info"; "warn"; "error"] -> normalizeLogLevel v = Ok v)
  /\ (v = "warning" -> normalizeLogLevel v = Ok "warn")
  /\ (In (ToLower (TrimSpace v)) ["debug"; "info"; "warn"; "error"] ->
        normalizeLogLevel v = Ok (ToLower (TrimSpace v)))
  /\ (ToLower (TrimSpace v) = "warning" -> normalizeLogLevel v = Ok "warn")
  /\ (ToLower (TrimSpace v) = "" -> normalizeLogLevel v = Ok "info")
  /\ (~ In (ToLower (TrimSpace v)) [""; "debug"; "info"; "warn"; "error"; "warning"] ->
        normalizeLogLevel v
        = Err "lumera.log_level must be one of: debug, info, warn, error"
        /\ forall path cfg,
             DecodeFile h path = Ok cfg ->
             LumeraConfig.LogLevel (Lumera cfg) = v ->
             (exists e, LoadConfig path = Err e)
             /\ forall cfg1, ExpandPaths cfg = (cfg1, None) ->
                  LoadConfig path
                  = Err "lumera.log_level must be one of: debug, info, warn, error")
  /\ (forall c l,
        LumeraConfig.LogLevel (Lumera c) = v -> normalizeLogLevel v = Ok l ->
        LumeraConfig.LogLevel (Lumera (Validate c).1) = l).
Proof.
  assert (Hnorm : forall n, In n ["debug"; "info"; "warn"; "error"] ->
                    ToLower (TrimSpace v) = n -> normalizeLogLevel v = Ok n).
  { intros n Hn Hv. unfold normalizeLogLevel. rewrite Hv.
    destruct Hn as [<-|[<-|[<-|[<-|[]]]]]; done. }
  assert (Hbad : ~ In (ToLower (TrimSpace v)) [""; "debug"; "info"; "warn"; "error"; "warning"] ->
                 normalizeLogLevel v
                 = Err "lumera.log_level must be one of: debug, info, warn, error").
  { intros Hn. unfold normalizeLogLevel.
    repeat match goal with
    | |- context [String.eqb ?a ?b] =>
        let E := fresh "E" in
        destruct (String.eqb a b) eqn:E;
          [apply String.eqb_eq in E; exfalso; apply Hn; rewrite E; simpl; tauto|]
    end. done. }
  split; [|split; [|split; [|split; [|split; [|split]]]]].
  - intros Hin. apply Hnorm; [done|].
    rewrite ToLower_ascii; destruct Hin as [<-|[<-|[<-|[<-|[]]]]]; done.
  - intros ->. unfold normalizeLogLevel. rewrite ToLower_ascii; done.
  - intros Hin. by apply Hnorm.
  - intros Hv. unfold normalizeLogLevel. by rewrite Hv.
  - intros Hv. unfold normalizeLogLevel. by rewrite Hv.
  - intros Hn. split; [by apply Hbad|].
    intros path cfg Hd Hv.
    assert (HV : forall cfg1 oe, ExpandPaths cfg = (cfg1, oe) ->
                   (Validate cfg1).2
                   = Some "lumera.log_level must be one of: debug, info, warn, error").
    { intros cfg1 oe He. destruct (ExpandPaths_preserves _ _ _ He) as (HL & _).
      unfold Validate. rewrite HL, Hv, (Hbad Hn). done. }
    split.
    + apply (LoadConfig_Validate_fails _ _ Hd). intros cfg1 He.
      eexists. by apply (HV cfg1 None).
    + intros cfg1 He. rewrite (LoadConfig_unfold _ _ Hd), He.
      specialize (HV cfg1 None He). destruct (Validate cfg1) as [c2 oe].
      simpl in HV. by subst oe.
  - intros c l <- Hl. by apply Validate_stores_log_level.
Qed.

(** C4, as the code has it.  With both passphrase settings non-blank
    (the file path as path expansion leaves it) [Validate] always fails,
    whatever the other settings are, and so does [LoadConfig]; the error is
    the mutual-exclusivity error once path expansion succeeded, the log
    level is acceptable and no mandatory setting is blank (otherwise it is
    the error of that earlier step).  [resolvePassphrase] refuses the two
    sources in the same way. *)
Theorem both_passphrase_sources_fail (c : Config) :
  blank (ControllerConfig.KeyringPassphrasePlain (Controller c)) = false ->
  blank (ControllerConfig.KeyringPassphraseFile (Controller c)) = false ->
  (exists e, (Validate c).2 = Some e)
  /\ (is_ok (normalizeLogLevel (LumeraConfig.LogLevel (Lumera c))) = true ->
      first_blank c = None ->
      (Validate c).2 = Some exclusivityError)
  /\ (forall path cfg0,
        DecodeFile h path = Ok cfg0 -> (ExpandPaths cfg0).1 = c ->
        (exists e, LoadConfig path = Err e)
        /\ ((ExpandPaths cfg0).2 = None ->
            is_ok (normalizeLogLevel (LumeraConfig.LogLevel (Lumera c))) = true ->
            first_blank c = None ->
            LoadConfig path = Err exclusivityError))
  /\ (forall w,
        resolvePassphrase w (ControllerConfig.KeyringPassphrasePlain (Controller c))
                          (ControllerConfig.KeyringPassphraseFile (Controller c))
        = Err "only one of keyring passphrase plain/file may be set").
Proof.
  intros Hp Hq.
  assert (Hfail : exists e, (Validate c).2 = Some e).
  { destruct (normalizeLogLevel (LumeraConfig.LogLevel (Lumera c))) as [l|e] eqn:Hl.
    - destruct (first_blank c) as [name|] eqn:Hf.
      + rewrite (Validate_first_blank c l name Hl Hf). by eexists.
      + rewrite (Validate_both_passphrases c l Hl Hf Hp Hq). by eexists.
    - unfold Validate. rewrite Hl. by eexists. }
  assert (Hexcl : is_ok (normalizeLogLevel (LumeraConfig.LogLevel (Lumera c))) = true ->
                  first_blank c = None -> (Validate c).2 = Some exclusivityError).
  { intros Hl Hf.
    destruct (normalizeLogLevel (LumeraConfig.LogLevel (Lumera c))) as [l|e] eqn:El; [|done].
    by rewrite (Validate_both_passphrases c l El Hf Hp Hq). }
  split; [done|]. split; [done|]. split.
  - intros path cfg0 Hd He. split.
    + apply (LoadConfig_fails_after_expand _ _ Hd). by rewrite He.
    + intros He2 Hl Hf. rewrite (LoadConfig_unfold _ _ Hd).
      destruct (ExpandPaths cfg0) as [c1 oe1]. simpl in He, He2. subst c1 oe1.
      specialize (Hexcl Hl Hf). destruct (Validate c) as [c2 oe].
      simpl in Hexcl. by subst oe.
  - intros w. unfold resolvePassphrase.
    apply blank_false in Hp, Hq.
    by rewrite (eqb_empty_false _ Hp), (eqb_empty_false _ Hq).
Qed.

End ConfigProperties.

(** ** The keyring directory *)

Section KeyringDirectory.

Variable ToLower : string -> string.
Variable EqualFold : string -> string -> bool.
Variable w : World.

(** On strings of ASCII bytes [strings.EqualFold] compares the
    lower-cased strings. *)
Hypothesis EqualFold_ascii : forall s t,
  is_ascii s = true -> is_ascii t = true ->
  EqualFold s t = String.eqb (lower_ascii s) (lower_ascii t).

Local Abbreviation h := (host w).
Local Abbreviation normalizeLogLevel := (normalizeLogLevel ToLower).
Local Abbreviation Validate := (Validate ToLower h).
Local Abbreviation ExpandPaths := (ExpandPaths h).
Local Abbreviation LoadConfig := (LoadConfig ToLower h).
Local Abbreviation backend_of := (backend_of ToLower).
Local Abbreviation normalized := (normalized ToLower).
Local Abbreviation otherwise_valid := (otherwise_valid ToLower h).

Lemma Validate_otherwise_valid c :
  otherwise_valid c ->
  exists l,
    normalizeLogLevel (LumeraConfig.LogLevel (Lumera c)) = Ok l
    /\ Validate c =
       if String.eqb (backend_of c) "os" || String.eqb (backend_of c) "file"
          || String.eqb (backend_of c) "test" then
         if String.eqb (backend_of c) "file"
            && blank (ControllerConfig.KeyringDir (Controller c)) then
           (normalized l c, Some "controller.keyring_dir is required for file backend")
         else (normalized l c, None)
       else (with_Lumera (LumeraConfig.with_LogLevel l) c,
             Some "controller.keyring_backend must be one of: os, file, test").
Proof.
  intros (Hl & Hf & Hex & Hpf).
  destruct (normalizeLogLevel (LumeraConfig.LogLevel (Lumera c))) as [l|] eqn:El; [|done].
  exists l. split; [done|].
  rewrite (Validate_backend ToLower h c l El Hf Hex).
  destruct (blank (ControllerConfig.KeyringPassphraseFile (Controller c))) eqn:Eb; simpl.
  - done.
  - destruct (Hpf Eb) as (b & -> & ->). done.
Qed.

Lemma keyringDir_test cfg :
  TrimSpace (ControllerConfig.KeyringDir cfg) = "" ->
  ControllerConfig.KeyringBackend cfg = "test" ->
  keyringDir EqualFold cfg = TrimSpace (ControllerConfig.Home cfg).
Proof.
  intros Hd Hb. unfold keyringDir. rewrite Hd, Hb.
  rewrite EqualFold_ascii by done. done.
Qed.

Lemma normalized_Controller l c :
  Controller (normalized l c)
  = ControllerConfig.with_KeyringBackend (backend_of c) (Controller c).
Proof. done. Qed.

(** C5, as the code has it.  With a blank keyring directory: a backend
    that reads file once trimmed and lower-cased makes [Validate] and
    [LoadConfig] fail, with the keyring-directory error when every other
    rule is met; a backend that reads test is accepted when every other
    rule is met, and [newControllerKeyring] then hands the keystore the
    controller home setting, trimmed of white space, as its directory. *)
Theorem keyring_directory_rules (c : Config) :
  blank (ControllerConfig.KeyringDir (Controller c)) = true ->
  (backend_of c = "file" ->
     (exists e, (Validate c).2 = Some e)
     /\ (otherwise_valid c ->
         (Validate c).2 = Some "controller.keyring_dir is required for file backend")
     /\ (forall path cfg0,
           DecodeFile h path = Ok cfg0 -> (ExpandPaths cfg0).1 = c ->
           exists e, LoadConfig path = Err e))
  /\ (backend_of c = "test" -> otherwise_valid c ->
      exists l,
        Validate c = (normalized l c, None)
        /\ ControllerConfig.KeyringBackend (Controller (normalized l c)) = "test"
        /\ keyringDir EqualFold (Controller (normalized l c))
           = TrimSpace (ControllerConfig.Home (Controller c))
        /\ (forall path cfg0,
              DecodeFile h path = Ok cfg0 -> ExpandPaths cfg0 = (c, None) ->
              LoadConfig path = Ok (normalized l c))
        /\ (forall pass,
              resolvePassphrase w
                (ControllerConfig.KeyringPassphrasePlain (Controller c))
                (ControllerConfig.KeyringPassphraseFile (Controller c)) = Ok pass ->
              exists params,
                trace (newControllerKeyring EqualFold w (Controller (normalized l c)))
                = [EvNewKeyring params]
                /\ Backend params = "test"
                /\ Dir params = TrimSpace (ControllerConfig.Home (Controller c)))).
Proof.
  intros Hdir. split.
  - intros Hb.
    assert (Hfail : exists e, (Validate c).2 = Some e).
    { destruct (normalizeLogLevel (LumeraConfig.LogLevel (Lumera c))) as [l|e] eqn:Hl.
      2:{ unfold Validate. rewrite Hl. by eexists. }
      destruct (first_blank c) as [name|] eqn:Hf.
      { rewrite (Validate_first_blank ToLower h c l name Hl Hf). by eexists. }
      destruct (blank (ControllerConfig.KeyringPassphrasePlain (Controller c))) eqn:Hp.
      2:{ destruct (blank (ControllerConfig.KeyringPassphraseFile (Controller c))) eqn:Hq.
          2:{ rewrite (Validate_both_passphrases ToLower h c l Hl Hf Hp Hq). by eexists. }
          rewrite (Validate_backend ToLower h c l Hl Hf); [|by right].
          rewrite Hb, Hdir. simpl. by eexists. }
      rewrite (Validate_backend ToLower h c l Hl Hf); [|by left].
      rewrite Hb, Hdir. simpl. by eexists. }
    split; [done|]. split.
    + intros Hov. destruct (Validate_otherwise_valid c Hov) as (l & _ & ->).
      by rewrite Hb, Hdir.
    + intros path cfg0 Hd He.
      apply (LoadConfig_fails_after_expand ToLower h _ _ Hd). by rewrite He.
  - intros Hb Hov. destruct (Validate_otherwise_valid c Hov) as (l & Hl & HV).
    rewrite Hb in HV. simpl in HV. exists l.
    assert (Hkd : keyringDir EqualFold (Controller (normalized l c))
                  = TrimSpace (ControllerConfig.Home (Controller c))).
    { rewrite normalized_Controller.
      rewrite keyringDir_test; [done| |by simpl].
      simpl. by apply blank_true. }
    split; [done|]. split; [by rewrite normalized_Controller|]. split; [done|]. split.
    + intros path cfg0 Hd He.
      by rewrite (LoadConfig_unfold ToLower h _ _ Hd), He, HV.
    + intros pass Hpass. unfold newControllerKeyring.
      rewrite normalized_Controller in *.
      cbn [ControllerConfig.with_KeyringBackend ControllerConfig.KeyringPassphrasePlain
           ControllerConfig.KeyringPassphraseFile].
      rewrite Hpass.
      eexists. split; [reflexivity|].
      simpl. split; [done|]. rewrite <- Hkd. done.
Qed.

End KeyringDirectory.

(** ** The commands *)

Lemma setup_not_mesh_upload t :
  Forall (fun ev => is_setup ev = true) t ->
  Forall (fun ev => is_mesh_upload ev = false) t.
Proof. intros H. eapply Forall_impl; [exact H|]. by intros []. Qed.

Lemma setup_not_approval t :
  Forall (fun ev => is_setup ev = true) t ->
  Forall (fun ev => is_approval ev = false) t.
Proof. intros H. eapply Forall_impl; [exact H|]. by intros []. Qed.

Lemma setup_not_registration t :
  Forall (fun ev => is_setup ev = true) t ->
  Forall (fun ev => is_registration ev = false) t.
Proof. intros H. eapply Forall_impl; [exact H|]. by intros []. Qed.

Lemma setup_elem t ev :
  Forall (fun ev => is_setup ev = true) t -> ev ∈ t -> is_setup ev = true.
Proof. intros H Hin. rewrite Forall_forall in H. by apply H. Qed.

(** Membership in a trace, split along its construction. *)
Ltac elem_cases H :=
  first
    [ apply elem_of_app in H as [H|H]; [elem_cases H | elem_cases H]
    | apply elem_of_cons in H as [H|H]; [try discriminate H | elem_cases H]
    | by apply elem_of_nil in H
    | by (eapply setup_elem in H; [|eassumption])
    | idtac ].

(** Finding an event in a trace. *)
Ltac elem_find :=
  first
    [ by apply list_elem_of_here
    | apply list_elem_of_further; elem_find
    | apply elem_of_app; left; elem_find
    | apply elem_of_app; right; elem_find ].

(** A property of every event of a trace, split along its construction. *)
Ltac all_events :=
  repeat (apply Forall_app; split);
  first
    [ by (apply setup_not_mesh_upload)
    | by (apply setup_not_approval)
    | by (apply setup_not_registration)
    | by repeat constructor ].

Section CommandProperties.

Variable ToLower : string -> string.
Variable EqualFold : string -> string -> bool.
Variable pending : ActionState.
Variable w : World.

Local Abbreviation NewCascadeClient := (NewCascadeClient EqualFold w).
Local Abbreviation newUploadCmd := (newUploadCmd ToLower EqualFold pending w).
Local Abbreviation newDownloadCmd := (newDownloadCmd ToLower EqualFold w).
Local Abbreviation newActionApproveCmd := (newActionApproveCmd ToLower EqualFold w).
Local Abbreviation loadConfig := (loadConfig ToLower w).

(** Building the cascade client only opens the keystore and constructs
    the SDK client. *)
Lemma NewCascadeClient_setup cfg :
  Forall (fun ev => is_setup ev = true) (trace (NewCascadeClient cfg)).
Proof.
  unfold NewCascadeClient, newControllerKeyring, trace.
  destruct (resolvePassphrase _ _ _); simpl; [|constructor].
  destruct (NewKeyring w _) as [kr|]; simpl; [|by repeat constructor].
  destruct (validateKeyType w kr _ _); simpl; [by repeat constructor|].
  destruct (validateKeyType w kr _ _); simpl; [by repeat constructor|].
  destruct (AddressFromKey w kr _ _); simpl; [|by repeat constructor].
  destruct (AddressFromKey w kr _ _); simpl; [|by repeat constructor].
  destruct (CascadeNew w _ _); simpl; by repeat constructor.
Qed.

(** Building the ICA controller only constructs it. *)
Lemma NewICAController_setup cfg kr :
  Forall (fun ev => is_setup ev = true) (trace (NewICAController w cfg kr)).
Proof.
  unfold NewICAController, trace.
  destruct (parseGasPrices _ _) as [[g f]|]; simpl; [|constructor].
  destruct (NewController w _); simpl; by repeat constructor.
Qed.

Lemma NewICAController_inner cfg kr t ctl :
  NewICAController w cfg kr = (t, Ok ctl) -> exists i, inner ctl = Some i.
Proof.
  unfold NewICAController.
  destruct (parseGasPrices _ _) as [[g f]|]; simpl; [|done].
  destruct (NewController w _); simpl; [|done].
  intros [= _ <-]. by eexists.
Qed.

(** C1.  Resume-upload path: when an action id is supplied and every
    record the ledger returns for it is in a state other than Pending,
    the upload command fails and hands no bytes to the mesh; once the
    record was fetched the error is the state mismatch, whose message
    carries the actual state of the action and the expected one. *)
Theorem upload_resume_requires_pending a filePath actionID public args :
  TrimSpace actionID <> "" ->
  (forall bc action, GetAction w bc actionID = Ok action -> State action <> pending) ->
  (exists e, outcome (newUploadCmd a filePath actionID public args) = Err e)
  /\ Forall (fun ev => is_mesh_upload ev = false)
            (trace (newUploadCmd a filePath actionID public args))
  /\ (forall bc action,
        EvGetAction bc actionID ∈ trace (newUploadCmd a filePath actionID public args) ->
        GetAction w bc actionID = Ok action ->
        outcome (newUploadCmd a filePath actionID public args)
        = Err (stateMismatch pending action))
  /\ (forall action,
        stateMismatch pending action
        = "action " +:+ ID action +:+ " state is " +:+ State action
            +:+ "; expected " +:+ pending).
Proof.
  intros Hid Hst. unfold newUploadCmd.
  destruct (resolveOptionalArg filePath args "file") as [file|e]; simpl.
  2:{ repeat split; [by eexists|all_events|]. intros ?? Hin. elem_cases Hin. }
  destruct (loadConfig a) as [cfg|e]; simpl.
  2:{ repeat split; [by eexists|all_events|]. intros ?? Hin. elem_cases Hin. }
  destruct (Abs (host w) file) as [absPath|e]; simpl.
  2:{ repeat split; [by eexists|all_events|]. intros ?? Hin. elem_cases Hin. }
  pose proof (NewCascadeClient_setup cfg) as Hsetup. unfold trace in Hsetup.
  destruct (NewCascadeClient cfg) as [t1 [cc|e]]; simpl in *.
  2:{ repeat split; [by eexists|all_events|]. intros ?? Hin. elem_cases Hin. }
  rewrite (eqb_empty_false _ Hid). simpl.
  destruct (BlockchainNew w _ _ _) as [bc|e]; simpl.
  2:{ repeat split; [by eexists|all_events|]. intros ?? Hin. elem_cases Hin. }
  destruct (GetAction w bc actionID) as [action|e] eqn:Hact; simpl.
  2:{ repeat split; [by eexists|all_events|]. intros bc' action' Hin Hact'.
      elem_cases Hin. injection Hin as ->. congruence. }
  assert (String.eqb (State action) pending = false) as ->.
  { apply String.eqb_neq. by apply (Hst bc). }
  simpl. repeat split; [by eexists|all_events|].
  intros bc' action' Hin Hact'. elem_cases Hin. injection Hin as ->. congruence.
Qed.

(** C7, as the code has it.  Resume upload that goes through (action id
    supplied, record fetched in state Pending, mesh upload succeeds): the
    mesh upload is signed with the creator address of the record trimmed
    of white space; the record written has status ok, an empty tx_hash,
    the creator address as recorded for ica_address, and the visibility
    flag of the metadata exactly when the metadata is a non-nil cascade
    metadata; the command returns what the encoder returns. *)
Theorem upload_resume_report a filePath actionID public args file cfg absPath t1 cc bc
        action taskID :
  resolveOptionalArg filePath args "file" = Ok file ->
  loadConfig a = Ok cfg ->
  Abs (host w) file = Ok absPath ->
  NewCascadeClient cfg = (t1, Ok cc) ->
  TrimSpace actionID <> "" ->
  outcome (NewLumeraClient w cfg (Keyring_ cc) (ControllerConfig.KeyName (Controller cfg)))
  = Ok bc ->
  GetAction w bc actionID = Ok action ->
  State action = pending ->
  UploadToSupernode w (Cascade cc) (ID action) absPath (TrimSpace (Creator action))
  = Ok taskID ->
  let p := resumePayload action taskID cc absPath in
  trace (newUploadCmd a filePath actionID public args)
  = t1 ++ trace (NewLumeraClient w cfg (Keyring_ cc)
                                 (ControllerConfig.KeyName (Controller cfg)))
       ++ [EvGetAction bc actionID;
           EvUploadToSupernode (Cascade cc) (ID action) absPath
                               (TrimSpace (Creator action));
           EvWriteJSON p; EvBlockchainClose bc; EvCascadeClose (Cascade cc)]
  /\ outcome (newUploadCmd a filePath actionID public args) = of_status (Encode w p)
  /\ p !! "status" = Some (JString "ok")
  /\ p !! "action_id" = Some (JString (ID action))
  /\ p !! "tx_hash" = Some (JString "")
  /\ p !! "task_id" = Some (JString taskID)
  /\ p !! "ica_address" = Some (JString (Creator action))
  /\ p !! "is_public"
     = match cascadeMetadata (Metadata_ action) with
       | Some meta => Some (JBool (Public meta))
       | None => None
       end.
Proof.
  intros Hf Hc Ha Hcc Hid Hbc Hact Hst Hup p.
  unfold newUploadCmd. rewrite Hf. simpl. rewrite Hc. simpl. rewrite Ha. simpl.
  rewrite Hcc. simpl. rewrite (eqb_empty_false _ Hid). simpl.
  unfold outcome in Hbc. simpl in Hbc. rewrite Hbc. simpl. rewrite Hact. simpl.
  rewrite Hst, String.eqb_refl. simpl. rewrite Hup. simpl.
  split; [done|]. split; [done|].
  unfold p, resumePayload, cascadeMetadata.
  destruct (Metadata_ action) as [|[meta|]|]; by simplify_map_eq.
Qed.

(** C6.  Approve path without an --ica-address override: the command
    never calls the registering operation; the address an approval
    message is built with is the one the query returned; and if the query
    reports no account the command fails with the error of the query,
    having neither built nor sent an approval message. *)
Theorem approve_resolves_by_query a actionID icaAddress args :
  TrimSpace icaAddress = "" ->
  let run := newActionApproveCmd a actionID icaAddress args in
  Forall (fun ev => is_registration ev = false) (trace run)
  /\ (forall id addr,
        EvCreateApproveActionMessage id addr ∈ trace run ->
        exists ctl, EvICAAddress ctl ∈ trace run /\ inner_ICAAddress w ctl = Ok addr)
  /\ ((forall ctl, is_ok (inner_ICAAddress w ctl) = false) ->
      (exists e, outcome run = Err e)
      /\ Forall (fun ev => is_approval ev = false) (trace run)
      /\ forall ctl e,
           EvICAAddress ctl ∈ trace run -> inner_ICAAddress w ctl = Err e ->
           outcome run = Err e).
Proof.
  intros Hica run. unfold run, newActionApproveCmd.
  destruct (resolveOptionalArg actionID args "action-id") as [id|e]; simpl.
  2:{ split; [all_events|]. split; [intros ?? Hin; elem_cases Hin|].
      intros _. split; [by eexists|]. split; [all_events|].
      intros ?? Hin. elem_cases Hin. }
  destruct (loadConfig a) as [cfg|e]; simpl.
  2:{ split; [all_events|]. split; [intros ?? Hin; elem_cases Hin|].
      intros _. split; [by eexists|]. split; [all_events|].
      intros ?? Hin. elem_cases Hin. }
  pose proof (NewCascadeClient_setup cfg) as Hs1. unfold trace in Hs1.
  destruct (NewCascadeClient cfg) as [t1 [cc|e]]; simpl in *.
  2:{ split; [all_events|]. split; [intros ?? Hin; elem_cases Hin|].
      intros _. split; [by eexists|]. split; [all_events|].
      intros ?? Hin. elem_cases Hin. }
  pose proof (NewICAController_setup cfg (Keyring_ cc)) as Hs2. unfold trace in Hs2.
  destruct (NewICAController w cfg (Keyring_ cc)) as [t2 [ctl|e]] eqn:Hctl; simpl in *.
  2:{ split; [all_events|]. split; [intros ?? Hin; elem_cases Hin|].
      intros _. split; [by eexists|]. split; [all_events|].
      intros ?? Hin. elem_cases Hin. }
  destruct (NewICAController_inner _ _ _ _ Hctl) as [i Hi].
  unfold Controller_Close, Controller_ICAAddress, Controller_SendApproveAction,
    Controller_OwnerAddress.
  rewrite Hi, Hica. simpl.
  destruct (inner_ICAAddress w i) as [addr|e] eqn:Hq; simpl.
  2:{ split; [all_events|]. split; [intros ?? Hin; elem_cases Hin|].
      intros _. split; [by eexists|]. split; [all_events|].
      intros ctl' e' Hin Hq'. elem_cases Hin. injection Hin as ->. congruence. }
  assert (Hno : (forall ctl, is_ok (inner_ICAAddress w ctl) = false) -> False).
  { intros H. specialize (H i). by rewrite Hq in H. }
  destruct (CreateApproveActionMessage w id addr) as [msg|e]; simpl.
  2:{ split; [all_events|]. split; [|by intros H; destruct (Hno H)].
      intros id' addr' Hin. exists i. split.
      - elem_find.
      - elem_cases Hin. by injection Hin as -> ->. }
  destruct (inner_SendApproveAction w i msg) as [txHash|e]; simpl.
  2:{ split; [all_events|]. split; [|by intros H; destruct (Hno H)].
      intros id' addr' Hin. exists i. split.
      - elem_find.
      - elem_cases Hin. by injection Hin as -> ->. }
  split; [all_events|]. split; [|by intros H; destruct (Hno H)].
  intros id' addr' Hin. exists i. split.
  - elem_find.
  - elem_cases Hin. by injection Hin as -> ->.
Qed.

(** C8.  Download whose mesh transfer succeeded: if the metadata lookup
    fails, because the ledger client cannot be built, or the action
    is not found, or its metadata is not a cascade metadata, the command
    still writes its record, with status ok and an empty file_name, and
    returns what the encoder returns: success whenever the record can be
    written. *)
Theorem download_enrichment_best_effort a actionID outDir args id cfg t1 cc t2 ctl res :
  resolveOptionalArg actionID args "action-id" = Ok id ->
  loadConfig a = Ok cfg ->
  MkdirAll w (Clean (host w) outDir) = None ->
  NewCascadeClient cfg = (t1, Ok cc) ->
  NewICAController w cfg (Keyring_ cc) = (t2, Ok ctl) ->
  Download w (Cascade cc) id (Clean (host w) outDir) (Controller_OwnerAddress w ctl)
  = Ok res ->
  let lookup := outcome (NewLumeraClient w cfg (Keyring_ cc)
                                         (ControllerConfig.KeyName (Controller cfg))) in
  ((exists e, lookup = Err e)
   \/ (exists bc, lookup = Ok bc
        /\ ((exists e, GetAction w bc id = Err e)
            \/ (exists action, GetAction w bc id = Ok action
                  /\ cascadeMetadata (Metadata_ action) = None)))) ->
  let run := newDownloadCmd a actionID outDir args in
  let p := downloadPayload res "" in
  EvWriteJSON p ∈ trace run
  /\ outcome run = of_status (Encode w p)
  /\ (Encode w p = None -> outcome run = Ok tt)
  /\ p !! "status" = Some (JString "ok")
  /\ p !! "file_name" = Some (JString "").
Proof.
  intros Hf Hc Hm Hcc Hctl Hd lookup Hfail run p.
  assert (Hrun : EvWriteJSON p ∈ trace run /\ outcome run = of_status (Encode w p)).
  { unfold run, newDownloadCmd. rewrite Hf. simpl. rewrite Hc. simpl. rewrite Hm. simpl.
    rewrite Hcc. simpl. rewrite Hctl. simpl.
    destruct (NewICAController_inner _ _ _ _ Hctl) as [i Hi].
    unfold Controller_Close. rewrite Hi. rewrite Hd. simpl.
    unfold lookup, outcome in Hfail. simpl in Hfail.
    destruct Hfail as [[e He]|(bc & Hbc & Hget)].
    - rewrite He. simpl. split; [elem_find|done].
    - rewrite Hbc. simpl.
      destruct Hget as [[e He]|(action & Hact & Hmeta)].
      + rewrite He. simpl. split; [elem_find|done].
      + rewrite Hact. simpl.
        assert (metadataFileName action = "") as ->.
        { unfold metadataFileName. unfold cascadeMetadata in Hmeta.
          by destruct (Metadata_ action) as [|[meta|]|]. }
        split; [elem_find|done]. }
  destruct Hrun as [Hin Hout].
  split; [done|]. split; [done|]. split; [by intros He; rewrite Hout, He|].
  unfold p, downloadPayload. by simplify_map_eq.
Qed.

End CommandProperties.

(** ** The statements at concrete inputs *)

Lemma lower_ascii_is_ToLower :
  forall s, is_ascii s = true -> lower_ascii s = lower_ascii s.
Proof. reflexivity. Qed.

Lemma fold_ascii_is_EqualFold :
  forall s t, is_ascii s = true -> is_ascii t = true ->
              fold_ascii s t = String.eqb (lower_ascii s) (lower_ascii t).
Proof. reflexivity. Qed.

(** An action in state Done stops the resume path before the mesh. *)
Lemma upload_resume_requires_pending_witness :
  let run := newUploadCmd lower_ascii fold_ascii samplePending (worldOf actionDone)
                          sampleApp "f.bin" "42" false [] in
  outcome run = Err "action 42 state is ACTION_STATE_DONE; expected ACTION_STATE_PENDING"
  /\ Forall (fun ev => is_mesh_upload ev = false) (trace run).
Proof.
  destruct (upload_resume_requires_pending lower_ascii fold_ascii samplePending
              (worldOf actionDone) sampleApp "f.bin" "42" false [])
    as (_ & Hno & Herr & _).
  - vm_compute. discriminate.
  - intros bc action. simpl. intros [= <-]. vm_compute. discriminate.
  - split; [|exact Hno].
    rewrite (Herr (BlockchainHandle 3) actionDone); [reflexivity| |reflexivity].
    vm_compute. repeat constructor.
Defined.

(** A resume upload that goes through. *)
Lemma upload_resume_report_witness :
  let run := newUploadCmd lower_ascii fold_ascii samplePending (worldOf actionPending)
                          sampleApp "f.bin" "42" false [] in
  outcome run = Ok tt
  /\ upload_signers (trace run) = ["lumera1ica"]
  /\ (fun p : payload => (p !! "tx_hash", p !! "ica_address", p !! "is_public"))
       <$> written (trace run)
     = [(Some (JString ""), Some (JString "lumera1ica"), Some (JBool true))].
Proof.
  pose proof (upload_resume_report lower_ascii fold_ascii samplePending
                (worldOf actionPending) sampleApp "f.bin" "42" false []
                "f.bin" sampleConfig "/cwd/f.bin") as H.
  specialize (H (trace (NewCascadeClient fold_ascii (worldOf actionPending) sampleConfig))
                (mkClient (CascadeHandle 2) (KeyringHandle 1) "osmo1alice")
                (BlockchainHandle 3) actionPending "task-42").
  destruct H as (Ht & Ho & _); try reflexivity.
  - vm_compute. discriminate.
  - split; [rewrite Ho; reflexivity|]. rewrite Ht. split; vm_compute; reflexivity.
Defined.

(** C7, the claim as stated fails: the record of the action carries its
    creator with white space around it; the command reports that value as
    ica_address but signs the mesh upload with the trimmed one. *)
Lemma upload_resume_signer_counterexample :
  let run := newUploadCmd lower_ascii fold_ascii samplePending (worldOf actionPadded)
                          sampleApp "f.bin" "42" false [] in
  outcome run = Ok tt
  /\ Creator actionPadded = " lumera1ica "
  /\ (fun p : payload => p !! "ica_address") <$> written (trace run)
     = [Some (JString " lumera1ica ")]
  /\ upload_signers (trace run) = ["lumera1ica"]
  /\ upload_signers (trace run) <> [Creator actionPadded].
Proof.
  vm_compute. repeat split; discriminate.
Qed.

(** No registered account: the approval stops at the query. *)
Lemma approve_resolves_by_query_witness :
  let run := newActionApproveCmd lower_ascii fold_ascii worldNoAccount sampleApp "" "" ["42"] in
  outcome run = Err "rpc error: code = NotFound desc = interchain account not found"
  /\ Forall (fun ev => is_registration ev = false) (trace run)
  /\ Forall (fun ev => is_approval ev = false) (trace run).
Proof.
  destruct (approve_resolves_by_query lower_ascii fold_ascii worldNoAccount sampleApp
              "" "" ["42"]) as (Hreg & _ & Hq); [reflexivity|].
  destruct Hq as (_ & Happ & Herr); [reflexivity|].
  split; [|split; [exact Hreg|exact Happ]].
  apply (Herr (ICAHandle 4)); [|reflexivity].
  vm_compute. repeat constructor.
Defined.

(** The three ways the lookup can fail, each leaving the download a
    success with an empty file name. *)
Lemma download_enrichment_best_effort_witness :
  outcome (newDownloadCmd lower_ascii fold_ascii worldNoLedger sampleApp "" "out" ["42"])
  = Ok tt
  /\ outcome (newDownloadCmd lower_ascii fold_ascii worldNoAction sampleApp "" "out" ["42"])
     = Ok tt
  /\ EvWriteJSON (downloadPayload (mkDownloadResult "42" "task-42" "out/42") "")
     ∈ trace (newDownloadCmd lower_ascii fold_ascii (worldOf actionOther)
                             sampleApp "" "out" ["42"]).
Proof.
  pose (res := mkDownloadResult "42" "task-42" "out/42").
  pose (cc := mkClient (CascadeHandle 2) (KeyringHandle 1) "osmo1alice").
  pose (ctl := mkController (Some (ICAHandle 4))).
  assert (H := fun w => download_enrichment_best_effort lower_ascii fold_ascii w sampleApp
                 "" "out" ["42"] "42" sampleConfig
                 (trace (NewCascadeClient fold_ascii w sampleConfig)) cc
                 (trace (NewICAController w sampleConfig (KeyringHandle 1))) ctl res).
  split; [|split].
  - specialize (H worldNoLedger eq_refl eq_refl eq_refl eq_refl eq_refl eq_refl).
    simpl in H. destruct H as (_ & _ & Hok & _); [left; by eexists|].
    by apply Hok.
  - specialize (H worldNoAction eq_refl eq_refl eq_refl eq_refl eq_refl eq_refl).
    simpl in H. destruct H as (_ & _ & Hok & _).
    + right. exists (BlockchainHandle 3). split; [reflexivity|]. left. by eexists.
    + by apply Hok.
  - specialize (H (worldOf actionOther) eq_refl eq_refl eq_refl eq_refl eq_refl eq_refl).
    simpl in H. destruct H as (Hin & _).
    + right. exists (BlockchainHandle 3). split; [reflexivity|]. right.
      exists actionOther. by split.
    + exact Hin.
Defined.

(** A blank chain id is reported by name; the sample file loads. *)
Lemma LoadConfig_required_fields_witness :
  LoadConfig lower_ascii (sampleHost (setChainID "  " sampleConfig) "s3cret") "config.toml"
  = Err "lumera.chain_id is required"
  /\ LoadConfig lower_ascii (sampleHost sampleConfig "s3cret") "config.toml"
     = Ok (normalized lower_ascii "info" sampleConfig).
Proof.
  split.
  - pose (cfg := setChainID "  " sampleConfig).
    destruct (LoadConfig_required_fields lower_ascii (sampleHost cfg "s3cret")
                "config.toml" cfg eq_refl) as (HA & _).
    destruct (HA ("lumera.chain_id", fun c => LumeraConfig.ChainID (Lumera c))
                 (or_introl eq_refl) eq_refl)
      as (_ & name & get & Hfb & _ & _ & Hname).
    vm_compute in Hfb. injection Hfb as <-.
    exact (Hname cfg eq_refl eq_refl).
  - destruct (LoadConfig_required_fields lower_ascii (sampleHost sampleConfig "s3cret")
                "config.toml" sampleConfig eq_refl) as (_ & HB).
    apply (HB sampleConfig "info" eq_refl eq_refl eq_refl).
    + left. reflexivity.
    + right. right. left. reflexivity.
    + intros H. vm_compute in H. discriminate H.
    + intros H. vm_compute in H. discriminate H.
Defined.

(** C2, the claim as stated fails.  Every mandatory setting is given and
    no passphrase source is set, yet the file is refused for its keyring
    backend; and a file with a blank chain id and an unknown log level is
    refused for the log level, an error that does not name the chain id. *)
Lemma LoadConfig_required_fields_counterexample :
  let cfg := setBackend "pass" sampleConfig in
  let cfg' := setLogLevel "verbose" (setChainID "" sampleConfig) in
  (DecodeFile (sampleHost cfg "s3cret") "config.toml" = Ok cfg
   /\ Forall (fun nf : string * (Config -> string) => blank (nf.2 cfg) = false)
             required_fields
   /\ exclusive cfg
   /\ LoadConfig lower_ascii (sampleHost cfg "s3cret") "config.toml"
      = Err "controller.keyring_backend must be one of: os, file, test")
  /\ (DecodeFile (sampleHost cfg' "s3cret") "config.toml" = Ok cfg'
      /\ blank (LumeraConfig.ChainID (Lumera cfg')) = true
      /\ LoadConfig lower_ascii (sampleHost cfg' "s3cret") "config.toml"
         = Err "lumera.log_level must be one of: debug, info, warn, error").
Proof.
  split.
  - split; [reflexivity|]. split; [by repeat constructor|].
    split; [left; reflexivity|reflexivity].
  - split; [reflexivity|]. split; reflexivity.
Qed.

(** The accepted spellings and an unknown level. *)
Lemma log_level_normalization_witness :
  normalizeLogLevel lower_ascii "warn" = Ok "warn"
  /\ normalizeLogLevel lower_ascii "warning" = Ok "warn"
  /\ normalizeLogLevel lower_ascii " INFO " = Ok "info"
  /\ normalizeLogLevel lower_ascii "verbose"
     = Err "lumera.log_level must be one of: debug, info, warn, error".
Proof.
  pose proof (log_level_normalization lower_ascii (sampleHost sampleConfig "s3cret")
                lower_ascii_is_ToLower) as H.
  split; [|split; [|split]].
  - destruct (H "warn") as (H1 & _). apply H1. simpl. tauto.
  - destruct (H "warning") as (_ & H2 & _). by apply H2.
  - destruct (H " INFO ") as (_ & _ & H3 & _). apply H3. vm_compute. tauto.
  - destruct (H "verbose") as (_ & _ & _ & _ & _ & H6 & _).
    apply H6. vm_compute. intuition discriminate.
Defined.

(** C3, the claim as stated fails.  An empty log level is none of the
    five named values, yet the file loads, with level info; and DEBUG is
    accepted as debug. *)
Lemma log_level_counterexample :
  let cfg := setLogLevel "" sampleConfig in
  ~ In (LumeraConfig.LogLevel (Lumera cfg)) ["debug"; "info"; "warn"; "error"; "warning"]
  /\ DecodeFile (sampleHost cfg "s3cret") "config.toml" = Ok cfg
  /\ LoadConfig lower_ascii (sampleHost cfg "s3cret") "config.toml"
     = Ok (setLogLevel "info" sampleConfig)
  /\ normalizeLogLevel lower_ascii "DEBUG" = Ok "debug".
Proof.
  split; [simpl; intuition discriminate|]. split; [reflexivity|]. split; reflexivity.
Qed.

(** Both passphrase sources in an otherwise valid file. *)
Lemma both_passphrase_sources_fail_witness :
  let cfg := setPassphrases "pw" "/run/pass" sampleConfig in
  LoadConfig lower_ascii (sampleHost cfg "s3cret") "config.toml" = Err exclusivityError
  /\ resolvePassphrase (worldOf actionPending) "pw" "/run/pass"
     = Err "only one of keyring passphrase plain/file may be set".
Proof.
  intros cfg.
  destruct (both_passphrase_sources_fail lower_ascii (sampleHost cfg "s3cret") cfg
              eq_refl eq_refl) as (_ & _ & HL & HR).
  split; [|exact (HR (worldOf actionPending))].
  destruct (HL "config.toml" cfg eq_refl eq_refl) as (_ & HE).
  exact (HE eq_refl eq_refl eq_refl).
Defined.

(** C4, the claim as stated fails.  Both passphrase sources are set and
    the chain id is blank: the file is refused, but for the chain id, not
    with the mutual-exclusivity error. *)
Lemma both_passphrase_sources_counterexample :
  let cfg := setChainID "" (setPassphrases "pw" "/run/pass" sampleConfig) in
  blank (ControllerConfig.KeyringPassphrasePlain (Controller cfg)) = false
  /\ blank (ControllerConfig.KeyringPassphraseFile (Controller cfg)) = false
  /\ DecodeFile (sampleHost cfg "s3cret") "config.toml" = Ok cfg
  /\ LoadConfig lower_ascii (sampleHost cfg "s3cret") "config.toml"
     = Err "lumera.chain_id is required"
  /\ LoadConfig lower_ascii (sampleHost cfg "s3cret") "config.toml"
     <> Err exclusivityError.
Proof.
  repeat split; try reflexivity. vm_compute. discriminate.
Qed.

(** The file backend without a directory, and the test backend falling
    back to the home setting. *)
Lemma keyring_directory_rules_witness :
  let w := worldOf actionPending in
  (Validate lower_ascii (host w) (setBackend " FILE " sampleConfig)).2
  = Some "controller.keyring_dir is required for file backend"
  /\ (Validate lower_ascii (host w) sampleConfig).2 = None
  /\ exists params,
       trace (newControllerKeyring fold_ascii w (Controller sampleConfig))
       = [EvNewKeyring params]
       /\ Backend params = "test" /\ Dir params = "/home/u/.osmosisd".
Proof.
  intros w.
  assert (Hov : forall cfg, cfg = setBackend " FILE " sampleConfig \/ cfg = sampleConfig ->
                  otherwise_valid lower_ascii (host w) cfg).
  { intros cfg [-> | ->]; (split; [reflexivity|]; split; [reflexivity|];
      split; [left; reflexivity|]; intros H; vm_compute in H; discriminate H). }
  split; [|split].
  - destruct (keyring_directory_rules lower_ascii fold_ascii w fold_ascii_is_EqualFold
                (setBackend " FILE " sampleConfig) eq_refl) as (HF & _).
    destruct (HF eq_refl) as (_ & HE & _). apply HE. apply Hov. by left.
  - destruct (keyring_directory_rules lower_ascii fold_ascii w fold_ascii_is_EqualFold
                sampleConfig eq_refl) as (_ & HT).
    destruct (HT eq_refl (Hov _ (or_intror eq_refl))) as (l & -> & _). reflexivity.
  - destruct (keyring_directory_rules lower_ascii fold_ascii w fold_ascii_is_EqualFold
                sampleConfig eq_refl) as (_ & HT).
    destruct (HT eq_refl (Hov _ (or_intror eq_refl))) as (l & HV & _ & _ & _ & HK).
    destruct (HK "" eq_refl) as (params & Ht & Hb & Hd).
    vm_compute in HV. injection HV as <-.
    exists params. split; [exact Ht|]. split; [exact Hb|exact Hd].
Defined.

(** C5, the claim as stated fails.  Test backend, blank keyring
    directory, blank chain id: validation does not succeed.  And with a
    home setting written with white space around it, the directory handed
    to the keystore is the trimmed value, not the setting itself. *)
Lemma keyring_directory_counterexample :
  let cfg := setChainID "" sampleConfig in
  let cfg' := setHome " /home/u/.osmosisd " sampleConfig in
  let w := worldOf actionPending in
  (ControllerConfig.KeyringBackend (Controller cfg) = "test"
   /\ blank (ControllerConfig.KeyringDir (Controller cfg)) = true
   /\ (Validate lower_ascii (host w) cfg).2 = Some "lumera.chain_id is required")
  /\ (ControllerConfig.KeyringBackend (Controller cfg') = "test"
      /\ blank (ControllerConfig.KeyringDir (Controller cfg')) = true
      /\ Validate lower_ascii (host w) cfg' = (cfg', None)
      /\ Dir <$> omap (fun ev => match ev with EvNewKeyring p => Some p | _ => None end)
                      (trace (newControllerKeyring fold_ascii w (Controller cfg')))
         = ["/home/u/.osmosisd"]
      /\ "/home/u/.osmosisd" <> ControllerConfig.Home (Controller cfg')).
Proof.
  repeat split; try reflexivity. discriminate.
Qed.

(** ** The models on small inputs *)

Example TrimSpace_ascii : TrimSpace ("  ab c " +:+ tab +:+ newline) = "ab c".
Proof. reflexivity. Qed.

Example TrimSpace_unicode : TrimSpace (nbsp +:+ " x" +:+ nbsp) = "x".
Proof. reflexivity. Qed.

(** A lone byte 0xA0 is no encoding of U+00A0 and stays. *)
Example TrimSpace_ill_formed :
  TrimSpace (String (ascii_of_N 160) "x ") = String (ascii_of_N 160) "x".
Proof. reflexivity. Qed.

Example lower_ascii_sample : lower_ascii "WaRn-9" = "warn-9".
Proof. reflexivity. Qed.

Example expandHome_samples :
  let h := sampleHost sampleConfig "s3cret" in
  expandHome h "~" = Ok "/home/u"
  /\ expandHome h "~/keys" = Ok "/home/u/keys"
  /\ expandHome h "~\keys" = Ok "/home/u/keys"
  /\ expandHome h "~keys" = Ok "~keys"
  /\ expandHome h "" = Ok "".
Proof. repeat split. Qed.

Example Reads_sample :
  Reads (mkRepeatReader (String.list_byte_of_string ("ab" +:+ newline)) 0)
        [[x00; x00]; []; [x00; x00; x00; x00; x00]]
  = Some (mkRepeatReader (String.list_byte_of_string ("ab" +:+ newline)) 1,
          [([x61; x62], 2, None); ([], 0, None); ([x0a; x61; x62; x0a; x61], 5, None)]).
Proof. reflexivity. Qed.

Example resolvePassphrase_file :
  resolvePassphrase (worldOf actionPending) "" " /run/pass " = Ok "s3cret".
Proof. reflexivity. Qed.

Example status_sample :
  let run := newActionStatusCmd lower_ascii fold_ascii (worldOf actionPending)
                                sampleApp "" [" 42 "] in
  outcome run = Ok tt
  /\ (fun p : payload => (p !! "state", p !! "is_public", p !! "app_pubkey"))
       <$> written (trace run)
     = [(Some (JString samplePending), Some (JBool true), Some (JString "AhE="))].
Proof. vm_compute. by split. Qed.

(** * Further properties of the sources *)

(** ** White space *)

Lemma append_cons c s t : String c s +:+ t = String c (s +:+ t).
Proof. reflexivity. Qed.

Lemma append_empty_r s : s +:+ "" = s.
Proof. induction s as [|c s IH]; [done|]. by rewrite append_cons, IH. Qed.

Lemma append_assoc s t u : (s +:+ t) +:+ u = s +:+ (t +:+ u).
Proof. induction s as [|c s IH]; [done|]. by rewrite !append_cons, IH. Qed.

Lemma rev_app_spec s : forall a b,
  String.rev_app (String.rev_app s a) b = String.rev_app a (s +:+ b).
Proof.
  induction s as [|c s IH]; intros a b; [done|].
  simpl. rewrite IH. by rewrite append_cons.
Qed.

Lemma rev_app_append s : forall a, String.rev_app s a = String.rev s +:+ a.
Proof.
  unfold String.rev. induction s as [|c s IH]; intros a; [done|].
  simpl. rewrite IH, (IH (String c "")). by rewrite append_assoc.
Qed.

Lemma rev_involutive s : String.rev (String.rev s) = s.
Proof. unfold String.rev. rewrite rev_app_spec. simpl. apply append_empty_r. Qed.

Lemma rev_app_of_append s t : forall a,
  String.rev_app (s +:+ t) a = String.rev_app t (String.rev_app s a).
Proof.
  induction s as [|c s IH]; intros a; [done|].
  rewrite append_cons. simpl. by rewrite IH.
Qed.

Lemma rev_append s t : String.rev (s +:+ t) = String.rev t +:+ String.rev s.
Proof.
  unfold String.rev at 1. rewrite rev_app_of_append. by rewrite rev_app_append.
Qed.

Lemma length_append s t : String.length (s +:+ t) = String.length s + String.length t.
Proof. induction s as [|c s IH]; [done|]. rewrite append_cons. simpl. by rewrite IH. Qed.

Lemma dropSpaces_stop b s : leads_space b s = false -> dropSpaces b s = s.
Proof.
  destruct s as [|c1 [|c2 [|c3 r3]]]; cbn [leads_space dropSpaces]; try done.
  - by destruct (asciiSpace c1).
  - destruct (asciiSpace c1); [done|].
    by destruct (if b then space2 c2 c1 else space2 c1 c2).
  - destruct (asciiSpace c1); [done|].
    destruct (if b then space2 c2 c1 else space2 c1 c2); [done|].
    by destruct (if b then space3 c3 c2 c1 else space3 c1 c2 c3).
Qed.

Lemma dropSpaces_spec b n : forall s,
  String.length s <= n ->
  leads_space b (dropSpaces b s) = false
  /\ exists p, s = p +:+ dropSpaces b s.
Proof.
  induction n as [|n IH]; intros s Hn.
  - destruct s; [|simpl in Hn; lia]. split; [done|by exists ""].
  - destruct (leads_space b s) eqn:E.
    2:{ rewrite (dropSpaces_stop _ _ E). split; [done|by exists ""]. }
    destruct s as [|c1 r1]; [done|]. simpl in Hn.
    cbn [dropSpaces]. destruct (asciiSpace c1) eqn:E1.
    { destruct (IH r1) as (H1 & p & Hp); [lia|]. split; [done|].
      exists (String c1 p). by rewrite append_cons, <- Hp. }
    destruct r1 as [|c2 r2]; [by simpl in E; rewrite E1 in E|]. simpl in Hn.
    destruct (if b then space2 c2 c1 else space2 c1 c2) eqn:E2.
    { destruct (IH r2) as (H1 & p & Hp); [lia|]. split; [done|].
      exists (String c1 (String c2 p)). by rewrite !append_cons, <- Hp. }
    destruct r2 as [|c3 r3]; [by simpl in E; rewrite E1, E2 in E|]. simpl in Hn.
    destruct (if b then space3 c3 c2 c1 else space3 c1 c2 c3) eqn:E3.
    { destruct (IH r3) as (H1 & p & Hp); [lia|]. split; [done|].
      exists (String c1 (String c2 (String c3 p))). by rewrite !append_cons, <- Hp. }
    simpl in E. by rewrite E1, E2, E3 in E.
Qed.

Lemma leads_space_prefix b u q : leads_space b (u +:+ q) = false -> leads_space b u = false.
Proof.
  destruct u as [|c1 [|c2 [|c3 r3]]]; try done; rewrite ?append_cons;
    cbn [leads_space].
  - destruct (asciiSpace c1); [done|]. by rewrite orb_false_r.
  - destruct (asciiSpace c1); [done|].
    destruct (if b then space2 c2 c1 else space2 c1 c2); [done|].
    by rewrite orb_false_r.
Qed.

(** [strings.TrimSpace] is idempotent. *)
Lemma TrimSpace_idempotent s : TrimSpace (TrimSpace s) = TrimSpace s.
Proof.
  unfold TrimSpace.
  set (t := dropSpaces false s).
  destruct (dropSpaces_spec false (String.length s) s (le_n _)) as (Ht & _).
  fold t in Ht.
  destruct (dropSpaces_spec true (String.length (String.rev t)) (String.rev t) (le_n _))
    as (Hy & p & Hp).
  set (y := dropSpaces true (String.rev t)) in *.
  assert (Hu : leads_space false (String.rev y) = false).
  { apply (leads_space_prefix _ _ (String.rev p)).
    rewrite <- rev_append, <- Hp, rev_involutive. done. }
  rewrite (dropSpaces_stop _ _ Hu), rev_involutive.
  by rewrite (dropSpaces_stop _ _ Hy).
Qed.

(** ** More on loading the configuration *)

Section ConfigFurther.

Variable ToLower : string -> string.
Variable h : Host.
Hypothesis ToLower_ascii : forall s, is_ascii s = true -> ToLower s = lower_ascii s.

Local Abbreviation normalizeLogLevel := (normalizeLogLevel ToLower).
Local Abbreviation Validate := (Validate ToLower h).
Local Abbreviation ExpandPaths := (ExpandPaths h).
Local Abbreviation expandHome := (expandHome h).
Local Abbreviation LoadConfig := (LoadConfig ToLower h).
Local Abbreviation backend_of := (backend_of ToLower).
Local Abbreviation normalized := (normalized ToLower).

Lemma expandHome_plain v : tilde_form v = false -> expandHome v = Ok v.
Proof.
  unfold tilde_form, expandHome. intros H.
  apply orb_false_elim in H as [H H3]. apply orb_false_elim in H as [H1 H2].
  rewrite H1, H2, H3. simpl. by destruct (String.eqb v "").
Qed.

Lemma expandHome_home v home : UserHomeDir h = Ok home -> exists v', expandHome v = Ok v'.
Proof.
  intros Hh. unfold expandHome. rewrite Hh.
  repeat match goal with |- context [if ?b then _ else _] => destruct b end; by eexists.
Qed.

(** X1.  Path expansion touches nothing but the three path settings
    home, keyring_dir and keyring_passphrase_file; a configuration none of
    whose path settings is in tilde form comes back as it was, without
    error and whatever the home directory lookup would answer; and when
    the home directory can be determined the expansion never fails. *)
Theorem ExpandPaths_scope (c : Config) :
  (forall c' oe, ExpandPaths c = (c', oe) ->
     Lumera c' = Lumera c
     /\ Controller c'
        = ControllerConfig.with_Home (ControllerConfig.Home (Controller c'))
            (ControllerConfig.with_KeyringDir (ControllerConfig.KeyringDir (Controller c'))
               (ControllerConfig.with_KeyringPassphraseFile
                  (ControllerConfig.KeyringPassphraseFile (Controller c'))
                  (Controller c))))
  /\ (tilde_form (ControllerConfig.Home (Controller c)) = false ->
      tilde_form (ControllerConfig.KeyringDir (Controller c)) = false ->
      tilde_form (ControllerConfig.KeyringPassphraseFile (Controller c)) = false ->
      ExpandPaths c = (c, None))
  /\ (forall home, UserHomeDir h = Ok home -> exists c', ExpandPaths c = (c', None)).
Proof.
  split; [|split].
  - intros c' oe. unfold ExpandPaths.
    repeat (match goal with
            | |- context [match expandHome ?x with _ => _ end] => destruct (expandHome x)
            end; cbn);
      intros [= <- <-]; destruct c as [lc cc]; destruct cc; done.
  - intros H1 H2 H3. unfold ExpandPaths.
    rewrite (expandHome_plain _ H1). cbn.
    rewrite (expandHome_plain _ H2). cbn.
    rewrite (expandHome_plain _ H3). cbn.
    destruct c as [lc cc]; destruct cc; done.
  - intros home Hh. unfold ExpandPaths.
    destruct (expandHome_home (ControllerConfig.Home (Controller c)) home Hh) as [v1 ->].
    cbn.
    destruct (expandHome_home (ControllerConfig.KeyringDir (Controller c)) home Hh)
      as [v2 ->]. cbn.
    destruct (expandHome_home (ControllerConfig.KeyringPassphraseFile (Controller c))
                              home Hh) as [v3 ->].
    by eexists.
Qed.

(** The four levels are accepted as they are. *)
Lemma logLevels_accepted (n : string) :
  In n logLevels -> normalizeLogLevel n = Ok n.
Proof.
  intros Hn. unfold normalizeLogLevel.
  destruct Hn as [<-|[<-|[<-|[<-|[]]]]]; rewrite ToLower_ascii; done.
Qed.

Lemma normalizeLogLevel_in (v l : string) :
  normalizeLogLevel v = Ok l -> In l logLevels.
Proof.
  intros H. unfold normalizeLogLevel in H. unfold logLevels.
  destruct (String.eqb (ToLower (TrimSpace v)) "") eqn:E0.
  { injection H as <-. simpl. tauto. }
  destruct (String.eqb (ToLower (TrimSpace v)) "debug") eqn:E1.
  { apply String.eqb_eq in E1. rewrite E1 in H. injection H as <-. simpl. tauto. }
  destruct (String.eqb (ToLower (TrimSpace v)) "info") eqn:E2.
  { apply String.eqb_eq in E2. rewrite E2 in H. injection H as <-. simpl. tauto. }
  destruct (String.eqb (ToLower (TrimSpace v)) "warn") eqn:E3.
  { apply String.eqb_eq in E3. rewrite E3 in H. injection H as <-. simpl. tauto. }
  destruct (String.eqb (ToLower (TrimSpace v)) "error") eqn:E4.
  { apply String.eqb_eq in E4. rewrite E4 in H. injection H as <-. simpl. tauto. }
  simpl in H.
  destruct (String.eqb (ToLower (TrimSpace v)) "warning"); [|done].
  injection H as <-. simpl. tauto.
Qed.

(** X2.  Whatever [normalizeLogLevel] accepts it maps to one of debug,
    info, warn and error, and normalizing that result again leaves it
    unchanged. *)
Theorem normalizeLogLevel_range (v l : string) :
  normalizeLogLevel v = Ok l ->
  In l logLevels /\ normalizeLogLevel l = Ok l.
Proof.
  intros H. pose proof (normalizeLogLevel_in v l H) as Hin.
  split; [exact Hin|]. by apply logLevels_accepted.
Qed.

(** What [Validate] has checked when it reports no error. *)
Lemma Validate_sound c c' :
  Validate c = (c', None) ->
  exists l,
    normalizeLogLevel (LumeraConfig.LogLevel (Lumera c)) = Ok l
    /\ c' = normalized l c
    /\ first_blank c = None
    /\ exclusive c
    /\ In (backend_of c) keyringBackends
    /\ (backend_of c = "file" ->
        blank (ControllerConfig.KeyringDir (Controller c)) = false)
    /\ passphrase_file_ok h c.
Proof.
  intros H. unfold Validate in H.
  destruct (normalizeLogLevel (LumeraConfig.LogLevel (Lumera c))) as [l|] eqn:Hl;
    [|discriminate H].
  exists l. split; [done|]. cbn in H.
  repeat match type of H with
  | context [if blank ?x then _ else _] =>
      destruct (blank x) eqn:?; [discriminate H|]
  end.
  assert (Hfb : first_blank c = None).
  { unfold first_blank. cbn.
    repeat match goal with E : blank _ = false |- _ => rewrite E; clear E end. done. }
  set (B := ToLower (TrimSpace (ControllerConfig.KeyringBackend (Controller c)))) in *.
  assert (Hex : exclusive c).
  { unfold exclusive.
    destruct (blank (ControllerConfig.KeyringPassphrasePlain (Controller c))); [by left|].
    destruct (blank (ControllerConfig.KeyringPassphraseFile (Controller c))); [by right|].
    discriminate H. }
  assert (Hneg : negb (blank (ControllerConfig.KeyringPassphrasePlain (Controller c)))
                 && negb (blank (ControllerConfig.KeyringPassphraseFile (Controller c)))
                 = false).
  { destruct Hex as [-> | ->]; [done|apply andb_false_r]. }
  rewrite Hneg in H.
  destruct (String.eqb B "os" || String.eqb B "file" || String.eqb B "test") eqn:HB;
    [|discriminate H].
  assert (HinB : In B keyringBackends).
  { unfold keyringBackends. simpl.
    apply orb_true_iff in HB as [HB|HB]; [apply orb_true_iff in HB as [HB|HB]|];
      apply String.eqb_eq in HB; rewrite HB; tauto. }
  destruct (String.eqb B "file" && blank (ControllerConfig.KeyringDir (Controller c)))
    eqn:Hd; [discriminate H|].
  assert (Hdir : B = "file" -> blank (ControllerConfig.KeyringDir (Controller c)) = false).
  { intros HBf. rewrite HBf in Hd. by simpl in Hd. }
  destruct (blank (ControllerConfig.KeyringPassphraseFile (Controller c))) eqn:Hq;
    cbn [negb] in H.
  - injection H as <-. repeat split; try done. intros Hq'. congruence.
  - destruct (ReadFile h _) as [b|] eqn:Hr; [|discriminate H].
    destruct (blank b) eqn:Hb; [discriminate H|].
    injection H as <-. repeat split; try done. intros _. by exists b.
Qed.

Lemma normalized_required l c :
  first_blank c = None -> blank (backend_of c) = false ->
  Forall (fun nf : string * (Config -> string) => blank (nf.2 (normalized l c)) = false)
         required_fields.
Proof.
  intros Hfb Hbk. apply first_blank_none in Hfb. rewrite Forall_forall in Hfb.
  apply Forall_forall. intros nf Hnf.
  assert (Hc : blank (nf.2 c) = false) by apply Hfb, Hnf.
  unfold required_fields in Hnf. elem_cases Hnf; subst nf; first [exact Hc | exact Hbk].
Qed.

Lemma backend_not_blank b : In b keyringBackends -> blank b = false.
Proof. unfold keyringBackends. intros [<-|[<-|[<-|[]]]]; done. Qed.

Lemma backend_fixed b : In b keyringBackends -> ToLower (TrimSpace b) = b.
Proof.
  unfold keyringBackends. intros [<-|[<-|[<-|[]]]]; rewrite ToLower_ascii; done.
Qed.

(** X3.  Every configuration [LoadConfig] returns has a log level among
    debug, info, warn and error, a keyring backend among os, file and test,
    no blank mandatory setting, at most one passphrase source, a keyring
    directory when the backend is file, and a passphrase file, if one is
    named, that could be read and is not blank. *)
Theorem LoadConfig_sound (path : string) (cfg : Config) :
  LoadConfig path = Ok cfg ->
  In (LumeraConfig.LogLevel (Lumera cfg)) logLevels
  /\ In (ControllerConfig.KeyringBackend (Controller cfg)) keyringBackends
  /\ Forall (fun nf : string * (Config -> string) => blank (nf.2 cfg) = false)
            required_fields
  /\ exclusive cfg
  /\ (ControllerConfig.KeyringBackend (Controller cfg) = "file" ->
      blank (ControllerConfig.KeyringDir (Controller cfg)) = false)
  /\ passphrase_file_ok h cfg.
Proof.
  unfold LoadConfig. destruct (DecodeFile h path) as [cfg0|]; [|done].
  destruct (ExpandPaths cfg0) as [cfg1 [e|]]; [done|].
  destruct (Validate cfg1) as [cfg2 [e|]] eqn:HV; [done|]. intros [= <-].
  destruct (Validate_sound _ _ HV) as (l & Hl & -> & Hfb & Hex & HB & Hdir & Hpf).
  pose proof (normalizeLogLevel_in _ _ Hl) as Hin.
  split; [done|]. split; [done|]. split; [|done].
  apply normalized_required; [done|by apply backend_not_blank].
Qed.

(** X4.  Validation is idempotent: a configuration that [Validate]
    accepted and normalized is accepted again and left exactly as it is. *)
Theorem Validate_idempotent (c c' : Config) :
  Validate c = (c', None) -> Validate c' = (c', None).
Proof.
  intros HV.
  destruct (Validate_sound _ _ HV) as (l & Hl & -> & Hfb & Hex & HB & Hdir & Hpf).
  pose proof (logLevels_accepted _ (normalizeLogLevel_in _ _ Hl)) as Hl'.
  pose proof (backend_fixed _ HB) as Hfix.
  assert (Hb' : backend_of (normalized l c) = backend_of c) by exact Hfix.
  assert (Hn : normalized l (normalized l c) = normalized l c).
  {
    change (normalized l (normalized l c))
      with (with_Controller
              (ControllerConfig.with_KeyringBackend (backend_of (normalized l c)))
              (with_Lumera (LumeraConfig.with_LogLevel l) (normalized l c))).
    rewrite Hb'. destruct c as [lc cc]; destruct lc, cc; done. }
  rewrite (Validate_backend ToLower h (normalized l c) l Hl').
  - rewrite Hb', Hn.
    assert (String.eqb (backend_of c) "os" || String.eqb (backend_of c) "file"
            || String.eqb (backend_of c) "test" = true) as ->.
    { unfold keyringBackends in HB. destruct HB as [<-|[<-|[<-|[]]]]; done. }
    change (ControllerConfig.KeyringDir (Controller (normalized l c)))
      with (ControllerConfig.KeyringDir (Controller c)).
    change (ControllerConfig.KeyringPassphraseFile (Controller (normalized l c)))
      with (ControllerConfig.KeyringPassphraseFile (Controller c)).
    assert (String.eqb (backend_of c) "file"
            && blank (ControllerConfig.KeyringDir (Controller c)) = false) as ->.
    { destruct (String.eqb (backend_of c) "file") eqn:E; [|done].
      apply String.eqb_eq in E. by rewrite (Hdir E). }
    destruct (blank (ControllerConfig.KeyringPassphraseFile (Controller c))) eqn:Eb;
      simpl; [done|].
    destruct (Hpf Eb) as (b & -> & ->). done.
  - apply first_blank_none, normalized_required; [done|by apply backend_not_blank].
  - exact Hex.
Qed.

End ConfigFurther.

(** ** More on flags, passphrases and the keyring *)

(** X5.  A value resolved from a flag or a positional argument carries no
    surrounding white space.  It is empty only when it came from a blank
    positional argument; a value taken from the flag is never empty and
    is taken only when there is no positional argument. *)
Theorem resolveOptionalArg_result (flagValue : string) (args : list string)
        (name v : string) :
  resolveOptionalArg flagValue args name = Ok v ->
  TrimSpace v = v
  /\ (TrimSpace flagValue <> "" -> args = [] /\ v = TrimSpace flagValue)
  /\ (v = "" <-> TrimSpace flagValue = ""
                 /\ exists arg rest, args = arg :: rest /\ TrimSpace arg = "").
Proof.
  unfold resolveOptionalArg.
  destruct (String.eqb (TrimSpace flagValue) "") eqn:E; simpl.
  - apply String.eqb_eq in E. destruct args as [|arg rest]; [done|].
    intros [= <-]. split; [apply TrimSpace_idempotent|]. split; [done|]. split.
    + intros Hv. split; [done|]. by exists arg, rest.
    + intros (_ & arg' & rest' & [= <- <-] & Ha). done.
  - apply String.eqb_neq in E. destruct args as [|arg rest]; simpl; [|done].
    intros [= <-]. split; [apply TrimSpace_idempotent|]. split; [done|]. split.
    + intros Hv. done.
    + intros (Hf & _). done.
Qed.

Lemma resolveOptionalArg_result_witness :
  TrimSpace "42" = "42" /\ resolveOptionalArg "" ["  "] "file" = Ok "".
Proof.
  pose proof (resolveOptionalArg_result " 42 " [] "action-id" "42" eq_refl) as (H & _).
  split; [exact H|reflexivity].
Defined.

Section KeyringFurther.

Variable ToLower : string -> string.
Variable EqualFold : string -> string -> bool.
Variable w : World.

Hypothesis EqualFold_ascii : forall s t,
  is_ascii s = true -> is_ascii t = true ->
  EqualFold s t = String.eqb (lower_ascii s) (lower_ascii t).

Local Abbreviation Validate := (Validate ToLower (host w)).
Local Abbreviation resolvePassphrase := (resolvePassphrase w).
Local Abbreviation newControllerKeyring := (newControllerKeyring EqualFold w).

(** The reader is nil exactly for the empty passphrase. *)
Lemma passphraseReader_nil (pass : string) :
  passphraseReader pass = None <-> pass = "".
Proof.
  unfold passphraseReader. destruct (String.eqb pass "") eqn:E.
  - apply String.eqb_eq in E. done.
  - apply String.eqb_neq in E. split; [done|]. intros ->. done.
Qed.

Lemma resolvePassphrase_ok (plain filePath pass : string) :
  resolvePassphrase plain filePath = Ok pass ->
  TrimSpace pass = pass
  /\ (pass = "" <-> TrimSpace plain = "" /\ TrimSpace filePath = "")
  /\ (TrimSpace plain <> "" -> pass = TrimSpace plain)
  /\ (TrimSpace plain = "" -> TrimSpace filePath <> "" ->
      exists content, ReadFile (host w) (TrimSpace filePath) = Ok content
                      /\ pass = TrimSpace content).
Proof.
  intros H. unfold resolvePassphrase in H.
  destruct (decide (TrimSpace plain = "")) as [Ep|Ep];
    destruct (decide (TrimSpace filePath = "")) as [Ef|Ef];
    rewrite ?Ep, ?Ef, ?(eqb_empty_false _ Ep), ?(eqb_empty_false _ Ef) in H;
    simpl in H.
  - injection H as <-. repeat split; try done.
  - destruct (ReadFile (host w) (TrimSpace filePath)) as [content|] eqn:Hr; [|done].
    destruct (decide (TrimSpace content = "")) as [Ec|Ec].
    { by rewrite Ec in H. }
    rewrite (eqb_empty_false _ Ec) in H. injection H as <-.
    split; [apply TrimSpace_idempotent|]. split; [|split; [done|]].
    + split; [done|]. by intros [_ ?].
    + intros _ _. by exists content.
  - injection H as <-.
    split; [apply TrimSpace_idempotent|]. split; [|split; [done|done]].
    split; [done|]. by intros [? _].
  - done.
Qed.

(** X6.  A passphrase that [resolvePassphrase] returns carries no
    surrounding white space; it is empty, so that [passphraseReader] gives
    the nil reader and the backend prompts, exactly when neither source is
    set; and a plain passphrase is returned without reading any file. *)
Theorem resolvePassphrase_result (plain filePath pass : string) :
  resolvePassphrase plain filePath = Ok pass ->
  TrimSpace pass = pass
  /\ (pass = "" <-> TrimSpace plain = "" /\ TrimSpace filePath = "")
  /\ (passphraseReader pass = None <-> TrimSpace plain = "" /\ TrimSpace filePath = "")
  /\ (TrimSpace plain <> "" -> pass = TrimSpace plain)
  /\ (TrimSpace plain = "" -> TrimSpace filePath <> "" ->
      exists content, ReadFile (host w) (TrimSpace filePath) = Ok content
                      /\ pass = TrimSpace content).
Proof.
  intros H. destruct (resolvePassphrase_ok _ _ _ H) as (H1 & H2 & H3 & H4).
  split; [done|]. split; [done|]. split; [|done].
  etransitivity; [apply passphraseReader_nil|exact H2].
Qed.

(** X7.  After a successful validation the passphrase can be resolved:
    provided the passphrase file is named without surrounding white space
    (validation reads the path as written, [resolvePassphrase] reads it
    trimmed), [resolvePassphrase] succeeds on the validated configuration,
    with an empty result exactly when no source is set. *)
Theorem passphrase_after_validation (c c' : Config) :
  Validate c = (c', None) ->
  TrimSpace (ControllerConfig.KeyringPassphraseFile (Controller c))
  = ControllerConfig.KeyringPassphraseFile (Controller c) ->
  exists pass,
    resolvePassphrase (ControllerConfig.KeyringPassphrasePlain (Controller c'))
                      (ControllerConfig.KeyringPassphraseFile (Controller c')) = Ok pass
    /\ (pass = "" <->
        blank (ControllerConfig.KeyringPassphrasePlain (Controller c)) = true
        /\ blank (ControllerConfig.KeyringPassphraseFile (Controller c)) = true).
Proof.
  intros HV Hpath.
  destruct (Validate_sound _ _ _ _ HV) as (l & _ & -> & _ & Hex & _ & _ & Hpf).
  change (ControllerConfig.KeyringPassphrasePlain (Controller (normalized ToLower l c)))
    with (ControllerConfig.KeyringPassphrasePlain (Controller c)).
  change (ControllerConfig.KeyringPassphraseFile (Controller (normalized ToLower l c)))
    with (ControllerConfig.KeyringPassphraseFile (Controller c)).
  set (plain := ControllerConfig.KeyringPassphrasePlain (Controller c)) in *.
  set (file := ControllerConfig.KeyringPassphraseFile (Controller c)) in *.
  unfold resolvePassphrase, passphrase_file_ok, exclusive in *. fold plain file in Hpf, Hex.
  destruct (decide (TrimSpace plain = "")) as [Ep|Ep];
    destruct (decide (TrimSpace file = "")) as [Ef|Ef];
    rewrite ?Ep, ?Ef, ?(eqb_empty_false _ Ep), ?(eqb_empty_false _ Ef); simpl.
  - exists "". split; [done|]. split; [|done]. intros _. by rewrite !blank_true.
  - destruct (Hpf (proj2 (blank_false _) Ef)) as (b & Hr & Hb).
    rewrite Hpath, Hr. apply blank_false in Hb. rewrite (eqb_empty_false _ Hb).
    exists (TrimSpace b). split; [done|]. split; [done|].
    intros [_ Hf]. by apply blank_true in Hf.
  - exists (TrimSpace plain). split; [done|]. split; [done|].
    intros [Hp _]. by apply blank_true in Hp.
  - destruct Hex as [Hex|Hex]; apply blank_true in Hex; done.
Qed.


(** X9.  For a validated configuration the directory handed to the
    keystore is the trimmed keyring_dir setting, except that a blank
    keyring_dir under the test backend gives the trimmed home setting;
    home is never used for the os and file backends, and under the file
    backend the directory is never empty. *)
Theorem keyringDir_after_validation (c c' : Config) :
  Validate c = (c', None) ->
  keyringDir EqualFold (Controller c')
  = (if blank (ControllerConfig.KeyringDir (Controller c'))
        && String.eqb (ControllerConfig.KeyringBackend (Controller c')) "test"
     then TrimSpace (ControllerConfig.Home (Controller c'))
     else TrimSpace (ControllerConfig.KeyringDir (Controller c')))
  /\ (ControllerConfig.KeyringBackend (Controller c') = "file" ->
      keyringDir EqualFold (Controller c') <> "").
Proof.
  intros HV.
  destruct (Validate_sound _ _ _ _ HV) as (l & _ & -> & _ & _ & HB & Hdir & _).
  rewrite normalized_Controller.
  cbn [ControllerConfig.with_KeyringBackend ControllerConfig.KeyringBackend
       ControllerConfig.KeyringDir ControllerConfig.Home].
  set (B := backend_of ToLower c) in *.
  assert (Hfold : EqualFold B "test" = String.eqb B "test").
  { unfold keyringBackends in HB. destruct HB as [<-|[<-|[<-|[]]]];
      rewrite EqualFold_ascii; done. }
  unfold keyringDir.
  cbn [ControllerConfig.with_KeyringBackend ControllerConfig.KeyringBackend
       ControllerConfig.KeyringDir ControllerConfig.Home].
  rewrite Hfold. unfold blank.
  destruct (decide (TrimSpace (ControllerConfig.KeyringDir (Controller c)) = ""))
    as [Ed|Ed].
  - rewrite Ed. simpl. split; [done|]. intros HBf.
    specialize (Hdir HBf). apply blank_false in Hdir. done.
  - rewrite (eqb_empty_false _ Ed). simpl. split; [done|]. by intros _.
Qed.

(** X22.  For a validated configuration the application name of the
    keystore is the base name of controller.binary when that setting is
    not empty, and the controller chain id otherwise; the chain id of a
    validated configuration is never empty, so the fixed name lumera is
    not used. *)
Theorem keyringAppName_after_validation (c c' : Config) :
  Validate c = (c', None) ->
  ControllerConfig.ChainID (Controller c') <> ""
  /\ keyringAppName w (Controller c')
     = (if String.eqb (ControllerConfig.Binary (Controller c')) ""
        then ControllerConfig.ChainID (Controller c')
        else Base (host w) (ControllerConfig.Binary (Controller c'))).
Proof.
  intros HV.
  destruct (Validate_sound _ _ _ _ HV) as (l & _ & -> & Hfb & _).
  rewrite normalized_Controller.
  cbn [ControllerConfig.with_KeyringBackend ControllerConfig.ChainID
       ControllerConfig.Binary].
  assert (Hid : ControllerConfig.ChainID (Controller c) <> "").
  { apply first_blank_none in Hfb. rewrite Forall_forall in Hfb.
    assert (Hin : ("controller.chain_id",
                   fun c : Config => ControllerConfig.ChainID (Controller c))
                  ∈ required_fields) by (unfold required_fields; elem_find).
    specialize (Hfb _ Hin). simpl in Hfb. apply blank_false in Hfb.
    intros E. rewrite E in Hfb. by apply Hfb. }
  split; [exact Hid|]. unfold keyringAppName.
  cbn [ControllerConfig.with_KeyringBackend ControllerConfig.ChainID
       ControllerConfig.Binary].
  destruct (String.eqb (ControllerConfig.Binary (Controller c)) ""); simpl; [|done].
  by rewrite (eqb_empty_false _ Hid).
Qed.

End KeyringFurther.

(** ** More on the passphrase reader *)

Lemma Read_loop_pos fuel : forall r p n r' p' n',
  0 < length (data r) -> pos r <= length (data r) ->
  Read_loop fuel r p n = Some (r', p', n') ->
  n < length p -> 0 < pos r'.
Proof.
  induction fuel as [|fuel IH]; intros [d pr] p n r' p' n' Hd Hpos H Hlt;
    simpl in Hd, Hpos; cbn [Read_loop] in H;
    apply Nat.ltb_lt in Hlt as Hlt'; rewrite Hlt' in H; [done|].
  cbn [data pos] in H.
  set (rem0 := length d - pr) in *.
  set (rpos := if rem0 =? 0 then 0 else pr) in *.
  set (rem := if rem0 =? 0 then length d else rem0) in *.
  assert (Hrr : (if rem0 =? 0 then (0, length d) else (pr, rem0)) = (rpos, rem)).
  { unfold rpos, rem. by destruct (rem0 =? 0). }
  rewrite Hrr in H. clear Hrr.
  assert (Hsum : rpos + rem = length d /\ 0 < rem).
  { unfold rpos, rem, rem0. destruct (length d - pr =? 0) eqn:E.
    - apply Nat.eqb_eq in E. lia.
    - apply Nat.eqb_neq in E. lia. }
  destruct Hsum as (Hsum & Hrem).
  set (chunk := if length p - n <? rem then length p - n else rem) in *.
  assert (Hchunk : 0 < chunk /\ chunk <= rem).
  { unfold chunk. destruct (length p - n <? rem) eqn:E.
    - apply Nat.ltb_lt in E. lia.
    - apply Nat.ltb_ge in E. lia. }
  destruct Hchunk as (Hc0 & Hc1).
  set (p1 := copy_at p n (take chunk (drop rpos d))) in *.
  destruct (decide (n + chunk < length p1)) as [Hn|Hn].
  - eapply IH; [| |exact H|exact Hn]; simpl; lia.
  - assert (Hdone : Read_loop fuel (mkRepeatReader d (rpos + chunk)) p1 (n + chunk)
                    = Some (mkRepeatReader d (rpos + chunk), p1, n + chunk)).
    { assert ((n + chunk <? length p1) = false) as E by (apply Nat.ltb_ge; lia).
      destruct fuel; simpl; by rewrite E. }
    rewrite Hdone in H. injection H as <- _ _. simpl. lia.
Qed.

Lemma pos_determined L a b :
  0 < a <= L -> 0 < b <= L -> a mod L = b mod L -> a = b.
Proof.
  intros Ha Hb Hm.
  destruct (decide (a = L)) as [->|Hna]; destruct (decide (b = L)) as [->|Hnb];
    try done.
  - rewrite Nat.Div0.mod_same, (Nat.mod_small b) in Hm by lia. lia.
  - rewrite Nat.Div0.mod_same, (Nat.mod_small a) in Hm by lia. lia.
  - rewrite !Nat.mod_small in Hm by lia. done.
Qed.

Lemma Read_well_formed (r : repeatReader) (p : list byte) :
  data r <> [] -> pos r <= length (data r) ->
  exists r' p',
    Read r p = Some (r', p', length p, None)
    /\ data r' = data r
    /\ pos r' <= length (data r')
    /\ length p' = length p
    /\ p' = stream (data r) (pos r) (length p)
    /\ (p = [] -> r' = r)
    /\ (p <> [] -> 0 < pos r').
Proof.
  intros Hd Hpos.
  assert (HL : 0 < length (data r)) by (destruct (data r); [done|simpl; lia]).
  destruct (Read_spec (data r) HL r p (pos r) eq_refl Hpos eq_refl)
    as (r' & p' & HR & Hd' & Hpos' & _ & Hp').
  exists r', p'. split; [done|]. split; [done|]. split; [by rewrite Hd'|].
  split; [by rewrite Hp', stream_length|]. split; [done|]. split.
  - intros ->. unfold Read in HR.
    destruct (length (data r) =? 0); [done|]. simpl in HR. by injection HR as <- _.
  - intros Hne. unfold Read in HR.
    destruct (length (data r) =? 0); [done|].
    destruct (Read_loop (length p) r p 0) as [[[r1 p1] n1]|] eqn:HLp; [|done].
    injection HR as <- _ _.
    apply (Read_loop_pos _ _ _ _ _ _ _ HL Hpos HLp).
    destruct p; [done|simpl; lia].
Qed.

(** X10.  [Read] keeps a reader well formed.  On a reader without data it
    returns 0 and EOF and touches neither the reader nor the buffer.  On
    any reader with data whose position is within bounds it returns
    [len(p)] and no error, leaves the data alone, keeps the position
    within bounds, keeps the length of the buffer, fills it with the
    cyclic stream from the current position on, and does not move at all
    for an empty buffer. *)
Theorem Read_invariant (r : repeatReader) (p : list byte) :
  (data r = [] -> Read r p = Some (r, p, 0, Some EOF))
  /\ (data r <> [] -> pos r <= length (data r) ->
      exists r' p',
        Read r p = Some (r', p', length p, None)
        /\ data r' = data r
        /\ pos r' <= length (data r')
        /\ length p' = length p
        /\ p' = stream (data r) (pos r) (length p)
        /\ (p = [] -> r' = r)
        /\ (p <> [] -> 0 < pos r')).
Proof.
  split.
  - intros Hd. unfold Read. by rewrite Hd.
  - apply Read_well_formed.
Qed.

(** X11.  Reading in two steps is reading in one: on a well-formed reader
    a [Read] into a buffer of length [k1] followed by one into a buffer of
    length [k2] hands out the same bytes, and leaves the same reader, as a
    single [Read] into a buffer of length [k1 + k2]. *)
Theorem Read_split (r : repeatReader) (p1 p2 q : list byte) :
  data r <> [] -> pos r <= length (data r) ->
  length q = length p1 + length p2 ->
  exists r1 o1 r2 o2 o,
    Read r p1 = Some (r1, o1, length p1, None)
    /\ Read r1 p2 = Some (r2, o2, length p2, None)
    /\ Read r q = Some (r2, o, length q, None)
    /\ o = o1 ++ o2.
Proof.
  intros Hd Hpos Hq.
  assert (HL : 0 < length (data r)) by (destruct (data r); [done|simpl; lia]).
  destruct (Read_spec (data r) HL r p1 (pos r) eq_refl Hpos eq_refl)
    as (r1 & o1 & HR1 & Hd1 & Hpos1 & Hm1 & Ho1).
  destruct (Read_spec (data r) HL r1 p2 (pos r + length p1) Hd1 Hpos1 Hm1)
    as (r2 & o2 & HR2 & Hd2 & Hpos2 & Hm2 & Ho2).
  destruct (Read_spec (data r) HL r q (pos r) eq_refl Hpos eq_refl)
    as (r3 & o & HR3 & Hd3 & Hpos3 & Hm3 & Ho3).
  assert (Hbytes : o = o1 ++ o2).
  { rewrite Ho1, Ho2, Ho3, Hq. by apply stream_app. }
  assert (Hr : r3 = r2).
  { pose proof (Read_well_formed r q) as H3.
    destruct (H3 Hd Hpos) as (r3' & o' & HR3' & _ & _ & _ & _ & Hq0 & Hq1).
    rewrite HR3 in HR3'. injection HR3' as <- <-.
    pose proof (Read_well_formed r p1) as H1.
    destruct (H1 Hd Hpos) as (r1' & o1' & HR1' & _ & _ & _ & _ & Hp0 & Hp1).
    rewrite HR1 in HR1'. injection HR1' as <- <-.
    pose proof (Read_well_formed r1 p2) as H2.
    destruct (H2 ltac:(by rewrite Hd1) ltac:(by rewrite Hd1))
      as (r2' & o2' & HR2' & _ & _ & _ & _ & Hp20 & Hp21).
    rewrite HR2 in HR2'. injection HR2' as <- <-.
    destruct p2 as [|b2 p2].
    - rewrite (Hp20 eq_refl). destruct p1 as [|b1 p1].
      + destruct q; [|simpl in Hq; lia]. by rewrite (Hq0 eq_refl), (Hp0 eq_refl).
      + destruct r3 as [d3 n3], r1 as [d1 n1]. simpl in *. subst d3 d1. f_equal.
        apply (pos_determined (length (data r))).
        * split; [|done]. apply Hq1. by destruct q.
        * split; [|done]. by apply Hp1.
        * rewrite Hm3, Hm1, Hq. f_equal. simpl. lia.
    - destruct r3 as [d3 n3], r2 as [d2 n2]. simpl in *. subst d3 d2. f_equal.
      apply (pos_determined (length (data r))).
      + split; [|done]. apply Hq1. destruct q; [simpl in Hq; lia|done].
      + split; [|done]. by apply Hp21.
      + rewrite Hm3, Hm2, Hq. f_equal. simpl. lia. }
  subst r3. by exists r1, o1, r2, o2, o.
Qed.

(** ** More on the commands *)

Lemma written_app t1 t2 : written (t1 ++ t2) = written t1 ++ written t2.
Proof. apply omap_app. Qed.

Lemma opened_app w t1 t2 : opened w (t1 ++ t2) = opened w t1 ++ opened w t2.
Proof. apply omap_app. Qed.

Lemma closed_app t1 t2 : closed (t1 ++ t2) = closed t1 ++ closed t2.
Proof. apply omap_app. Qed.

Lemma setup_written t : Forall (fun ev => is_setup ev = true) t -> written t = [].
Proof.
  induction 1 as [|ev t Hev _ IH]; [done|]. simpl. rewrite IH. by destruct ev.
Qed.

Lemma after_report_skip t1 t2 :
  written t1 = [] -> after_report (t1 ++ t2) = after_report t2.
Proof.
  induction t1 as [|ev t1 IH]; [done|]. simpl.
  destruct ev; simpl; try done. 
Qed.

Lemma setup_closed t : Forall (fun ev => is_setup ev = true) t -> closed t = [].
Proof.
  induction 1 as [|ev t Hev _ IH]; [done|]. simpl. rewrite IH. by destruct ev.
Qed.

Section CommandsFurther.

Variable ToLower : string -> string.
Variable EqualFold : string -> string -> bool.
Variable pending : ActionState.
Variable w : World.

Local Abbreviation NewCascadeClient := (NewCascadeClient EqualFold w).
Local Abbreviation newUploadCmd := (newUploadCmd ToLower EqualFold pending w).
Local Abbreviation newDownloadCmd := (newDownloadCmd ToLower EqualFold w).
Local Abbreviation newActionApproveCmd := (newActionApproveCmd ToLower EqualFold w).
Local Abbreviation newActionStatusCmd := (newActionStatusCmd ToLower EqualFold w).
Local Abbreviation loadConfig := (loadConfig ToLower w).

Lemma NewCascadeClient_trace (cfg : Config) t cc :
  NewCascadeClient cfg = (t, Ok cc) ->
  AddressFromKey w (Keyring_ cc) (ControllerConfig.KeyName (Controller cfg))
                 (ControllerConfig.AccountHRP (Controller cfg))
  = Ok (OwnerAddress cc)
  /\ exists params ccfg,
       t = [EvNewKeyring params; EvCascadeNew ccfg (Keyring_ cc)]
       /\ NewKeyring w params = Ok (Keyring_ cc)
       /\ CascadeNew w ccfg (Keyring_ cc) = Ok (Cascade cc).
Proof.
  unfold NewCascadeClient, newControllerKeyring.
  destruct (resolvePassphrase _ _ _) as [pass|]; simpl; [|done].
  destruct (NewKeyring w _) as [kr|] eqn:Hkr; simpl; [|done].
  destruct (validateKeyType w kr _ _) eqn:Hv1; simpl; [done|].
  destruct (validateKeyType w kr (LumeraConfig.KeyName _) _) eqn:Hv2; simpl; [done|].
  destruct (AddressFromKey w kr _ _) as [owner|] eqn:Ha1; simpl; [|done].
  destruct (AddressFromKey w kr (LumeraConfig.KeyName _) _) as [addr|] eqn:Ha2; simpl;
    [|done].
  destruct (CascadeNew w _ _) as [casc|] eqn:Hc; simpl; [|done].
  intros [= <- <-]. simpl. split; [done|]. by eexists _, _.
Qed.

(** X12.  [NewCascadeClient] constructs the SDK client only after both
    configured keys passed the key type check and both addresses were
    derived, and gives it the address of lumera.key_name under the prefix
    lumera.  When it succeeds it has opened the keystore and constructed
    the SDK client, nothing more, and the owner address it returns is the
    one derived from controller.key_name under controller.account_hrp. *)
Theorem NewCascadeClient_steps (cfg : Config) :
  (forall ccfg kr,
     EvCascadeNew ccfg kr ∈ trace (NewCascadeClient cfg) ->
     validateKeyType w kr (ControllerConfig.KeyName (Controller cfg))
                     (ControllerConfig.KeyType (Controller cfg)) = None
     /\ validateKeyType w kr (LumeraConfig.KeyName (Lumera cfg))
                        (LumeraConfig.KeyType (Lumera cfg)) = None
     /\ is_ok (AddressFromKey w kr (ControllerConfig.KeyName (Controller cfg))
                              (ControllerConfig.AccountHRP (Controller cfg))) = true
     /\ AddressFromKey w kr (LumeraConfig.KeyName (Lumera cfg)) "lumera"
        = Ok (casc_Address ccfg))
  /\ (forall t cc,
        NewCascadeClient cfg = (t, Ok cc) ->
        AddressFromKey w (Keyring_ cc) (ControllerConfig.KeyName (Controller cfg))
                       (ControllerConfig.AccountHRP (Controller cfg))
        = Ok (OwnerAddress cc)
        /\ exists params ccfg,
             t = [EvNewKeyring params; EvCascadeNew ccfg (Keyring_ cc)]
             /\ NewKeyring w params = Ok (Keyring_ cc)
             /\ CascadeNew w ccfg (Keyring_ cc) = Ok (Cascade cc)).
Proof.
  unfold NewCascadeClient, newControllerKeyring, trace.
  destruct (resolvePassphrase _ _ _) as [pass|]; simpl.
  2:{ split; [intros ?? Hin; by apply elem_of_nil in Hin|done]. }
  destruct (NewKeyring w _) as [kr|] eqn:Hkr; simpl.
  2:{ split; [intros ?? Hin; elem_cases Hin|done]. }
  destruct (validateKeyType w kr _ _) eqn:Hv1; simpl.
  { split; [intros ?? Hin; elem_cases Hin|done]. }
  destruct (validateKeyType w kr (LumeraConfig.KeyName _) _) eqn:Hv2; simpl.
  { split; [intros ?? Hin; elem_cases Hin|done]. }
  destruct (AddressFromKey w kr _ _) as [owner|] eqn:Ha1; simpl.
  2:{ split; [intros ?? Hin; elem_cases Hin|done]. }
  destruct (AddressFromKey w kr (LumeraConfig.KeyName _) _) as [addr|] eqn:Ha2; simpl.
  2:{ split; [intros ?? Hin; elem_cases Hin|done]. }
  destruct (CascadeNew w _ _) as [casc|] eqn:Hc; simpl.
  - split.
    + intros ccfg kr' Hin. elem_cases Hin. injection Hin as -> ->.
      simpl. by rewrite Ha1.
    + intros t cc [= <- <-]. simpl. split; [done|]. by eexists _, _.
  - split; [|done].
    intros ccfg kr' Hin. elem_cases Hin. injection Hin as -> ->.
    simpl. by rewrite Ha1.
Qed.

Lemma NewCascadeClient_opened cfg t r :
  NewCascadeClient cfg = (t, r) ->
  opened w t = match r with Ok cc => [HCascade (Cascade cc)] | Err _ => [] end
  /\ closed t = [] /\ written t = [].
Proof.
  intros H. pose proof (NewCascadeClient_setup EqualFold w cfg) as Hs.
  unfold trace in Hs. rewrite H in Hs. simpl in Hs.
  split; [|split; [by apply setup_closed|by apply setup_written]].
  destruct r as [cc|e].
  - destruct (NewCascadeClient_trace cfg _ _ H) as (_ & params & ccfg & -> & _ & Hc). simpl. by rewrite Hc.
  - revert H. unfold NewCascadeClient, newControllerKeyring.
    destruct (resolvePassphrase _ _ _) as [pass|]; simpl; [|by intros [= <- _]].
    destruct (NewKeyring w _) as [kr|]; simpl; [|by intros [= <- _]].
    destruct (validateKeyType w kr _ _); simpl; [by intros [= <- _]|].
    destruct (validateKeyType w kr _ _); simpl; [by intros [= <- _]|].
    destruct (AddressFromKey w kr _ _); simpl; [|by intros [= <- _]].
    destruct (AddressFromKey w kr _ _); simpl; [|by intros [= <- _]].
    destruct (CascadeNew w _ _) eqn:Hc; simpl; [done|].
    intros [= <- _]. simpl. by rewrite Hc.
Qed.

Lemma NewICAController_opened cfg kr t r :
  NewICAController w cfg kr = (t, r) ->
  opened w t = match r with
               | Ok ctl => match inner ctl with Some i => [HController i] | None => [] end
               | Err _ => []
               end
  /\ closed t = [] /\ written t = [].
Proof.
  intros H. pose proof (NewICAController_setup w cfg kr) as Hs.
  unfold trace in Hs. rewrite H in Hs. simpl in Hs.
  split; [|split; [by apply setup_closed|by apply setup_written]].
  revert H. unfold NewICAController.
  destruct (parseGasPrices _ _) as [[g f]|]; simpl; [|by intros [= <- <-]].
  destruct (NewController w _) as [i|] eqn:Hn; simpl; intros [= <- <-]; simpl;
    by rewrite Hn.
Qed.

(** Rewriting [opened], [closed] and [written] along a trace. *)
Ltac along_trace :=
  rewrite ?opened_app, ?closed_app, ?written_app;
  repeat match goal with
         | H : opened _ ?t = _ |- context [opened _ ?t] => rewrite H
         | H : closed ?t = _ |- context [closed ?t] => rewrite H
         | H : written ?t = _ |- context [written ?t] => rewrite H
         end;
  simpl.

(** X13.  Every client a command has opened it closes, exactly once and
    in the reverse order of opening, whatever step the command stops at:
    the clients closed along a run are those handed out along it,
    reversed. *)
Theorem clients_released (a : app) (args : list string) :
  (forall filePath actionID public,
     closed (trace (newUploadCmd a filePath actionID public args))
     = rev (opened w (trace (newUploadCmd a filePath actionID public args))))
  /\ (forall actionID outDir,
        closed (trace (newDownloadCmd a actionID outDir args))
        = rev (opened w (trace (newDownloadCmd a actionID outDir args))))
  /\ (forall actionID icaAddress,
        closed (trace (newActionApproveCmd a actionID icaAddress args))
        = rev (opened w (trace (newActionApproveCmd a actionID icaAddress args))))
  /\ (forall actionID,
        closed (trace (newActionStatusCmd a actionID args))
        = rev (opened w (trace (newActionStatusCmd a actionID args)))).
Proof.
  split; [|split; [|split]].
  - intros filePath actionID public. unfold newUploadCmd.
    destruct (resolveOptionalArg filePath args "file") as [file|]; simpl; [|done].
    destruct (loadConfig a) as [cfg|]; simpl; [|done].
    destruct (Abs (host w) file) as [absPath|]; simpl; [|done].
    destruct (NewCascadeClient cfg) as [t1 [cc|]] eqn:Hcc;
      destruct (NewCascadeClient_opened _ _ _ Hcc) as (Ho1 & Hc1 & _); simpl;
      [|by along_trace].
    destruct (String.eqb (TrimSpace actionID) ""); simpl.
    + destruct (NewICAController w cfg (Keyring_ cc)) as [t2 [ctl|]] eqn:Hctl;
        destruct (NewICAController_opened _ _ _ _ Hctl) as (Ho2 & Hc2 & _); simpl;
        [|by along_trace].
      destruct (NewICAController_inner _ _ _ _ _ Hctl) as [i Hi].
      unfold Controller_Close, Controller_EnsureICAAddress. rewrite Hi in *. simpl.
      destruct (inner_EnsureICAAddress w i); simpl; [|by along_trace].
      destruct (Upload w _ _ _ _ _ _ _); simpl; by along_trace.
    + destruct (BlockchainNew w _ _ _) as [bc|] eqn:Hbc; simpl;
        [|along_trace; by rewrite Hbc].
      destruct (GetAction w bc actionID) as [action|]; simpl;
        [|along_trace; by rewrite Hbc].
      destruct (String.eqb (State action) pending); simpl;
        [|along_trace; by rewrite Hbc].
      destruct (UploadToSupernode w _ _ _ _); simpl; along_trace; by rewrite Hbc.
  - intros actionID outDir. unfold newDownloadCmd.
    destruct (resolveOptionalArg actionID args "action-id") as [id|]; simpl; [|done].
    destruct (loadConfig a) as [cfg|]; simpl; [|done].
    destruct (MkdirAll w _); simpl; [done|].
    destruct (NewCascadeClient cfg) as [t1 [cc|]] eqn:Hcc;
      destruct (NewCascadeClient_opened _ _ _ Hcc) as (Ho1 & Hc1 & _); simpl;
      [|by along_trace].
    destruct (NewICAController w cfg (Keyring_ cc)) as [t2 [ctl|]] eqn:Hctl;
      destruct (NewICAController_opened _ _ _ _ Hctl) as (Ho2 & Hc2 & _); simpl;
      [|by along_trace].
    destruct (NewICAController_inner _ _ _ _ _ Hctl) as [i Hi].
    unfold Controller_Close. rewrite Hi in *. simpl.
    destruct (Download w _ _ _ _); simpl; [|by along_trace].
    destruct (BlockchainNew w _ _ _) as [bc|] eqn:Hbc; simpl;
      [|along_trace; by rewrite Hbc].
    destruct (GetAction w bc id); simpl; along_trace; by rewrite Hbc.
  - intros actionID icaAddress. unfold newActionApproveCmd.
    destruct (resolveOptionalArg actionID args "action-id") as [id|]; simpl; [|done].
    destruct (loadConfig a) as [cfg|]; simpl; [|done].
    destruct (NewCascadeClient cfg) as [t1 [cc|]] eqn:Hcc;
      destruct (NewCascadeClient_opened _ _ _ Hcc) as (Ho1 & Hc1 & _); simpl;
      [|by along_trace].
    destruct (NewICAController w cfg (Keyring_ cc)) as [t2 [ctl|]] eqn:Hctl;
      destruct (NewICAController_opened _ _ _ _ Hctl) as (Ho2 & Hc2 & _); simpl;
      [|by along_trace].
    destruct (NewICAController_inner _ _ _ _ _ Hctl) as [i Hi].
    unfold Controller_Close, Controller_ICAAddress, Controller_SendApproveAction.
    rewrite Hi in *. simpl.
    destruct (String.eqb (TrimSpace icaAddress) ""); simpl.
    + destruct (inner_ICAAddress w i) as [addr|]; simpl; [|by along_trace].
      destruct (CreateApproveActionMessage w id addr) as [msg|]; simpl;
        [|by along_trace].
      destruct (inner_SendApproveAction w i msg); simpl; by along_trace.
    + destruct (CreateApproveActionMessage w id icaAddress) as [msg|]; simpl;
        [|by along_trace].
      destruct (inner_SendApproveAction w i msg); simpl; by along_trace.
  - intros actionID. unfold newActionStatusCmd.
    destruct (resolveOptionalArg actionID args "action-id") as [id|]; simpl; [|done].
    destruct (loadConfig a) as [cfg|]; simpl; [|done].
    destruct (NewCascadeClient cfg) as [t1 [cc|]] eqn:Hcc;
      destruct (NewCascadeClient_opened _ _ _ Hcc) as (Ho1 & Hc1 & _); simpl;
      [|by along_trace].
    destruct (BlockchainNew w _ _ _) as [bc|] eqn:Hbc; simpl;
      [|along_trace; by rewrite Hbc].
    destruct (GetAction w bc id); simpl; along_trace; by rewrite Hbc.
Qed.

Local Abbreviation one_record_or_none := (one_record_or_none w).

(** Closing a branch of a command in which no record is written, or the
    record [p] is. *)
Ltac no_record := left; split; [by along_trace|by eexists].
Ltac one_record :=
  right; eexists; split; [by along_trace|];
  split; [rewrite <- ?app_assoc; rewrite ?after_report_skip by done; by simpl|];
  split; [done|];
  unfold resumePayload, downloadPayload;
  repeat match goal with |- context [match ?m with _ => _ end] => destruct m end;
  by simplify_map_eq.

(** X14.  No partial result: a command that fails before its report
    writes no record at all, and otherwise writes exactly one record, with
    status ok, as the last thing it does before closing its clients; its
    result is then the result of the encoder. *)
Theorem result_record_once (a : app) (args : list string) :
  (forall filePath actionID public,
     one_record_or_none (newUploadCmd a filePath actionID public args))
  /\ (forall actionID outDir, one_record_or_none (newDownloadCmd a actionID outDir args))
  /\ (forall actionID icaAddress,
        one_record_or_none (newActionApproveCmd a actionID icaAddress args))
  /\ (forall actionID, one_record_or_none (newActionStatusCmd a actionID args)).
Proof.
  unfold one_record_or_none. split; [|split; [|split]].
  - intros filePath actionID public. unfold newUploadCmd.
    destruct (resolveOptionalArg filePath args "file") as [file|]; simpl; [|no_record].
    destruct (loadConfig a) as [cfg|]; simpl; [|no_record].
    destruct (Abs (host w) file) as [absPath|]; simpl; [|no_record].
    destruct (NewCascadeClient cfg) as [t1 [cc|]] eqn:Hcc;
      destruct (NewCascadeClient_opened _ _ _ Hcc) as (_ & _ & Hw1); simpl;
      [|no_record].
    destruct (String.eqb (TrimSpace actionID) ""); simpl.
    + destruct (NewICAController w cfg (Keyring_ cc)) as [t2 [ctl|]] eqn:Hctl;
        destruct (NewICAController_opened _ _ _ _ Hctl) as (_ & _ & Hw2); simpl;
        [|no_record].
      destruct (NewICAController_inner _ _ _ _ _ Hctl) as [i Hi].
      unfold Controller_Close, Controller_EnsureICAAddress. rewrite Hi in *. simpl.
      destruct (inner_EnsureICAAddress w i); simpl; [|no_record].
      destruct (Upload w _ _ _ _ _ _ _); simpl; [one_record|no_record].
    + destruct (BlockchainNew w _ _ _) as [bc|] eqn:Hbc; simpl; [|no_record].
      destruct (GetAction w bc actionID) as [action|]; simpl; [|no_record].
      destruct (String.eqb (State action) pending); simpl; [|no_record].
      destruct (UploadToSupernode w _ _ _ _); simpl; [one_record|no_record].
  - intros actionID outDir. unfold newDownloadCmd.
    destruct (resolveOptionalArg actionID args "action-id") as [id|]; simpl; [|no_record].
    destruct (loadConfig a) as [cfg|]; simpl; [|no_record].
    destruct (MkdirAll w _); simpl; [no_record|].
    destruct (NewCascadeClient cfg) as [t1 [cc|]] eqn:Hcc;
      destruct (NewCascadeClient_opened _ _ _ Hcc) as (_ & _ & Hw1); simpl;
      [|no_record].
    destruct (NewICAController w cfg (Keyring_ cc)) as [t2 [ctl|]] eqn:Hctl;
      destruct (NewICAController_opened _ _ _ _ Hctl) as (_ & _ & Hw2); simpl;
      [|no_record].
    destruct (NewICAController_inner _ _ _ _ _ Hctl) as [i Hi].
    unfold Controller_Close. rewrite Hi in *. simpl.
    destruct (Download w _ _ _ _); simpl; [|no_record].
    destruct (BlockchainNew w _ _ _) as [bc|] eqn:Hbc; simpl; [|one_record].
    destruct (GetAction w bc id); simpl; one_record.
  - intros actionID icaAddress. unfold newActionApproveCmd.
    destruct (resolveOptionalArg actionID args "action-id") as [id|]; simpl; [|no_record].
    destruct (loadConfig a) as [cfg|]; simpl; [|no_record].
    destruct (NewCascadeClient cfg) as [t1 [cc|]] eqn:Hcc;
      destruct (NewCascadeClient_opened _ _ _ Hcc) as (_ & _ & Hw1); simpl;
      [|no_record].
    destruct (NewICAController w cfg (Keyring_ cc)) as [t2 [ctl|]] eqn:Hctl;
      destruct (NewICAController_opened _ _ _ _ Hctl) as (_ & _ & Hw2); simpl;
      [|no_record].
    destruct (NewICAController_inner _ _ _ _ _ Hctl) as [i Hi].
    unfold Controller_Close, Controller_ICAAddress, Controller_SendApproveAction.
    rewrite Hi in *. simpl.
    destruct (String.eqb (TrimSpace icaAddress) ""); simpl.
    + destruct (inner_ICAAddress w i) as [addr|]; simpl; [|no_record].
      destruct (CreateApproveActionMessage w id addr) as [msg|]; simpl; [|no_record].
      destruct (inner_SendApproveAction w i msg); simpl; [one_record|no_record].
    + destruct (CreateApproveActionMessage w id icaAddress) as [msg|]; simpl;
        [|no_record].
      destruct (inner_SendApproveAction w i msg); simpl; [one_record|no_record].
  - intros actionID. unfold newActionStatusCmd.
    destruct (resolveOptionalArg actionID args "action-id") as [id|]; simpl; [|no_record].
    destruct (loadConfig a) as [cfg|]; simpl; [|no_record].
    destruct (NewCascadeClient cfg) as [t1 [cc|]] eqn:Hcc;
      destruct (NewCascadeClient_opened _ _ _ Hcc) as (_ & _ & Hw1); simpl;
      [|no_record].
    destruct (BlockchainNew w _ _ _) as [bc|] eqn:Hbc; simpl; [|no_record].
    destruct (GetAction w bc id); simpl; [one_record|no_record].
Qed.

(** X15.  The configuration comes before every call: with a blank
    --config path [loadConfig] fails with "config path is required", and
    whenever [loadConfig] fails no command makes any call (the download
    does not even create its output directory); once its field is
    resolved, the command returns the error of [loadConfig]. *)
Theorem config_before_calls (a : app) (args : list string) :
  (TrimSpace (configPath a) = "" -> loadConfig a = Err "config path is required")
  /\ (forall e, loadConfig a = Err e ->
        (forall filePath actionID public,
           trace (newUploadCmd a filePath actionID public args) = []
           /\ (is_ok (resolveOptionalArg filePath args "file") = true ->
               outcome (newUploadCmd a filePath actionID public args) = Err e))
        /\ (forall actionID outDir,
              trace (newDownloadCmd a actionID outDir args) = []
              /\ (is_ok (resolveOptionalArg actionID args "action-id") = true ->
                  outcome (newDownloadCmd a actionID outDir args) = Err e))
        /\ (forall actionID icaAddress,
              trace (newActionApproveCmd a actionID icaAddress args) = []
              /\ (is_ok (resolveOptionalArg actionID args "action-id") = true ->
                  outcome (newActionApproveCmd a actionID icaAddress args) = Err e))
        /\ (forall actionID,
              trace (newActionStatusCmd a actionID args) = []
              /\ (is_ok (resolveOptionalArg actionID args "action-id") = true ->
                  outcome (newActionStatusCmd a actionID args) = Err e))).
Proof.
  split.
  - intros H. unfold loadConfig. by rewrite H.
  - intros e He. repeat split;
      unfold newUploadCmd, newDownloadCmd, newActionApproveCmd, newActionStatusCmd;
      destruct (resolveOptionalArg _ args _); simpl; rewrite ?He; done.
Qed.

Lemma NewCascadeClient_only cfg :
  Forall (fun ev => match ev with
                    | EvNewKeyring _ | EvCascadeNew _ _ => true
                    | _ => false
                    end = true)
         (trace (NewCascadeClient cfg)).
Proof.
  unfold NewCascadeClient, newControllerKeyring, trace.
  destruct (resolvePassphrase _ _ _); simpl; [|constructor].
  destruct (NewKeyring w _) as [kr|]; simpl; [|by repeat constructor].
  destruct (validateKeyType w kr _ _); simpl; [by repeat constructor|].
  destruct (validateKeyType w kr _ _); simpl; [by repeat constructor|].
  destruct (AddressFromKey w kr _ _); simpl; [|by repeat constructor].
  destruct (AddressFromKey w kr _ _); simpl; [|by repeat constructor].
  destruct (CascadeNew w _ _); simpl; by repeat constructor.
Qed.

Lemma NewICAController_only cfg kr :
  Forall (fun ev => match ev with EvNewController _ => true | _ => false end = true)
         (trace (NewICAController w cfg kr)).
Proof.
  unfold NewICAController, trace.
  destruct (parseGasPrices _ _) as [[g f]|]; simpl; [|constructor].
  destruct (NewController w _); simpl; by repeat constructor.
Qed.

(** Every event of a trace built from the two constructions and listed
    calls belongs to a workflow. *)
Ltac in_workflow Hs1 Hs2 :=
  repeat (apply Forall_app; split);
  first
    [ by (eapply Forall_impl; [exact Hs1|]; intros []; try done)
    | by (eapply Forall_impl; [exact Hs2|]; intros []; try done)
    | by repeat constructor ].

(** X16.  Each command stays within its workflow.  The status command only
    queries: besides constructions, report and closing calls it makes the
    action query and nothing else.  The download makes no upload,
    registration, address query or approval.  The approval makes no mesh
    transfer, no ledger query and no registration, with or without an
    address override.  An upload with an action id constructs no ICA
    controller and makes no registration and no registering upload; an
    upload without one makes no action query and no direct upload. *)
Theorem commands_stay_in_workflow (a : app) (args : list string) :
  (forall actionID,
     Forall (fun ev => is_query ev = true) (trace (newActionStatusCmd a actionID args)))
  /\ (forall actionID outDir,
        Forall (fun ev => is_download_call ev = true)
               (trace (newDownloadCmd a actionID outDir args)))
  /\ (forall actionID icaAddress,
        Forall (fun ev => is_approve_call ev = true)
               (trace (newActionApproveCmd a actionID icaAddress args)))
  /\ (forall filePath actionID public,
        Forall (fun ev => (if String.eqb (TrimSpace actionID) ""
                           then is_fresh_call ev else is_resume_call ev) = true)
               (trace (newUploadCmd a filePath actionID public args))).
Proof.
  split; [|split; [|split]].
  - intros actionID. unfold newActionStatusCmd.
    destruct (resolveOptionalArg actionID args "action-id") as [id|]; simpl;
      [|constructor].
    destruct (loadConfig a) as [cfg|]; simpl; [|constructor].
    pose proof (NewCascadeClient_only cfg) as Hs1. unfold trace in Hs1.
    destruct (NewCascadeClient cfg) as [t1 [cc|]]; simpl in *; [|in_workflow Hs1 Hs1].
    destruct (BlockchainNew w _ _ _) as [bc|]; simpl; [|in_workflow Hs1 Hs1].
    destruct (GetAction w bc id); simpl; in_workflow Hs1 Hs1.
  - intros actionID outDir. unfold newDownloadCmd.
    destruct (resolveOptionalArg actionID args "action-id") as [id|]; simpl;
      [|constructor].
    destruct (loadConfig a) as [cfg|]; simpl; [|constructor].
    destruct (MkdirAll w _); simpl; [by repeat constructor|].
    pose proof (NewCascadeClient_only cfg) as Hs1. unfold trace in Hs1.
    destruct (NewCascadeClient cfg) as [t1 [cc|]]; simpl in *;
      [|constructor; [done|in_workflow Hs1 Hs1]].
    pose proof (NewICAController_only cfg (Keyring_ cc)) as Hs2. unfold trace in Hs2.
    destruct (NewICAController w cfg (Keyring_ cc)) as [t2 [ctl|]] eqn:Hctl; simpl in *;
      [|constructor; [done|in_workflow Hs1 Hs2]].
    destruct (NewICAController_inner _ _ _ _ _ Hctl) as [i Hi].
    unfold Controller_Close. rewrite Hi in *. simpl.
    destruct (Download w _ _ _ _); simpl; [|constructor; [done|in_workflow Hs1 Hs2]].
    destruct (BlockchainNew w _ _ _) as [bc|]; simpl;
      [|constructor; [done|in_workflow Hs1 Hs2]].
    destruct (GetAction w bc id); simpl; (constructor; [done|in_workflow Hs1 Hs2]).
  - intros actionID icaAddress. unfold newActionApproveCmd.
    destruct (resolveOptionalArg actionID args "action-id") as [id|]; simpl;
      [|constructor].
    destruct (loadConfig a) as [cfg|]; simpl; [|constructor].
    pose proof (NewCascadeClient_only cfg) as Hs1. unfold trace in Hs1.
    destruct (NewCascadeClient cfg) as [t1 [cc|]]; simpl in *; [|in_workflow Hs1 Hs1].
    pose proof (NewICAController_only cfg (Keyring_ cc)) as Hs2. unfold trace in Hs2.
    destruct (NewICAController w cfg (Keyring_ cc)) as [t2 [ctl|]] eqn:Hctl; simpl in *;
      [|in_workflow Hs1 Hs2].
    destruct (NewICAController_inner _ _ _ _ _ Hctl) as [i Hi].
    unfold Controller_Close, Controller_ICAAddress, Controller_SendApproveAction.
    rewrite Hi in *. simpl.
    destruct (String.eqb (TrimSpace icaAddress) ""); simpl.
    + destruct (inner_ICAAddress w i) as [addr|]; simpl; [|in_workflow Hs1 Hs2].
      destruct (CreateApproveActionMessage w id addr) as [msg|]; simpl;
        [|in_workflow Hs1 Hs2].
      destruct (inner_SendApproveAction w i msg); simpl; in_workflow Hs1 Hs2.
    + destruct (CreateApproveActionMessage w id icaAddress) as [msg|]; simpl;
        [|in_workflow Hs1 Hs2].
      destruct (inner_SendApproveAction w i msg); simpl; in_workflow Hs1 Hs2.
  - intros filePath actionID public. unfold newUploadCmd.
    destruct (resolveOptionalArg filePath args "file") as [file|]; simpl; [|constructor].
    destruct (loadConfig a) as [cfg|]; simpl; [|constructor].
    destruct (Abs (host w) file) as [absPath|]; simpl; [|constructor].
    pose proof (NewCascadeClient_only cfg) as Hs1. unfold trace in Hs1.
    destruct (NewCascadeClient cfg) as [t1 [cc|]]; simpl in *.
    2:{ destruct (String.eqb (TrimSpace actionID) ""); in_workflow Hs1 Hs1. }
    destruct (String.eqb (TrimSpace actionID) ""); simpl.
    + pose proof (NewICAController_only cfg (Keyring_ cc)) as Hs2. unfold trace in Hs2.
      destruct (NewICAController w cfg (Keyring_ cc)) as [t2 [ctl|]] eqn:Hctl;
        simpl in *; [|in_workflow Hs1 Hs2].
      destruct (NewICAController_inner _ _ _ _ _ Hctl) as [i Hi].
      unfold Controller_Close, Controller_EnsureICAAddress. rewrite Hi in *. simpl.
      destruct (inner_EnsureICAAddress w i); simpl; [|in_workflow Hs1 Hs2].
      destruct (Upload w _ _ _ _ _ _ _); simpl; in_workflow Hs1 Hs2.
    + destruct (BlockchainNew w _ _ _) as [bc|]; simpl; [|in_workflow Hs1 Hs1].
      destruct (GetAction w bc actionID) as [action|]; simpl; [|in_workflow Hs1 Hs1].
      destruct (String.eqb (State action) pending); simpl; [|in_workflow Hs1 Hs1].
      destruct (UploadToSupernode w _ _ _ _); simpl; in_workflow Hs1 Hs1.
Qed.

(** X17.  Upload without an action id, once the clients are built: if
    the delegated account cannot be ensured the command returns that error
    and makes no upload; otherwise the registering upload is made with the
    ensured address both as creator and as ICA creator, the public key of
    the controller and the --public flag, and the record reports the ids
    and the transaction hash of its result, the ensured address, the owner
    address of the controller, the flag and the absolute path. *)
Theorem upload_fresh_report a filePath actionID public args file cfg absPath t1 cc t2 ctl :
  resolveOptionalArg filePath args "file" = Ok file ->
  loadConfig a = Ok cfg ->
  Abs (host w) file = Ok absPath ->
  NewCascadeClient cfg = (t1, Ok cc) ->
  TrimSpace actionID = "" ->
  NewICAController w cfg (Keyring_ cc) = (t2, Ok ctl) ->
  let run := newUploadCmd a filePath actionID public args in
  exists i,
    inner ctl = Some i
    /\ (forall e, inner_EnsureICAAddress w i = Err e ->
          outcome run = Err e
          /\ trace run = t1 ++ t2 ++ [EvEnsureICAAddress i; EvControllerClose i;
                                      EvCascadeClose (Cascade cc)])
    /\ (forall icaAddr res,
          inner_EnsureICAAddress w i = Ok icaAddr ->
          Upload w (Cascade cc) icaAddr absPath icaAddr (inner_AppPubkey w i) ctl public
          = Ok res ->
          exists p : payload,
            trace run
            = t1 ++ t2 ++ [EvEnsureICAAddress i;
                           EvUpload (Cascade cc) icaAddr absPath icaAddr
                                    (inner_AppPubkey w i) ctl public;
                           EvWriteJSON p; EvControllerClose i;
                           EvCascadeClose (Cascade cc)]
            /\ outcome run = of_status (Encode w p)
            /\ p !! "status" = Some (JString "ok")
            /\ p !! "action_id" = Some (JString (ar_ActionID res))
            /\ p !! "tx_hash" = Some (JString (ar_TxHash res))
            /\ p !! "task_id" = Some (JString (ar_TaskID res))
            /\ p !! "ica_address" = Some (JString icaAddr)
            /\ p !! "ica_owner_address" = Some (JString (inner_OwnerAddress w i))
            /\ p !! "is_public" = Some (JBool public)
            /\ p !! "file" = Some (JString absPath)).
Proof.
  intros Hf Hc Ha Hcc Hid Hctl run.
  destruct (NewICAController_inner _ _ _ _ _ Hctl) as [i Hi]. exists i.
  split; [done|].
  assert (Hrun : run =
    (let '(t, r) :=
       (icaAddr ← call (EvEnsureICAAddress i) (inner_EnsureICAAddress w i);
        res ← call (EvUpload (Cascade cc) icaAddr absPath icaAddr
                             (inner_AppPubkey w i) ctl public)
                   (Upload w (Cascade cc) icaAddr absPath icaAddr
                           (inner_AppPubkey w i) ctl public);
        writeJSON w
          (<["file" := JString absPath]>
          (<["is_public" := JBool public]>
          (<["ica_owner_address" := JString (inner_OwnerAddress w i)]>
          (<["ica_address" := JString icaAddr]>
          (<["task_id" := JString (ar_TaskID res)]>
          (<["tx_hash" := JString (ar_TxHash res)]>
          (<["action_id" := JString (ar_ActionID res)]>
          (<["status" := JString "ok"]> ∅))))))))) : M unit in
     (t1 ++ t2 ++ t ++ [EvControllerClose i; EvCascadeClose (Cascade cc)], r))).
  { unfold run, newUploadCmd. rewrite Hf. simpl. rewrite Hc. simpl. rewrite Ha. simpl.
    rewrite Hcc. simpl. rewrite Hid. simpl. rewrite Hctl. simpl.
    unfold Controller_Close, Controller_EnsureICAAddress, Controller_AppPubkey,
      Controller_OwnerAddress. rewrite Hi. simpl.
    destruct (inner_EnsureICAAddress w i) as [icaAddr|]; simpl;
      [|by rewrite <- !app_assoc].
    destruct (Upload w _ _ _ _ _ _ _); simpl; by rewrite <- !app_assoc. }
  split.
  - intros e He. rewrite Hrun, He. simpl. done.
  - intros icaAddr res He Hu. rewrite Hrun, He. simpl. rewrite Hu. simpl.
    eexists. split; [reflexivity|]. split; [done|]. by simplify_map_eq.
Qed.

(** X18.  Approval with an --ica-address override, once the clients are
    built: the delegated account is not queried; the approval message is
    built for the resolved action id with the override exactly as given,
    white space included; a failure to build or to send it is returned as
    it is, a message that was not built is not sent, and on success the
    record reports the transaction hash of the send, the override and the
    owner address of the controller. *)
Theorem approve_with_override a actionID icaAddress args id cfg t1 cc t2 ctl :
  resolveOptionalArg actionID args "action-id" = Ok id ->
  loadConfig a = Ok cfg ->
  NewCascadeClient cfg = (t1, Ok cc) ->
  NewICAController w cfg (Keyring_ cc) = (t2, Ok ctl) ->
  TrimSpace icaAddress <> "" ->
  let run := newActionApproveCmd a actionID icaAddress args in
  exists i,
    inner ctl = Some i
    /\ (forall e, CreateApproveActionMessage w id icaAddress = Err e ->
          outcome run = Err e
          /\ trace run = t1 ++ t2 ++ [EvCreateApproveActionMessage id icaAddress;
                                      EvControllerClose i; EvCascadeClose (Cascade cc)])
    /\ (forall msg,
          CreateApproveActionMessage w id icaAddress = Ok msg ->
          (forall e, inner_SendApproveAction w i msg = Err e ->
             outcome run = Err e
             /\ trace run = t1 ++ t2 ++ [EvCreateApproveActionMessage id icaAddress;
                                         EvSendApproveAction i msg;
                                         EvControllerClose i; EvCascadeClose (Cascade cc)])
          /\ (forall txHash, inner_SendApproveAction w i msg = Ok txHash ->
                exists p : payload,
                  trace run
                  = t1 ++ t2 ++ [EvCreateApproveActionMessage id icaAddress;
                                 EvSendApproveAction i msg; EvWriteJSON p;
                                 EvControllerClose i; EvCascadeClose (Cascade cc)]
                  /\ outcome run = of_status (Encode w p)
                  /\ p !! "status" = Some (JString "ok")
                  /\ p !! "action_id" = Some (JString id)
                  /\ p !! "tx_hash" = Some (JString txHash)
                  /\ p !! "ica_address" = Some (JString icaAddress)
                  /\ p !! "ica_owner_address"
                     = Some (JString (inner_OwnerAddress w i)))).
Proof.
  intros Hf Hc Hcc Hctl Hica run.
  destruct (NewICAController_inner _ _ _ _ _ Hctl) as [i Hi]. exists i.
  split; [done|].
  assert (Hrun : run =
    (let '(t, r) :=
       (msg ← call (EvCreateApproveActionMessage id icaAddress)
                   (CreateApproveActionMessage w id icaAddress);
        txHash ← call (EvSendApproveAction i msg) (inner_SendApproveAction w i msg);
        writeJSON w
          (<["ica_owner_address" := JString (inner_OwnerAddress w i)]>
          (<["ica_address" := JString icaAddress]>
          (<["tx_hash" := JString txHash]>
          (<["action_id" := JString id]>
          (<["status" := JString "ok"]> ∅)))))) : M unit in
     (t1 ++ t2 ++ t ++ [EvControllerClose i; EvCascadeClose (Cascade cc)], r))).
  { unfold run, newActionApproveCmd. rewrite Hf. simpl. rewrite Hc. simpl.
    rewrite Hcc. simpl. rewrite Hctl. simpl.
    unfold Controller_Close, Controller_SendApproveAction, Controller_OwnerAddress.
    rewrite Hi, (eqb_empty_false _ Hica). simpl.
    destruct (CreateApproveActionMessage w id icaAddress) as [msg|]; simpl;
      [|by rewrite <- !app_assoc].
    destruct (inner_SendApproveAction w i msg); simpl; by rewrite <- !app_assoc. }
  split.
  - intros e He. rewrite Hrun, He. simpl. done.
  - intros msg Hm. split.
    + intros e He. rewrite Hrun, Hm. simpl. rewrite He. simpl. done.
    + intros txHash Hs. rewrite Hrun, Hm. simpl. rewrite Hs. simpl.
      eexists. split; [reflexivity|]. split; [done|]. by simplify_map_eq.
Qed.

(** X19.  Download, once the clients are built and the output directory
    exists: the mesh download is requested for the resolved action id into
    the cleaned output directory and signed with the owner address of the
    controller.  If it fails the command returns that error and does not
    look the action up.  If it succeeds and the lookup finds cascade
    metadata, the record reports the file name of the metadata next to
    the ids and the output path of the download. *)
Theorem download_report a actionID outDir args id cfg t1 cc t2 ctl :
  resolveOptionalArg actionID args "action-id" = Ok id ->
  loadConfig a = Ok cfg ->
  MkdirAll w (Clean (host w) outDir) = None ->
  NewCascadeClient cfg = (t1, Ok cc) ->
  NewICAController w cfg (Keyring_ cc) = (t2, Ok ctl) ->
  let run := newDownloadCmd a actionID outDir args in
  let dir := Clean (host w) outDir in
  exists i,
    inner ctl = Some i
    /\ (forall e, Download w (Cascade cc) id dir (inner_OwnerAddress w i) = Err e ->
          outcome run = Err e
          /\ trace run
             = EvMkdirAll dir
               :: t1 ++ t2 ++ [EvDownload (Cascade cc) id dir (inner_OwnerAddress w i);
                               EvControllerClose i; EvCascadeClose (Cascade cc)])
    /\ (forall res bc action meta,
          Download w (Cascade cc) id dir (inner_OwnerAddress w i) = Ok res ->
          outcome (NewLumeraClient w cfg (Keyring_ cc)
                                   (ControllerConfig.KeyName (Controller cfg))) = Ok bc ->
          GetAction w bc id = Ok action ->
          Metadata_ action = MetadataCascade (Some meta) ->
          let p := downloadPayload res (FileName meta) in
          trace run
          = EvMkdirAll dir
            :: t1 ++ t2
               ++ EvDownload (Cascade cc) id dir (inner_OwnerAddress w i)
                  :: trace (NewLumeraClient w cfg (Keyring_ cc)
                                            (ControllerConfig.KeyName (Controller cfg)))
                  ++ [EvGetAction bc id; EvWriteJSON p; EvBlockchainClose bc;
                      EvControllerClose i; EvCascadeClose (Cascade cc)]
          /\ outcome run = of_status (Encode w p)
          /\ p !! "status" = Some (JString "ok")
          /\ p !! "action_id" = Some (JString (dl_ActionID res))
          /\ p !! "task_id" = Some (JString (dl_TaskID res))
          /\ p !! "output_path" = Some (JString (dl_OutputPath res))
          /\ p !! "file_name" = Some (JString (FileName meta))).
Proof.
  intros Hf Hc Hm Hcc Hctl run dir.
  destruct (NewICAController_inner _ _ _ _ _ Hctl) as [i Hi]. exists i.
  split; [done|]. split.
  - intros e He. unfold run, newDownloadCmd. rewrite Hf. simpl. rewrite Hc. simpl.
    rewrite Hm. simpl. rewrite Hcc. simpl. rewrite Hctl. simpl.
    unfold Controller_Close, Controller_OwnerAddress. rewrite Hi. fold dir.
    rewrite He. simpl. by rewrite <- !app_assoc.
  - intros res bc action meta Hd Hbc Hact Hmeta p.
    unfold run, newDownloadCmd. rewrite Hf. simpl. rewrite Hc. simpl.
    rewrite Hm. simpl. rewrite Hcc. simpl. rewrite Hctl. simpl.
    unfold Controller_Close, Controller_OwnerAddress. rewrite Hi. fold dir.
    rewrite Hd. simpl. unfold outcome in Hbc. simpl in Hbc. rewrite Hbc. simpl.
    rewrite Hact. simpl. unfold metadataFileName. rewrite Hmeta. fold p.
    split; [by rewrite <- !app_assoc|]. split; [done|].
    unfold p, downloadPayload. by simplify_map_eq.
Qed.

(** X20.  Status, once the clients are built: an action that cannot be
    fetched makes the command return that error without a record; a
    fetched action is reported with its id, state, type, creator, price,
    block height and expiry, with is_public exactly when its metadata is
    a non-nil cascade metadata and with the base64 of app_pubkey exactly
    when that key is not empty. *)
Theorem status_report a actionID args id cfg t1 cc bc :
  resolveOptionalArg actionID args "action-id" = Ok id ->
  loadConfig a = Ok cfg ->
  NewCascadeClient cfg = (t1, Ok cc) ->
  outcome (NewLumeraClient w cfg (Keyring_ cc)
                           (ControllerConfig.KeyName (Controller cfg))) = Ok bc ->
  let run := newActionStatusCmd a actionID args in
  (forall e, GetAction w bc id = Err e ->
     outcome run = Err e /\ written (trace run) = [])
  /\ (forall action, GetAction w bc id = Ok action ->
        exists p : payload,
          written (trace run) = [p]
          /\ outcome run = of_status (Encode w p)
          /\ p !! "status" = Some (JString "ok")
          /\ p !! "action_id" = Some (JString (ID action))
          /\ p !! "state" = Some (JString (State action))
          /\ p !! "type" = Some (JString (Type_ action))
          /\ p !! "creator" = Some (JString (Creator action))
          /\ p !! "price" = Some (JString (Price action))
          /\ p !! "block_height" = Some (JInt (BlockHeight action))
          /\ p !! "expires_at" = Some (JInt (ExpirationTime action))
          /\ p !! "is_public"
             = match cascadeMetadata (Metadata_ action) with
               | Some meta => Some (JBool (Public meta))
               | None => None
               end
          /\ p !! "app_pubkey"
             = match AppPubkey action with
               | [] => None
               | _ :: _ => Some (JString (EncodeToString w (AppPubkey action)))
               end).
Proof.
  intros Hf Hc Hcc Hbc run.
  destruct (NewCascadeClient_opened _ _ _ Hcc) as (_ & _ & Hw1).
  unfold outcome in Hbc. simpl in Hbc. split.
  - intros e He. unfold run, newActionStatusCmd. rewrite Hf. simpl. rewrite Hc. simpl.
    rewrite Hcc. simpl. rewrite Hbc. simpl. rewrite He. simpl.
    split; [done|]. by along_trace.
  - intros action Hact. unfold run, newActionStatusCmd. rewrite Hf. simpl.
    rewrite Hc. simpl. rewrite Hcc. simpl. rewrite Hbc. simpl. rewrite Hact. simpl.
    eexists. split; [by along_trace|]. split; [done|].
    unfold cascadeMetadata.
    destruct (Metadata_ action) as [|[meta|]|]; destruct (AppPubkey action);
      by simplify_map_eq.
Qed.

(** X21.  Gas prices of the controller chain.  [NewICAController] asks
    the SDK for a controller at most once and hands it the keyring it was
    given.  A blank gas_prices, or one that parses to no coin, configures
    a zero gas price with an empty fee denomination; a single coin gives
    its amount and denomination; a parse error, or more than one coin,
    fails with the prefix parse controller.gas_prices before any
    controller is requested. *)
Theorem NewICAController_gas_prices cfg kr :
  let run := NewICAController w cfg kr in
  let gas := TrimSpace (ControllerConfig.GasPrices (Controller cfg)) in
  let price icfg := (bc_GasPrice (ica_Controller icfg),
                     bc_FeeDenom (ica_Controller icfg)) in
  (forall icfg, EvNewController icfg ∈ trace run ->
     trace run = [EvNewController icfg]
     /\ ica_Keyring icfg = kr
     /\ (gas = "" \/ ParseDecCoins w gas = Ok [] -> price icfg = (0%Z, ""))
     /\ (forall coin, gas <> "" -> ParseDecCoins w gas = Ok [coin] ->
           price icfg = coin))
  /\ (forall e, gas <> "" -> ParseDecCoins w gas = Err e ->
        run = ([], Err ("parse controller.gas_prices: " +:+ e)))
  /\ (forall c1 c2 coins, gas <> "" -> ParseDecCoins w gas = Ok (c1 :: c2 :: coins) ->
        run = ([], Err ("parse controller.gas_prices: "
                        +:+ "expected a single gas price, got "
                        +:+ pretty (2 + length coins) +:+ " entries"))).
Proof.
  intros run gas price. unfold run, NewICAController, parseGasPrices. fold gas.
  split; [|split].
  - intros icfg. destruct (decide (gas = "")) as [Hg|Hg].
    + rewrite Hg. simpl.
      destruct (NewController w _) eqn:Hn; simpl; intros Hin; elem_cases Hin;
        injection Hin as Hin; subst icfg; (split; [done|]); (split; [done|]);
        (split; [done|]); intros coin Hne; done.
    + rewrite (eqb_empty_false _ Hg).
      destruct (ParseDecCoins w gas) as [[|[amt denom] [|c2 coins]]|e] eqn:Hp; simpl;
        try (intros Hin; by elem_cases Hin).
      * destruct (NewController w _) eqn:Hn; simpl; intros Hin; elem_cases Hin;
          injection Hin as Hin; subst icfg; (split; [done|]); (split; [done|]);
          (split; [done|]); intros coin _ Hc; done.
      * destruct (NewController w _) eqn:Hn; simpl; intros Hin; elem_cases Hin;
          injection Hin as Hin; subst icfg; (split; [done|]); (split; [done|]);
          (split; [intros [?|?]; done|]); intros coin _ Hc; by injection Hc as <-.
  - intros e Hg Hp. by rewrite (eqb_empty_false _ Hg), Hp.
  - intros c1 c2 coins Hg Hp. by rewrite (eqb_empty_false _ Hg), Hp.
Qed.

End CommandsFurther.
(** ** The further properties at concrete inputs *)

(** A level written with capitals and white space is accepted as warn,
    and warn is accepted unchanged. *)
Lemma normalizeLogLevel_range_witness :
  normalizeLogLevel lower_ascii " Warning " = Ok "warn"
  /\ In "warn" logLevels
  /\ normalizeLogLevel lower_ascii "warn" = Ok "warn".
Proof.
  split; [reflexivity|].
  exact (normalizeLogLevel_range lower_ascii lower_ascii_is_ToLower " Warning " "warn"
                                 eq_refl).
Defined.

(** A file with a home directory under the tilde, a padded backend and a
    level in capitals loads into a configuration within the ranges. *)
Lemma LoadConfig_sound_witness :
  let cfg0 := setHome "~/.osmosisd" (setBackend " TEST " (setLogLevel "WARNING" sampleConfig)) in
  exists cfg,
    LoadConfig lower_ascii (sampleHost cfg0 "s3cret") "config.toml" = Ok cfg
    /\ LumeraConfig.LogLevel (Lumera cfg) = "warn"
    /\ In (LumeraConfig.LogLevel (Lumera cfg)) logLevels
    /\ In (ControllerConfig.KeyringBackend (Controller cfg)) keyringBackends
    /\ exclusive cfg.
Proof.
  intros cfg0. eexists. split; [reflexivity|].
  destruct (LoadConfig_sound lower_ascii (sampleHost cfg0 "s3cret") "config.toml" _ eq_refl)
    as (Hl & Hb & _ & Hx & _).
  split; [reflexivity|]. split; [exact Hl|]. split; [exact Hb|exact Hx].
Defined.

(** Validating the validated sample again changes nothing. *)
Lemma Validate_idempotent_witness :
  let h := sampleHost sampleConfig "s3cret" in
  let c := setBackend " TEST " (setLogLevel "WARNING" sampleConfig) in
  (Validate lower_ascii h c).1 <> c
  /\ Validate lower_ascii h (Validate lower_ascii h c).1
     = ((Validate lower_ascii h c).1, None).
Proof.
  intros h c. split; [vm_compute; discriminate|].
  exact (Validate_idempotent lower_ascii h lower_ascii_is_ToLower c _ eq_refl).
Defined.

(** The passphrase read from a file. *)
Lemma resolvePassphrase_result_witness :
  resolvePassphrase (worldOf actionPending) " " " /run/pass " = Ok "s3cret"
  /\ TrimSpace "s3cret" = "s3cret"
  /\ passphraseReader "s3cret" <> None.
Proof.
  pose proof (resolvePassphrase_result (worldOf actionPending) " " " /run/pass " "s3cret"
                                       eq_refl) as (H1 & _ & H3 & _).
  split; [reflexivity|]. split; [exact H1|].
  intros Hn. apply H3 in Hn. destruct Hn as [_ Hn]. vm_compute in Hn. discriminate Hn.
Defined.

(** A validated configuration whose passphrase is kept in a file. *)
Lemma passphrase_after_validation_witness :
  let w := worldOf actionPending in
  let c := setPassphrases "" "/run/pass" sampleConfig in
  exists pass, resolvePassphrase w "" "/run/pass" = Ok pass /\ pass <> "".
Proof.
  intros w c.
  destruct (passphrase_after_validation lower_ascii w c (Validate lower_ascii (host w) c).1
              eq_refl eq_refl) as (pass & Hp & Hiff).
  exists pass. split; [exact Hp|].
  intros He. apply Hiff in He. destruct He as [_ He]. vm_compute in He. discriminate He.
Defined.

(** The test backend without a keyring directory uses the home setting. *)
Lemma keyringDir_after_validation_witness :
  let w := worldOf actionPending in
  keyringDir fold_ascii
             (Controller (Validate lower_ascii (host w) (setBackend " TEST " sampleConfig)).1)
  = "/home/u/.osmosisd".
Proof.
  intros w.
  destruct (keyringDir_after_validation lower_ascii fold_ascii w fold_ascii_is_EqualFold
              (setBackend " TEST " sampleConfig) _ eq_refl) as [H _].
  etransitivity; [exact H|reflexivity].
Defined.

(** Two bytes and then three, against five at once, over three bytes of
    data. *)
Lemma Read_split_witness :
  let r := mkRepeatReader [x61; x62; x0a] 1 in
  exists r1 o1 r2 o2 o,
    Read r [x00; x00] = Some (r1, o1, 2, None)
    /\ Read r1 [x00; x00; x00] = Some (r2, o2, 3, None)
    /\ Read r [x00; x00; x00; x00; x00] = Some (r2, o, 5, None)
    /\ o = o1 ++ o2.
Proof.
  intros r.
  assert (Hd : data r <> []) by discriminate.
  assert (Hp : pos r <= length (data r)) by (simpl; lia).
  exact (Read_split r [x00; x00] [x00; x00; x00] [x00; x00; x00; x00; x00] Hd Hp eq_refl).
Defined.

(** A first upload that goes through. *)
Lemma upload_fresh_report_witness :
  let run := newUploadCmd lower_ascii fold_ascii samplePending (worldOf actionPending)
                          sampleApp "f.bin" "" true [] in
  outcome run = Ok tt
  /\ (fun p : payload => (p !! "tx_hash", p !! "ica_address", p !! "file"))
       <$> written (trace run)
     = [(Some (JString "A1B2"), Some (JString "lumera1ica"), Some (JString "/cwd/f.bin"))].
Proof.
  pose (w := worldOf actionPending).
  pose proof (upload_fresh_report lower_ascii fold_ascii samplePending w sampleApp
                "f.bin" "" true [] "f.bin" sampleConfig "/cwd/f.bin"
                (trace (NewCascadeClient fold_ascii w sampleConfig))
                (mkClient (CascadeHandle 2) (KeyringHandle 1) "osmo1alice")
                (trace (NewICAController w sampleConfig (KeyringHandle 1)))
                (mkController (Some (ICAHandle 4)))
                eq_refl eq_refl eq_refl eq_refl eq_refl eq_refl) as (i & Hi & _ & Hok).
  injection Hi as <-.
  destruct (Hok "lumera1ica" (mkActionResult "7" "A1B2" "task-7") eq_refl eq_refl)
    as (p & Ht & Ho & _ & _ & Htx & _ & Hica & _ & _ & Hfile).
  subst w. cbv zeta. split; [rewrite Ho; reflexivity|].
  rewrite Ht. simpl. by rewrite Htx, Hica, Hfile.
Defined.

(** With an override the approval goes through although no account is
    registered for the controller key. *)
Lemma approve_with_override_witness :
  let run := newActionApproveCmd lower_ascii fold_ascii worldNoAccount sampleApp
                                 "42" "lumera1xyz" [] in
  outcome run = Ok tt
  /\ (fun p : payload => (p !! "tx_hash", p !! "ica_address")) <$> written (trace run)
     = [(Some (JString "C3D4"), Some (JString "lumera1xyz"))].
Proof.
  pose (w := worldNoAccount).
  pose proof (approve_with_override lower_ascii fold_ascii w sampleApp
                "42" "lumera1xyz" [] "42" sampleConfig
                (trace (NewCascadeClient fold_ascii w sampleConfig))
                (mkClient (CascadeHandle 2) (KeyringHandle 1) "osmo1alice")
                (trace (NewICAController w sampleConfig (KeyringHandle 1)))
                (mkController (Some (ICAHandle 4)))
                eq_refl eq_refl eq_refl eq_refl) as H.
  destruct H as (i & Hi & _ & Hok); [vm_compute; discriminate|].
  injection Hi as <-.
  destruct (Hok (mkMsgApproveAction "lumera1xyz" "42") eq_refl) as (_ & Hsent).
  destruct (Hsent "C3D4" eq_refl) as (p & Ht & Ho & _ & _ & Htx & Hica & _).
  subst w. cbv zeta. split; [rewrite Ho; reflexivity|].
  rewrite Ht. simpl. by rewrite Htx, Hica.
Defined.

(** A download whose action carries the file name. *)
Lemma download_report_witness :
  let run := newDownloadCmd lower_ascii fold_ascii (worldOf actionPending) sampleApp
                            "" "out" ["42"] in
  outcome run = Ok tt
  /\ (fun p : payload => (p !! "output_path", p !! "file_name")) <$> written (trace run)
     = [(Some (JString "out/42"), Some (JString "f.bin"))].
Proof.
  pose (w := worldOf actionPending).
  pose proof (download_report lower_ascii fold_ascii w sampleApp
                "" "out" ["42"] "42" sampleConfig
                (trace (NewCascadeClient fold_ascii w sampleConfig))
                (mkClient (CascadeHandle 2) (KeyringHandle 1) "osmo1alice")
                (trace (NewICAController w sampleConfig (KeyringHandle 1)))
                (mkController (Some (ICAHandle 4)))
                eq_refl eq_refl eq_refl eq_refl eq_refl) as (i & Hi & _ & Hok).
  injection Hi as <-.
  destruct (Hok (mkDownloadResult "42" "task-42" "out/42") (BlockchainHandle 3)
                actionPending (mkCascadeMetadata true "f.bin")
                eq_refl eq_refl eq_refl eq_refl)
    as (Ht & Ho & _ & _ & _ & Hout & Hname).
  set (p := downloadPayload _ _) in Ht, Ho, Hout, Hname. clearbody p.
  subst w. cbv zeta. split; [rewrite Ho; reflexivity|].
  rewrite Ht. simpl. by rewrite Hout, Hname.
Defined.

(** The status of a known action, and of one the ledger does not know. *)
Lemma status_report_witness :
  let run := newActionStatusCmd lower_ascii fold_ascii (worldOf actionPending) sampleApp
                                "42" [] in
  let lost := newActionStatusCmd lower_ascii fold_ascii worldNoAction sampleApp "42" [] in
  outcome run = Ok tt
  /\ (fun p : payload => (p !! "state", p !! "is_public", p !! "app_pubkey"))
       <$> written (trace run)
     = [(Some (JString "ACTION_STATE_PENDING"), Some (JBool true), Some (JString "AhE="))]
  /\ outcome lost = Err "rpc error: code = NotFound desc = action 42 not found"
  /\ written (trace lost) = [].
Proof.
  assert (H := fun w => status_report lower_ascii fold_ascii w sampleApp "42" [] "42"
                 sampleConfig (trace (NewCascadeClient fold_ascii w sampleConfig))
                 (mkClient (CascadeHandle 2) (KeyringHandle 1) "osmo1alice")
                 (BlockchainHandle 3)).
  cbv zeta. split; [|split].
  - destruct (H (worldOf actionPending) eq_refl eq_refl eq_refl eq_refl) as (_ & Hok).
    destruct (Hok actionPending eq_refl) as (p & Hw & Ho & _). rewrite Ho. reflexivity.
  - destruct (H (worldOf actionPending) eq_refl eq_refl eq_refl eq_refl) as (_ & Hok).
    destruct (Hok actionPending eq_refl)
      as (p & Hw & _ & _ & _ & Hs & _ & _ & _ & _ & _ & Hp & Hk).
    rewrite Hw. simpl. by rewrite Hs, Hp, Hk.
  - destruct (H worldNoAction eq_refl eq_refl eq_refl eq_refl) as (Herr & _).
    exact (Herr _ eq_refl).
Defined.

(** Paths without a tilde stay as they are; a home directory under the
    tilde is expanded and the Lumera settings are kept. *)
Lemma ExpandPaths_scope_witness :
  let h := sampleHost sampleConfig "s3cret" in
  ExpandPaths h sampleConfig = (sampleConfig, None)
  /\ exists c', ExpandPaths h (setHome "~/.osmosisd" sampleConfig) = (c', None)
                /\ Lumera c' = sampleLumera.
Proof.
  intros h. split.
  - destruct (ExpandPaths_scope h sampleConfig) as (_ & Hsame & _). by apply Hsame.
  - destruct (ExpandPaths_scope h (setHome "~/.osmosisd" sampleConfig))
      as (Hscope & _ & Hhome).
    destruct (Hhome "/home/u" eq_refl) as [c' Hc']. exists c'. split; [exact Hc'|].
    by destruct (Hscope c' None Hc') as [-> _].
Defined.


(** A reader without data, and three bytes read from the second of two. *)
Lemma Read_invariant_witness :
  Read (mkRepeatReader [] 0) [x00] = Some (mkRepeatReader [] 0, [x00], 0, Some EOF)
  /\ exists r' p',
       Read (mkRepeatReader [x61; x0a] 1) [x00; x00; x00] = Some (r', p', 3, None)
       /\ p' = [x0a; x61; x0a].
Proof.
  split.
  - by apply (Read_invariant (mkRepeatReader [] 0) [x00]).
  - destruct (Read_invariant (mkRepeatReader [x61; x0a] 1) [x00; x00; x00]) as [_ H].
    destruct H as (r' & p' & HR & _ & _ & _ & Hp & _); [discriminate|simpl; lia|].
    exists r', p'. split; [exact HR|]. rewrite Hp. reflexivity.
Defined.

(** The sample configuration: keystore, then the SDK client under the
    Lumera address of the key. *)
Lemma NewCascadeClient_steps_witness :
  let w := worldOf actionPending in
  exists params ccfg,
    trace (NewCascadeClient fold_ascii w sampleConfig)
    = [EvNewKeyring params; EvCascadeNew ccfg (KeyringHandle 1)]
    /\ casc_Address ccfg = "lumera1alice".
Proof.
  intros w.
  destruct (NewCascadeClient_steps fold_ascii w sampleConfig) as (Hb & Hok).
  destruct (Hok (trace (NewCascadeClient fold_ascii w sampleConfig))
                (mkClient (CascadeHandle 2) (KeyringHandle 1) "osmo1alice") eq_refl)
    as (_ & params & ccfg & Ht & _).
  exists params, ccfg. split; [exact Ht|].
  destruct (Hb ccfg (KeyringHandle 1)) as (_ & _ & _ & Ha).
  - rewrite Ht. elem_find.
  - vm_compute in Ha. injection Ha as Ha. symmetry. exact Ha.
Defined.

(** The gas price of the sample configuration reaches the controller. *)
Lemma NewICAController_gas_prices_witness :
  let w := worldOf actionPending in
  exists icfg,
    trace (NewICAController w sampleConfig (KeyringHandle 1)) = [EvNewController icfg]
    /\ (bc_GasPrice (ica_Controller icfg), bc_FeeDenom (ica_Controller icfg))
       = (25000000000000000%Z, "uosmo").
Proof.
  intros w. eexists. split; [reflexivity|].
  destruct (NewICAController_gas_prices w sampleConfig (KeyringHandle 1)) as (H & _).
  match goal with
  | |- (bc_GasPrice (ica_Controller ?i), _) = _ =>
      destruct (H i) as (_ & _ & _ & Hc); [by apply list_elem_of_here|]
  end.
  apply Hc; [vm_compute; discriminate|reflexivity].
Defined.

(** The sample configuration names its binary; without one the chain id
    names the keystore. *)
Lemma keyringAppName_after_validation_witness :
  let w := worldOf actionPending in
  let bare :=
    mkConfig sampleLumera
             (ControllerConfig.mk "osmo-test-5" "localhost:9190" "http://localhost:26757"
                                  "" "/home/u/.osmosisd" "alice" "cosmos" "test" ""
                                  "" "" "0.025uosmo" "osmo" "connection-0" "connection-7") in
  keyringAppName w (Controller (Validate lower_ascii (host w) sampleConfig).1) = "osmosisd"
  /\ keyringAppName w (Controller (Validate lower_ascii (host w) bare).1) = "osmo-test-5".
Proof.
  intros w bare. split.
  - destruct (keyringAppName_after_validation lower_ascii w sampleConfig _ eq_refl)
      as [_ H].
    etransitivity; [exact H|reflexivity].
  - destruct (keyringAppName_after_validation lower_ascii w bare _ eq_refl) as [_ H].
    etransitivity; [exact H|reflexivity].
Defined.
